(** * Verkeersbesluiten ingestion pipeline: a shallow embedding

    The development follows [get_besluiten_for_date.py], [api_config.py] and
    the route [get_besluiten_by_date] of [api.py].

    Conventions of the embedding:
    - a Python [str] or [bytes] value is a [string]; every character stands
      for one code point (or byte) below 256;
    - [None] is [None] of an [option]; a [dict] is a [gmap];
    - wall-clock time is kept in whole milliseconds ([Z]);
    - functions that touch the network, the clock, the function attributes of
      [make_rate_limited_request] or the file system live in the monad [M],
      a state monad over [World] in which a Python exception can be raised;
    - library code the program calls ([requests.get], [ET.fromstring],
      [bytes.decode], [convert_from_bytes], [Image.save],
      [should_download_image]) is a variable of the section [Pipeline]:
      every theorem there holds whatever these collaborators do. *)

From Stdlib Require Import ZArith Lia Ascii String List Bool.
From stdpp Require Import base option list gmap strings.

Local Open Scope Z_scope.

(* ===================================================================== *)
(** * Python strings                                                      *)
(* ===================================================================== *)

Module PyStr.

Definition code (c : ascii) : N := N_of_ascii c.

Definition in_range (lo hi : N) (c : ascii) : bool :=
  ((lo <=? code c) && (code c <=? hi))%N.

(** [str.isspace] on one character (code points below 256). *)
Definition isspace (c : ascii) : bool :=
  in_range 9 13 c || in_range 28 32 c || (code c =? 133)%N || (code c =? 160)%N.

(** [str.lower] on one character: A-Z and the Latin-1 capitals. *)
Definition lower_char (c : ascii) : ascii :=
  if in_range 65 90 c then ascii_of_N (code c + 32)
  else if in_range 192 222 c && negb (code c =? 215)%N then ascii_of_N (code c + 32)
  else c.

Fixpoint lower (s : string) : string :=
  match s with
  | EmptyString => EmptyString
  | String c r => String (lower_char c) (lower r)
  end.

Fixpoint lstrip (s : string) : string :=
  match s with
  | String c r => if isspace c then lstrip r else s
  | EmptyString => EmptyString
  end.

Fixpoint rstrip (s : string) : string :=
  match s with
  | EmptyString => EmptyString
  | String c r =>
      match rstrip r with
      | EmptyString => if isspace c then EmptyString else String c EmptyString
      | r' => String c r'
      end
  end.

(** [s.strip()] *)
Definition strip (s : string) : string := rstrip (lstrip s).

(** [sub in s] *)
Fixpoint contains (sub s : string) : bool :=
  String.prefix sub s ||
  match s with
  | EmptyString => false
  | String _ r => contains sub r
  end.

(** [s.split(sep)[-1]] for a one-character separator: what follows the
    last separator, the whole string when there is none. *)
Fixpoint last_segment (sep : ascii) (s : string) : string :=
  match s with
  | EmptyString => EmptyString
  | String c r =>
      if Ascii.eqb c sep then last_segment sep r
      else if contains (String sep EmptyString) r then last_segment sep r
      else s
  end.

(** [s.replace(sub, empty)] for a non-empty [sub]: occurrences are removed
    from left to right, without overlap.  [skip] counts the characters of
    an occurrence still to be dropped. *)
Fixpoint remove_from (sub : string) (skip : nat) (s : string) : string :=
  match s with
  | EmptyString => EmptyString
  | String c r =>
      match skip with
      | S k => remove_from sub k r
      | O =>
          if String.prefix sub s
          then remove_from sub (Nat.pred (String.length sub)) r
          else String c (remove_from sub O r)
      end
  end.

Definition remove (sub s : string) : string := remove_from sub O s.

(** Truth value of an optional string: [None] and the empty string are
    falsy. *)
Definition truthy (o : option string) : bool :=
  match o with
  | Some (String _ _) => true
  | _ => false
  end.

Definition digit (c : ascii) : option Z :=
  if in_range 48 57 c then Some (Z.of_N (code c) - 48) else None.

(** The white space that [int] skips around a numeral.  It is narrower than
    that of [str.strip]: the conversion keeps every character below 127 as
    it is and then skips the C white space only, so the separators 28 to 31
    are refused; the two Latin-1 spaces count as blanks. *)
Definition int_isspace (c : ascii) : bool :=
  in_range 9 13 c || (code c =? 32)%N || (code c =? 133)%N || (code c =? 160)%N.

Fixpoint int_lstrip (s : string) : string :=
  match s with
  | String c r => if int_isspace c then int_lstrip r else s
  | EmptyString => EmptyString
  end.

Fixpoint int_rstrip (s : string) : string :=
  match s with
  | EmptyString => EmptyString
  | String c r =>
      match int_rstrip r with
      | EmptyString => if int_isspace c then EmptyString else String c EmptyString
      | r' => String c r'
      end
  end.

(** CPython's default limit on the number of digits of a decimal numeral
    ([sys.int_info.default_max_str_digits]). *)
Definition INT_MAX_STR_DIGITS : N := 4300.

(** The digits of [int(s)]: at least one digit, single underscores only
    between digits, and no more digits than the limit ([count] is the
    number of digits read so far, leading zeros included). *)
Fixpoint int_digits (acc : Z) (count : N) (after_digit : bool) (s : string) : option Z :=
  match s with
  | EmptyString =>
      if after_digit && (count <=? INT_MAX_STR_DIGITS)%N then Some acc else None
  | String c r =>
      match digit c with
      | Some d => int_digits (10 * acc + d) (count + 1) true r
      | None =>
          if Ascii.eqb c "_" && after_digit then int_digits acc count false r else None
      end
  end.

(** [int(s)] in base 10; [None] stands for [ValueError]. *)
Definition int (s : string) : option Z :=
  match int_rstrip (int_lstrip s) with
  | String "+" r => int_digits 0 0 false r
  | String "-" r => Z.opp <$> int_digits 0 0 false r
  | t => int_digits 0 0 false t
  end.

End PyStr.

(* ===================================================================== *)
(** * Configuration ([api_config.py])                                     *)
(* ===================================================================== *)

Definition EXCLUDE_KEYWORDS : list string :=
  [ "parkeerplaats"; "laadpaal"; "gehandicapt"; "oplaadpunt";
    "parkeerverbod"; "parkeervergunning"; "parkeerregime";
    "parkeermogelijkheden"; "parkeervoorzieningen";
    "parkeersituatie"; "parkeersituaties"; "parkeerplaatsen";
    "parkeerplaatsvoorzieningen" ].

Definition MIN_PDF_SIZE_BYTES : Z := 50000.
Definition SRU_BASE_URL : string := "https://repository.overheid.nl/sru".
Definition SRU_VERSION : string := "2.0".
Definition SRU_OPERATION : string := "searchRetrieve".
Definition MAX_RECORDS_PER_REQUEST : string := "900".
(** Seconds in the source, milliseconds here. *)
Definition REQUEST_DELAY : Z := 2000.
Definition MAX_RETRIES : nat := 3.
Definition RETRY_DELAY_MULTIPLIER : Z := 2.
Definition SUCCESSFUL_REQUESTS_TO_RESET : Z := 5.
Definition REPOSITORY_BASE_URL : string :=
  "https://repository.officiele-overheidspublicaties.nl".
Definition ZOEK_BASE_URL : string := "https://zoek.officielebekendmakingen.nl".
Definition AFBEELDINGEN_DIR : string := "afbeeldingen".

(** The double-quote character of the query template. *)
Definition dquote : string := String (ascii_of_N 34) EmptyString.

(** [QUERY_TEMPLATE.format(date_start=.., date_end=.., exclude_keywords=..)] *)
Definition QUERY_TEMPLATE (date_start date_end exclude_keywords : string) : string :=
  "(c.product-area==officielepublicaties AND dt.modified>=" +:+ date_start +:+
  " AND dt.modified<=" +:+ date_end +:+
  " AND dt.type = " +:+ dquote +:+ "verkeersbesluit " +:+ dquote +:+
  " AND cql.allRecords =1 NOT dt.title any " +:+ dquote +:+
  exclude_keywords +:+ dquote +:+
  " AND cql.allRecords=1 NOT dt.alternative any " +:+ dquote +:+
  exclude_keywords +:+ dquote +:+ " )".

(* ===================================================================== *)
(** * Exceptions, results and the effect monad                            *)
(* ===================================================================== *)

(** The exception classes the pipeline meets.  [Exception] stands for any
    other subclass of Python's [Exception], named by its class. *)
Inductive exn : Type :=
  | RequestException
  | ParseError
  | ValueError
  | OverflowError
  | Exception (class : string).

Inductive result (A : Type) : Type :=
  | Ok (a : A)
  | Raise (e : exn).
Arguments Ok {A} a.
Arguments Raise {A} e.

(** What [requests.get] hands back. *)
Record Response : Type := mkResponse {
  status_code : Z;
  headers : list (string * string);
  content : string
}.

(** [response.ok]: [raise_for_status] complains for 400..599 only. *)
Definition response_ok (r : Response) : bool :=
  negb ((400 <=? status_code r) && (status_code r <? 600)).

(** [bool(response)] is [response.ok]; [bool(None)] is false. *)
Definition response_truthy (o : option Response) : bool :=
  match o with
  | Some r => response_ok r
  | None => false
  end.

(** [response.headers.get(name)]: header names compare without case. *)
Fixpoint headers_get (name : string) (hs : list (string * string)) : option string :=
  match hs with
  | [] => None
  | (k, v) :: rest =>
      if String.eqb (PyStr.lower k) (PyStr.lower name) then Some v
      else headers_get name rest
  end.

Inductive Outcome : Type :=
  | Responded (r : Response)
  | TransportError.

(** One exchange with the network: its outcome and the time it took. *)
Record Exchange : Type := mkExchange {
  outcome : Outcome;
  elapsed : Z
}.

Inductive Event : Type :=
  | EvSleep (ms : Z)
  | EvGet (url : string) (params : list (string * string)).

(** The surroundings of the program: the three function attributes of
    [make_rate_limited_request], the clock, the requests issued so far, the
    files written and the directories that exist; and two traits of the
    platform that the program cannot change: the longest sleep its timer
    grants, and the paths under which the file system accepts no file (no
    permission, no room, a name it cannot store). *)
Record World : Type := mkWorld {
  _rate_limited : bool;
  _last_request_time : Z;
  _successful_requests : Z;
  clock : Z;
  requests_made : nat;
  trace : list Event;
  files : gmap string string;
  dirs : gset string;
  sleep_limit : Z;
  refused : gset string
}.

(** The attributes as the [hasattr] branch creates them on the first call,
    before any directory is made, on a platform whose timer grants no more
    than it must and whose file system refuses no path. *)
Definition World0 : World :=
  mkWorld false 0 0 0 0 [] ∅ ∅ 0 ∅.

Definition M (A : Type) : Type := World -> result A * World.

Definition ret {A} (a : A) : M A := fun w => (Ok a, w).
Definition raise {A} (e : exn) : M A := fun w => (Raise e, w).
Definition bind {A B} (m : M A) (k : A -> M B) : M B :=
  fun w => match m w with
           | (Ok a, w') => k a w'
           | (Raise e, w') => (Raise e, w')
           end.

Notation "'do' x <- m ; k" := (bind m (fun x => k))
  (at level 10, x name, m at level 100, k at level 200).
Notation "m ;; k" := (bind m (fun _ => k))
  (at level 100, k at level 200, right associativity).

(** [try: m except <classes accepted by handler>: ...] *)
Definition try_except {A} (m : M A) (handler : exn -> option (M A)) : M A :=
  fun w => match m w with
           | (Ok a, w') => (Ok a, w')
           | (Raise e, w') =>
               match handler e with
               | Some h => h w'
               | None => (Raise e, w')
               end
           end.

Definition get_rate_limited : M bool := fun w => (Ok (_rate_limited w), w).
Definition get_last_request_time : M Z := fun w => (Ok (_last_request_time w), w).
Definition get_successful_requests : M Z := fun w => (Ok (_successful_requests w), w).

Definition set_rate_limited (b : bool) : M unit := fun w =>
  (Ok tt, mkWorld b (_last_request_time w) (_successful_requests w)
                  (clock w) (requests_made w) (trace w) (files w) (dirs w) (sleep_limit w) (refused w)).
Definition set_last_request_time (t : Z) : M unit := fun w =>
  (Ok tt, mkWorld (_rate_limited w) t (_successful_requests w)
                  (clock w) (requests_made w) (trace w) (files w) (dirs w) (sleep_limit w) (refused w)).
Definition set_successful_requests (n : Z) : M unit := fun w =>
  (Ok tt, mkWorld (_rate_limited w) (_last_request_time w) n
                  (clock w) (requests_made w) (trace w) (files w) (dirs w) (sleep_limit w) (refused w)).

(** [time.time()] *)
Definition time_time : M Z := fun w => (Ok (clock w), w).

(** Largest delay, in milliseconds, that CPython converts to its signed
    64-bit count of nanoseconds. *)
Definition SLEEP_MAX : Z := 9223372036000.

(** A delay that every timer CPython has used grants: it fits an unsigned
    32-bit count of milliseconds, the narrowest of them. *)
Definition SLEEP_SAFE : Z := 4294967295.

(** [time.sleep]: a delay that does not convert is an [OverflowError], a
    negative one a [ValueError], one beyond what the timer of the platform
    grants an [OSError]; otherwise the clock advances.  The timer grants at
    least [SLEEP_SAFE]. *)
Definition time_sleep (ms : Z) : M unit := fun w =>
  if SLEEP_MAX <? Z.abs ms then (Raise OverflowError, w)
  else if ms <? 0 then (Raise ValueError, w)
  else if Z.max SLEEP_SAFE (sleep_limit w) <? ms then (Raise (Exception "OSError"), w)
  else (Ok tt, mkWorld (_rate_limited w) (_last_request_time w) (_successful_requests w)
                       (clock w + ms) (requests_made w)
                       (trace w ++ [EvSleep ms]) (files w) (dirs w)
                       (sleep_limit w) (refused w)).

(** The directory of a path: what stands before its last slash. *)
Fixpoint parent (path : string) : string :=
  match path with
  | EmptyString => EmptyString
  | String c r => if PyStr.contains "/" r then String c (parent r) else EmptyString
  end.

(** Writing a file: an [OSError] when the directory of the path does not
    exist or the file system refuses the path. *)
Definition write_file (path data : string) : M unit := fun w =>
  if bool_decide (parent path ∈ dirs w) && negb (bool_decide (path ∈ refused w)) then
    (Ok tt, mkWorld (_rate_limited w) (_last_request_time w) (_successful_requests w)
                    (clock w) (requests_made w) (trace w) (<[path := data]> (files w))
                    (dirs w) (sleep_limit w) (refused w))
  else (Raise (Exception "OSError"), w).

(** [Path.mkdir(exist_ok=True)] *)
Definition mkdir (path : string) : M unit := fun w =>
  (Ok tt, mkWorld (_rate_limited w) (_last_request_time w) (_successful_requests w)
                  (clock w) (requests_made w) (trace w) (files w) ({[path]} ∪ dirs w) (sleep_limit w) (refused w)).

(** How a block of statements ends: [Continue] when control goes on after
    it (the end of the block, or [continue] in a loop body), [Return] when
    the enclosing function returns. *)
Inductive ctl (A : Type) : Type :=
  | Continue
  | Return (a : A).
Arguments Continue {A}.
Arguments Return {A} a.

(** A library call that answers or raises, without touching the world. *)
Definition lift {A} (r : result A) : M A := fun w => (r, w).

(* ===================================================================== *)
(** * The fetcher: [make_rate_limited_request]                            *)
(* ===================================================================== *)

Section Fetcher.

(** The remote side: the exchange that answers the [n]-th request of the
    process, given its URL and query parameters. *)
Variable network : nat -> string -> list (string * string) -> Exchange.

(** [requests.get(url, timeout=timeout, **kwargs)]: the request is logged,
    the clock advances, and a transport failure is a [RequestException]. *)
Definition requests_get (url : string) (params : list (string * string)) : M Response :=
  fun w =>
    let x := network (requests_made w) url params in
    let w' := mkWorld (_rate_limited w) (_last_request_time w) (_successful_requests w)
                      (clock w + elapsed x) (S (requests_made w))
                      (trace w ++ [EvGet url params]) (files w) (dirs w) (sleep_limit w) (refused w) in
    match outcome x with
    | Responded r => (Ok r, w')
    | TransportError => (Raise RequestException, w')
    end.

(** The wait before the request: exponential backoff on a retry, the rest
    of the minimum interval on a first attempt while throttled. *)
Definition wait_before (attempt : nat) : M unit :=
  if (0 <? attempt)%nat then
    time_sleep (REQUEST_DELAY * RETRY_DELAY_MULTIPLIER ^ (Z.of_nat attempt - 1))
  else
    do limited <- get_rate_limited;
    if limited && (attempt =? 0)%nat then
      do now <- time_time;
      do last <- get_last_request_time;
      let time_since_last := now - last in
      if time_since_last <? REQUEST_DELAY
      then time_sleep (REQUEST_DELAY - time_since_last)
      else ret tt
    else ret tt.

(** The branch [response.status_code == 429]. *)
Definition on_429 (response : Response) : M unit :=
  do limited <- get_rate_limited;
  (if negb limited then set_rate_limited true else ret tt) ;;
  set_successful_requests 0 ;;
  let retry_after := headers_get "Retry-After" (headers response) in
  if PyStr.truthy retry_after then
    match PyStr.int (default EmptyString retry_after) with
    | Some wait_time => time_sleep (wait_time * 1000)
    | None => raise ValueError
    end
  else ret tt.

(** The branch [response.ok]. *)
Definition on_ok : M unit :=
  do n <- get_successful_requests;
  set_successful_requests (n + 1) ;;
  do limited <- get_rate_limited;
  do n' <- get_successful_requests;
  if limited && (SUCCESSFUL_REQUESTS_TO_RESET <=? n') then
    set_rate_limited false ;;
    set_successful_requests 0
  else ret tt.

(** The handler [except requests.RequestException]. *)
Definition on_request_exception (attempt : nat) : M (ctl (option Response)) :=
  set_successful_requests 0 ;;
  if (attempt =? MAX_RETRIES)%nat then ret (Return None) else ret Continue.

(** One turn of the loop [for attempt in range(MAX_RETRIES + 1)]. *)
Definition attempt_body (url : string) (params : list (string * string))
    (attempt : nat) : M (ctl (option Response)) :=
  try_except
    (wait_before attempt ;;
     do response <- requests_get url params;
     do now <- time_time;
     set_last_request_time now ;;
     if status_code response =? 429 then
       on_429 response ;;
       ret Continue
     else
       (if response_ok response then on_ok else set_successful_requests 0) ;;
       ret (Return (Some response)))
    (fun e => match e with
              | RequestException => Some (on_request_exception attempt)
              | _ => None
              end).

Fixpoint attempts_loop (url : string) (params : list (string * string))
    (attempts : list nat) : M (option Response) :=
  match attempts with
  | [] => ret None
  | attempt :: rest =>
      do c <- attempt_body url params attempt;
      match c with
      | Continue => attempts_loop url params rest
      | Return r => ret r
      end
  end.

Definition make_rate_limited_request (url : string)
    (params : list (string * string)) : M (option Response) :=
  attempts_loop url params (seq 0 (MAX_RETRIES + 1)).

End Fetcher.

(* ===================================================================== *)
(** * ElementTree values                                                  *)
(* ===================================================================== *)

(** An [xml.etree.ElementTree.Element]: tag (with the namespace in braces),
    attributes, text before the first child, children, text after the end
    tag. *)
#[local] Unset Elimination Schemes.
Inductive Element : Type :=
  mkElement (tag : string) (attrib : gmap string string) (text : option string)
            (children : list Element) (tail : option string).

#[local] Set Elimination Schemes.

Definition tag (e : Element) : string :=
  match e with mkElement t _ _ _ _ => t end.
Definition attrib (e : Element) : gmap string string :=
  match e with mkElement _ a _ _ _ => a end.
Definition text (e : Element) : option string :=
  match e with mkElement _ _ t _ _ => t end.
Definition children (e : Element) : list Element :=
  match e with mkElement _ _ _ c _ => c end.
Definition tail (e : Element) : option string :=
  match e with mkElement _ _ _ _ t => t end.

(** A text or tail that [itertext] yields: the falsy ones are left out. *)
Definition yield_text (o : option string) : list string :=
  match o with
  | Some (String c r) => [String c r]
  | _ => []
  end.

(** [list(e.itertext())] *)
Fixpoint itertext (e : Element) : list string :=
  match e with
  | mkElement _ _ t cs _ =>
      yield_text t ++
      List.flat_map (fun c => itertext c ++ yield_text (tail c)) cs
  end.

(** The elements below [e], in document order ([e] itself left out). *)
Fixpoint descendants (e : Element) : list Element :=
  match e with
  | mkElement _ _ _ cs _ => List.flat_map (fun c => c :: descendants c) cs
  end.

(** [e.findall(name)]: the children of [e] with that tag. *)
Definition findall_children (name : string) (e : Element) : list Element :=
  List.filter (fun c => String.eqb (tag c) name) (children e).

(** [e.findall(".//" + name)]: the descendants of [e] with that tag. *)
Definition findall_descendants (name : string) (e : Element) : list Element :=
  List.filter (fun c => String.eqb (tag c) name) (descendants e).

(** [sep.join(parts)] *)
Fixpoint join (sep : string) (parts : list string) : string :=
  match parts with
  | [] => EmptyString
  | [p] => p
  | p :: rest => p +:+ sep +:+ join sep rest
  end.

(** [re.search("exb-[^/]+", s)]: the leftmost place where the prefix is
    followed by a character other than a slash; the match runs up to the
    next slash. *)
Fixpoint until_slash (s : string) : string :=
  match s with
  | EmptyString => EmptyString
  | String c r => if Ascii.eqb c "/" then EmptyString else String c (until_slash r)
  end.

Fixpoint re_search_exb (s : string) : option string :=
  match s with
  | EmptyString => None
  | String _ r =>
      match s with
      | String "e" (String "x" (String "b" (String "-" (String c r')))) =>
          if Ascii.eqb c "/" then re_search_exb r
          else Some ("exb-" +:+ until_slash (String c r'))
      | _ => re_search_exb r
      end
  end.

(* ===================================================================== *)
(** * Metadata and image references                                       *)
(* ===================================================================== *)

(** A value of the metadata dictionary: a string, or the list of area
    markings, each a dictionary whose values may be [None]. *)
Inductive MetaValue : Type :=
  | MStr (s : string)
  | MAreas (areas : list (gmap string (option string))).

Definition GEBIEDSMARKERING : string := "OVERHEIDop.gebiedsmarkering".
Definition EXTERNE_BIJLAGE : string := "OVERHEIDop.externeBijlage".

(** The inner loop of [parse_metadata_block]: the dictionary [gebied] of one
    area-marking entry [m]. *)
Definition gebied_step (gebied : gmap string (option string)) (sub : Element)
    : gmap string (option string) :=
  let sub_name := attrib sub !! "name" in
  let sub_content := attrib sub !! "content" in
  if decide (sub_name = Some "OVERHEIDop.geometrie") then
    <["geometrie" := sub_content]> gebied
  else if decide (sub_name = Some "OVERHEIDop.geometrieLabel") then
    <["label" := sub_content]> gebied
  else gebied.

Definition gebied_of (m : Element) : gmap string (option string) :=
  fold_left gebied_step (findall_children "metadata" m)
            {["type" := attrib m !! "content"]}.

(** The body of the outer loop, on the pair [(metadata, gebiedsmarkeringen)]. *)
Definition metadata_step
    (acc : gmap string MetaValue * list (gmap string (option string)))
    (m : Element) : gmap string MetaValue * list (gmap string (option string)) :=
  let name := attrib m !! "name" in
  let content := attrib m !! "content" in
  if decide (name = Some GEBIEDSMARKERING) then
    (acc.1, acc.2 ++ [gebied_of m])
  else if PyStr.truthy name && PyStr.truthy content then
    (<[default EmptyString name := MStr (PyStr.strip (default EmptyString content))]> acc.1,
     acc.2)
  else acc.

Definition parse_metadata_block (meta_root : Element) : gmap string MetaValue :=
  let acc := fold_left metadata_step (findall_children "metadata" meta_root) (∅, []) in
  match acc.2 with
  | [] => acc.1
  | _ :: _ => <[GEBIEDSMARKERING := MAreas acc.2]> acc.1
  end.

Definition get_pdf_attachment_image_urls (exb_code : string) : list string :=
  [REPOSITORY_BASE_URL +:+ "/externebijlagen/" +:+ exb_code +:+ "/1/bijlage/" +:+
   exb_code +:+ ".pdf"].

(** The per-document result: the dictionary [combined_data]. *)
Record DocumentRecord : Type := mkDocumentRecord {
  doc_id : string;
  doc_text : string;
  doc_metadata : gmap string MetaValue;
  doc_images : list string
}.

Definition SRU_NS : string := "{http://docs.oasis-open.org/ns/search-ws/sruResponse}".
Definition GZD_NS : string := "{http://standaarden.overheid.nl/sru}".

(** The dictionary [item_urls] of one search record. *)
Definition item_urls_of (record : Element) : gmap (option string) (option string) :=
  fold_left (fun d item => <[attrib item !! "manifestation" := text item]> d)
            (findall_descendants (GZD_NS +:+ "itemUrl") record) ∅.

(** [item_urls.get(key)] *)
Definition item_urls_get (d : gmap (option string) (option string)) (key : string)
    : option string :=
  default None (d !! Some key).

(* ===================================================================== *)
(** * The pipeline                                                        *)
(* ===================================================================== *)

Section Pipeline.

Variable network : nat -> string -> list (string * string) -> Exchange.
(** [ET.fromstring]; [None] stands for [ET.ParseError]. *)
Variable fromstring : string -> option Element.
(** [bytes.decode("utf-8", errors="ignore")] *)
Variable decode : string -> string.
(** A rendered PDF page, [convert_from_bytes(data, dpi=PDF_CONVERSION_DPI)],
    the PNG encoding done by [page.save], and the classifier's verdict. *)
Variable Page : Type.
Variable convert_from_bytes : string -> result (list Page).
Variable page_png : Page -> result string.
Variable should_download_image : string -> result bool.

Definition extract_plain_text_from_xml (xml_string : string) : string :=
  match fromstring xml_string with
  | Some root => PyStr.strip (join " " (itertext root))
  | None => EmptyString
  end.

(** The loop body of [get_embedded_image_urls_from_xml]. *)
Definition embedded_step (image_urls : list string) (ill : Element) : list string :=
  let naam := attrib ill !! "naam" in
  if negb (PyStr.truthy naam) then image_urls
  else image_urls ++ [ZOEK_BASE_URL +:+ "/" +:+ default EmptyString naam].

Definition get_embedded_image_urls_from_xml (xml_string : string) : list string :=
  match fromstring xml_string with
  | None => []
  | Some root => fold_left embedded_step (findall_descendants "illustratie" root) []
  end.

(** Lines 227-233 of [get_besluiten_for_date]: the image references of one
    document, the PDF attachment first.  [re.search] on a value that is
    not a string is a [TypeError]. *)
Definition locate (metadata : gmap string MetaValue) (content : string)
    : result (list string) :=
  match metadata !! EXTERNE_BIJLAGE with
  | Some (MStr (String c r)) =>
      match re_search_exb (String c r) with
      | Some code => Ok (get_pdf_attachment_image_urls code ++
                         get_embedded_image_urls_from_xml content)
      | None => Ok (get_embedded_image_urls_from_xml content)
      end
  | Some (MAreas (_ :: _)) => Raise (Exception "TypeError")
  | _ => Ok (get_embedded_image_urls_from_xml content)
  end.

(** Lines 220-225: the metadata of one record. *)
Definition fetch_metadata (metadata_url : option string) : M (gmap string MetaValue) :=
  if PyStr.truthy metadata_url then
    do meta_resp <- make_rate_limited_request network (default EmptyString metadata_url) [];
    if response_truthy meta_resp then
      match fromstring (from_option content EmptyString meta_resp) with
      | Some meta_root => ret (parse_metadata_block meta_root)
      | None => raise ParseError
      end
    else ret ∅
  else ret ∅.

(** One turn of [for record in records]: [None] when the record is
    skipped by [continue], the assembled dictionary otherwise. *)
Definition record_body (record : Element) : M (option DocumentRecord) :=
  let item_urls := item_urls_of record in
  let content_url := item_urls_get item_urls "xml" in
  let metadata_url := item_urls_get item_urls "metadata" in
  if negb (PyStr.truthy content_url) then ret None
  else
    let content_url := default EmptyString content_url in
    do xml_resp <- make_rate_limited_request network content_url [];
    if negb (response_truthy xml_resp) then ret None
    else
      let content := decode (from_option content EmptyString xml_resp) in
      if existsb (fun k => PyStr.contains k (PyStr.lower content)) EXCLUDE_KEYWORDS
      then ret None
      else
        let filename := PyStr.last_segment "/" content_url in
        do metadata <- fetch_metadata metadata_url;
        do image_urls <- lift (locate metadata content);
        ret (Some (mkDocumentRecord (PyStr.remove ".xml" filename)
                                    (extract_plain_text_from_xml content)
                                    metadata image_urls)).

Fixpoint records_loop (records : list Element) (all_day_data : list DocumentRecord)
    : M (list DocumentRecord) :=
  match records with
  | [] => ret all_day_data
  | record :: rest =>
      do r <- record_body record;
      records_loop rest (all_day_data ++ from_option (fun d => [d]) [] r)
  end.

Definition sru_params (date_str : string) : list (string * string) :=
  [ ("version", SRU_VERSION);
    ("operation", SRU_OPERATION);
    ("query", QUERY_TEMPLATE date_str date_str (join " " EXCLUDE_KEYWORDS));
    ("maximumRecords", MAX_RECORDS_PER_REQUEST) ].

(** The assignment to [Image.MAX_IMAGE_PIXELS] has no counterpart: no
    image is decoded by the functions modelled here. *)
Definition get_besluiten_for_date (date_str : string) : M (list DocumentRecord) :=
  mkdir AFBEELDINGEN_DIR ;;
  do response <- make_rate_limited_request network SRU_BASE_URL (sru_params date_str);
  if negb (response_truthy response) then ret []
  else
    match fromstring (from_option content EmptyString response) with
    | None => ret []
    | Some root =>
        records_loop (findall_descendants (SRU_NS +:+ "recordData") root) []
    end.

(** [page.save(output_path, "PNG")] *)
Definition page_save (page : Page) (output_path : string) : M unit :=
  do data <- lift (page_png page);
  write_file output_path data.

(** The inner [try] of [download_en_convert_pdf_bijlage], on the first
    page. *)
Definition first_page (page : Page) (besluit_id : string) : M (ctl string) :=
  try_except
    (do img_bytes <- lift (page_png page);
     let output_path := AFBEELDINGEN_DIR +:+ "/" +:+ besluit_id +:+ "_page_1_bijlage.png" in
     do verdict <- lift (should_download_image img_bytes);
     if verdict then
       page_save page output_path ;;
       let relative_path := "afbeeldingen/" +:+ besluit_id +:+ "_page_1_bijlage.png" in
       ret (Return ("/" +:+ relative_path))
     else ret (Return EmptyString))
    (fun _ => Some (ret Continue)).

Definition download_en_convert_pdf_bijlage (pdf_exb_code besluit_id : string) : M string :=
  let url := REPOSITORY_BASE_URL +:+ "/externebijlagen/" +:+ pdf_exb_code +:+
             "/1/bijlage/" +:+ pdf_exb_code +:+ ".pdf" in
  do c <- try_except
    (do resp <- make_rate_limited_request network url [];
     if response_truthy resp
        && (from_option status_code 0 resp =? 200)
        && (MIN_PDF_SIZE_BYTES <?
              Z.of_nat (String.length (from_option content EmptyString resp)))
     then
       do images <- lift (convert_from_bytes (from_option content EmptyString resp));
       match images with
       | [] => ret (Return EmptyString)
       | page :: _ => first_page page besluit_id
       end
     else ret Continue)
    (fun _ => Some (ret Continue));
  match c with
  | Return image_url => ret image_url
  | Continue => ret EmptyString
  end.

End Pipeline.

(* ===================================================================== *)
(** * The route [get_besluiten_by_date] of [api.py]                       *)
(* ===================================================================== *)

Module Route.

Definition isdigit (c : ascii) : bool := PyStr.in_range 48 57 c.

(** The path constraint [^\d{4}-\d{2}-\d{2}$] as Python's [re] reads it:
    the dollar also matches before one final newline. *)
Definition path_pattern (s : string) : bool :=
  match s with
  | String y1 (String y2 (String y3 (String y4 (String h1
      (String m1 (String m2 (String h2 (String d1 (String d2 r))))))))) =>
      isdigit y1 && isdigit y2 && isdigit y3 && isdigit y4 && Ascii.eqb h1 "-"
      && isdigit m1 && isdigit m2 && Ascii.eqb h2 "-" && isdigit d1 && isdigit d2
      && (String.eqb r EmptyString || String.eqb r (String (ascii_of_N 10) EmptyString))
  | _ => false
  end.

Definition dval (c : ascii) : Z := Z.of_N (PyStr.code c) - 48.

(** The month field of [strptime]: [1[0-2]|0[1-9]|[1-9]], then the rest. *)
Definition read_month (s : string) : option (Z * string) :=
  match s with
  | String a (String b r) =>
      if Ascii.eqb a "1" && PyStr.in_range 48 50 b then Some (10 + dval b, r)
      else if Ascii.eqb a "0" && PyStr.in_range 49 57 b then Some (dval b, r)
      else if PyStr.in_range 49 57 a then Some (dval a, String b r)
      else None
  | String a r => if PyStr.in_range 49 57 a then Some (dval a, r) else None
  | EmptyString => None
  end.

(** The day field: [3[01]|[12]\d|0[1-9]|[1-9]| [1-9]], then the rest. *)
Definition read_day (s : string) : option (Z * string) :=
  match s with
  | String a (String b r) =>
      if Ascii.eqb a "3" && PyStr.in_range 48 49 b then Some (30 + dval b, r)
      else if PyStr.in_range 49 50 a && isdigit b then Some (10 * dval a + dval b, r)
      else if Ascii.eqb a "0" && PyStr.in_range 49 57 b then Some (dval b, r)
      else if PyStr.in_range 49 57 a then Some (dval a, String b r)
      else if Ascii.eqb a " " && PyStr.in_range 49 57 b then Some (dval b, r)
      else None
  | String a r => if PyStr.in_range 49 57 a then Some (dval a, r) else None
  | EmptyString => None
  end.

Definition is_leap (y : Z) : bool :=
  ((y mod 4 =? 0) && negb (y mod 100 =? 0)) || (y mod 400 =? 0).

Definition days_in_month (y m : Z) : Z :=
  if m =? 2 then (if is_leap y then 29 else 28)
  else if (m =? 4) || (m =? 6) || (m =? 9) || (m =? 11) then 30
  else 31.

(** [datetime.strptime(s, "%Y-%m-%d")]; [None] stands for [ValueError]. *)
Definition strptime (s : string) : option (Z * Z * Z) :=
  match s with
  | String y1 (String y2 (String y3 (String y4 (String h1 r1)))) =>
      if isdigit y1 && isdigit y2 && isdigit y3 && isdigit y4 && Ascii.eqb h1 "-" then
        let y := 1000 * dval y1 + 100 * dval y2 + 10 * dval y3 + dval y4 in
        match read_month r1 with
        | Some (m, String h2 r2) =>
            if Ascii.eqb h2 "-" then
              match read_day r2 with
              | Some (d, EmptyString) =>
                  if (1 <=? y) && (d <=? days_in_month y m) then Some (y, m, d) else None
              | _ => None
              end
            else None
        | _ => None
        end
      else None
  | _ => None
  end.

(** A string the route lets through: the path constraint holds and
    [strptime] accepts it. *)
Definition valid_date (s : string) : bool :=
  path_pattern s && bool_decide (is_Some (strptime s)).

(** What the route answers. *)
Inductive Reply : Type :=
  | Reply200 (besluiten_data : list DocumentRecord)
  | Reply404
  | RequestValidationError
  | HTTPException (status : Z).

Section Handler.

Variable network : nat -> string -> list (string * string) -> Exchange.
Variable fromstring : string -> option Element.
Variable decode : string -> string.
Variable Page : Type.
Variable convert_from_bytes : string -> result (list Page).
Variable page_png : Page -> result string.
Variable should_download_image : string -> result bool.

(** One turn of [for besluit in besluiten_data]; the dictionary is
    updated in place, so the turn yields the updated entry. *)
Definition besluit_body (besluit : DocumentRecord) : M DocumentRecord :=
  match doc_images besluit with
  | pdf_url :: others =>
      if PyStr.contains "externebijlagen" pdf_url then
        match re_search_exb pdf_url with
        | Some pdf_exb_code =>
            do image_url <- download_en_convert_pdf_bijlage network Page
                              convert_from_bytes page_png should_download_image
                              pdf_exb_code (doc_id besluit);
            match image_url with
            | String _ _ =>
                ret (mkDocumentRecord (doc_id besluit) (doc_text besluit)
                                      (doc_metadata besluit) (image_url :: others))
            | EmptyString =>
                ret (mkDocumentRecord (doc_id besluit) (doc_text besluit)
                                      (doc_metadata besluit) [])
            end
        | None => ret besluit
        end
      else ret besluit
  | [] => ret besluit
  end.

Fixpoint besluiten_loop (besluiten_data : list DocumentRecord)
    : M (list DocumentRecord) :=
  match besluiten_data with
  | [] => ret []
  | besluit :: rest =>
      do b <- besluit_body besluit;
      do bs <- besluiten_loop rest;
      ret (b :: bs)
  end.

Definition get_besluiten_by_date (date_str : string) : M Reply :=
  if negb (path_pattern date_str) then ret RequestValidationError
  else
    match strptime date_str with
    | None => ret (HTTPException 400)
    | Some _ =>
        try_except
          (do besluiten_data <- get_besluiten_for_date network fromstring decode date_str;
           match besluiten_data with
           | [] => ret Reply404
           | _ :: _ =>
               do updated <- besluiten_loop besluiten_data;
               ret (Reply200 updated)
           end)
          (fun _ => Some (ret (HTTPException 500)))
    end.

End Handler.

End Route.

(* ===================================================================== *)
(** * A reference XML reader for the examples                             *)
(* ===================================================================== *)

(** The theorems of this development hold for every [fromstring].  The
    examples need one that computes: [MiniXml.fromstring] reads the fragment
    of XML made of elements, attributes, character data, the predefined and
    numeric character references and namespace declarations, and builds the
    [Element] that [ET.fromstring] builds for such a document.  Whatever lies
    outside the fragment is rejected. *)
Module MiniXml.

Fixpoint span (p : ascii -> bool) (s : string) : string * string :=
  match s with
  | EmptyString => (EmptyString, EmptyString)
  | String c r =>
      if p c then let '(a, b) := span p r in (String c a, b)
      else (EmptyString, s)
  end.

Definition is_ws (c : ascii) : bool :=
  (PyStr.code c =? 32)%N || (PyStr.code c =? 9)%N || (PyStr.code c =? 10)%N
  || (PyStr.code c =? 13)%N.

Definition skip_ws (s : string) : string := (span is_ws s).2.

Definition is_quote (c : ascii) : bool :=
  (PyStr.code c =? 34)%N || (PyStr.code c =? 39)%N.

Definition is_name_char (c : ascii) : bool :=
  negb (is_ws c || is_quote c || Ascii.eqb c "<" || Ascii.eqb c ">"
        || Ascii.eqb c "/" || Ascii.eqb c "=" || Ascii.eqb c "&").

Definition hex_digit (c : ascii) : option N :=
  if PyStr.in_range 48 57 c then Some (PyStr.code c - 48)%N
  else if PyStr.in_range 65 70 c then Some (PyStr.code c - 55)%N
  else if PyStr.in_range 97 102 c then Some (PyStr.code c - 87)%N
  else None.

Fixpoint number (base : N) (acc : N) (s : string) : option N :=
  match s with
  | EmptyString => Some acc
  | String c r =>
      match hex_digit c with
      | Some d => if (d <? base)%N then number base (base * acc + d)%N r else None
      | None => None
      end
  end.

Definition char_of_code (o : option N) : option ascii :=
  match o with
  | Some n => if (0 <? n)%N && (n <? 256)%N then Some (ascii_of_N n) else None
  | None => None
  end.

(** The reference whose text follows the ampersand. *)
Definition read_ref (s : string) : option (ascii * string) :=
  let '(body, rest) := span (fun c => negb (Ascii.eqb c ";")) s in
  match rest with
  | String _ rest' =>
      let c :=
        match body with
        | String "#" (String "x" (String h hs)) => char_of_code (number 16 0 (String h hs))
        | String "#" (String d ds) => char_of_code (number 10 0 (String d ds))
        | _ =>
            if String.eqb body "amp" then Some "&"%char
            else if String.eqb body "lt" then Some "<"%char
            else if String.eqb body "gt" then Some ">"%char
            else if String.eqb body "quot" then Some (ascii_of_N 34)
            else if String.eqb body "apos" then Some "'"%char
            else None
        end in
      (fun c' => (c', rest')) <$> c
  | EmptyString => None
  end.

(** Character data up to a character accepted by [stop]; in an attribute
    value a [<] is an error and white space becomes a space. *)
Fixpoint read_chars (fuel : nat) (stop : ascii -> bool) (in_attr : bool) (s : string)
    : option (string * string) :=
  match fuel with
  | O => None
  | S f =>
      match s with
      | EmptyString => Some (EmptyString, EmptyString)
      | String c r =>
          if stop c then Some (EmptyString, s)
          else if Ascii.eqb c "&" then
            match read_ref r with
            | Some (ch, r') =>
                (fun p : string * string => (String ch p.1, p.2)) <$> read_chars f stop in_attr r'
            | None => None
            end
          else if in_attr && Ascii.eqb c "<" then None
          else
            let c' := if in_attr && is_ws c then " "%char else c in
            (fun p : string * string => (String c' p.1, p.2)) <$> read_chars f stop in_attr r
      end
  end.

(** The attributes of a start tag and how the tag ends: [true] for [/>]. *)
Fixpoint read_attrs (fuel : nat) (s : string) : option (list (string * string) * bool * string) :=
  match fuel with
  | O => None
  | S f =>
      match skip_ws s with
      | String ">" r => Some ([], false, r)
      | String "/" (String ">" r) => Some ([], true, r)
      | s1 =>
          if String.eqb s1 s then None
          else
            let '(name, r1) := span is_name_char s1 in
            match name, skip_ws r1 with
            | String _ _, String "=" r2 =>
                match skip_ws r2 with
                | String q r3 =>
                    if is_quote q then
                      match read_chars f (Ascii.eqb q) true r3 with
                      | Some (value, String _ r4) =>
                          match read_attrs f r4 with
                          | Some (rest, closed, r5) =>
                              if existsb (fun kv => String.eqb kv.1 name) rest then None
                              else Some ((name, value) :: rest, closed, r5)
                          | None => None
                          end
                      | _ => None
                      end
                    else None
                | EmptyString => None
                end
            | _, _ => None
            end
      end
  end.

(** A qualified name cut at its colon. *)
Definition split_qname (q : string) : option string * string :=
  let '(a, b) := span (fun c => negb (Ascii.eqb c ":")) q in
  match b with
  | String _ local => (Some a, local)
  | EmptyString => (None, a)
  end.

Fixpoint ns_lookup (prefix : string) (ns : list (string * string)) : option string :=
  match ns with
  | [] => None
  | (p, uri) :: rest => if String.eqb p prefix then Some uri else ns_lookup prefix rest
  end.

Definition clark (uri local : string) : string := "{" +:+ uri +:+ "}" +:+ local.

Definition resolve_tag (ns : list (string * string)) (q : string) : option string :=
  match split_qname q with
  | (Some p, local) => (fun uri => clark uri local) <$> ns_lookup p ns
  | (None, local) =>
      match ns_lookup EmptyString ns with
      | Some (String c u) => Some (clark (String c u) local)
      | _ => Some local
      end
  end.

(** The namespace bindings a start tag declares, in front of [ns]. *)
Fixpoint declare (attrs : list (string * string)) (ns : list (string * string))
    : list (string * string) :=
  match attrs with
  | [] => ns
  | (k, v) :: rest =>
      if String.eqb k "xmlns" then (EmptyString, v) :: declare rest ns
      else match split_qname k with
           | (Some p, local) =>
               if String.eqb p "xmlns" then (local, v) :: declare rest ns
               else declare rest ns
           | _ => declare rest ns
           end
  end.

(** The attribute dictionary: declarations dropped, prefixes resolved. *)
Fixpoint resolve_attrs (ns : list (string * string)) (attrs : list (string * string))
    : option (gmap string string) :=
  match attrs with
  | [] => Some ∅
  | (k, v) :: rest =>
      match resolve_attrs ns rest with
      | None => None
      | Some d =>
          if String.eqb k "xmlns" then Some d
          else match split_qname k with
               | (Some p, local) =>
                   if String.eqb p "xmlns" then Some d
                   else (fun uri => <[clark uri local := v]> d) <$> ns_lookup p ns
               | (None, _) => Some (<[k := v]> d)
               end
      end
  end.

Definition opt_text (s : string) : option string :=
  match s with
  | EmptyString => None
  | _ => Some s
  end.

Definition set_tail (e : Element) (t : option string) : Element :=
  mkElement (tag e) (attrib e) (text e) (children e) t.

(** [element] reads an element whose [<] is already consumed; [contents]
    reads character data and child elements up to the [</] of the parent
    and returns the leading text, the children and what follows [</]. *)
Fixpoint element (fuel : nat) (ns : list (string * string)) (s : string)
    : option (Element * string) :=
  match fuel with
  | O => None
  | S f =>
      let '(qname, r1) := span is_name_char s in
      match qname, read_attrs f r1 with
      | String _ _, Some (attrs, closed, r2) =>
          let ns' := declare attrs ns in
          match resolve_tag ns' qname, resolve_attrs ns' attrs with
          | Some t, Some a =>
              if closed : bool then Some (mkElement t a None [] None, r2)
              else
                match
                  (fix contents (g : nat) (s : string)
                     : option (option string * list Element * string) :=
                     match g with
                     | O => None
                     | S g' =>
                         match read_chars g' (Ascii.eqb "<") false s with
                         | Some (txt, String _ (String "/" r)) => Some (opt_text txt, [], r)
                         | Some (txt, String _ r) =>
                             match element f ns' r with
                             | Some (child, r') =>
                                 match contents g' r' with
                                 | Some (tl, siblings, r'') =>
                                     Some (opt_text txt, set_tail child tl :: siblings, r'')
                                 | None => None
                                 end
                             | None => None
                             end
                         | _ => None
                         end
                     end) (S (String.length r2)) r2
                with
                | Some (txt, kids, r3) =>
                    let '(qname', r4) := span is_name_char r3 in
                    if String.eqb qname' qname then
                      match skip_ws r4 with
                      | String ">" r5 => Some (mkElement t a txt kids None, r5)
                      | _ => None
                      end
                    else None
                | None => None
                end
          | _, _ => None
          end
      | _, _ => None
      end
  end.

Definition XML_NS : list (string * string) :=
  [("xml", "http://www.w3.org/XML/1998/namespace")].

Definition fromstring (s : string) : option Element :=
  match skip_ws s with
  | String "<" r =>
      match element (S (String.length s)) XML_NS r with
      | Some (e, rest) =>
          match skip_ws rest with
          | EmptyString => Some e
          | _ => None
          end
      | None => None
      end
  | _ => None
  end.

End MiniXml.

(* ===================================================================== *)
(** * Example worlds                                                      *)
(* ===================================================================== *)

Module Examples.

Definition url : string := "https://example.org/doc".

(** An answer with the given status, headers and body, after 120 ms. *)
Definition answer (status : Z) (hs : list (string * string)) (body : string) : Exchange :=
  mkExchange (Responded (mkResponse status hs body)) 120.

Definition unreachable : Exchange := mkExchange TransportError 30.

Definition always (x : Exchange) : nat -> string -> list (string * string) -> Exchange :=
  fun _ _ _ => x.

(** The first request of the process is refused with 429, every later
    one succeeds. *)
Definition throttled_once : nat -> string -> list (string * string) -> Exchange :=
  fun n _ _ =>
    match n with
    | O => answer 429 [] EmptyString
    | S _ => answer 200 [] "ok"
    end.

(** 429 with a one-second [Retry-After] and transport failures in turn. *)
Definition flaky : nat -> string -> list (string * string) -> Exchange :=
  fun n _ _ =>
    if Nat.even n then answer 429 [("retry-after", "1")] EmptyString
    else unreachable.

(** A 429 whose [Retry-After] is an HTTP date, as RFC 9110 allows. *)
Definition retry_at_date : nat -> string -> list (string * string) -> Exchange :=
  always (answer 429 [("Retry-After", "Wed, 21 Oct 2015 07:28:00 GMT")] EmptyString).

(** The world after [k] calls to the fetcher in a row. *)
Definition after_calls (network : nat -> string -> list (string * string) -> Exchange)
    (k : nat) (w : World) : World :=
  Nat.iter k (fun w => (make_rate_limited_request network url [] w).2) w.

(** [bytes.decode] on ASCII bytes changes nothing. *)
Definition ascii_decode (b : string) : string := b.

(** A site: the pages it serves, by URL; 404 for anything else. *)
Fixpoint page_of (u : string) (pages : list (string * Exchange)) : Exchange :=
  match pages with
  | [] => answer 404 [] EmptyString
  | (k, x) :: rest => if String.eqb k u then x else page_of u rest
  end.

Definition site (pages : list (string * Exchange))
    : nat -> string -> list (string * string) -> Exchange :=
  fun _ u _ => page_of u pages.

(** The search response of the SRU service, written out. *)
Definition item (manifestation target : string) : string :=
  "<gzd:itemUrl manifestation='" +:+ manifestation +:+ "'>" +:+ target +:+
  "</gzd:itemUrl>".

Definition search_record (items : string) : string :=
  "<sru:record><sru:recordData><gzd:gzd><gzd:enrichedData>" +:+ items +:+
  "</gzd:enrichedData></gzd:gzd></sru:recordData></sru:record>".

Definition search_response (records : string) : string :=
  "<sru:searchRetrieveResponse" +:+
  " xmlns:sru='http://docs.oasis-open.org/ns/search-ws/sruResponse'" +:+
  " xmlns:gzd='http://standaarden.overheid.nl/sru'>" +:+
  "<sru:numberOfRecords>2</sru:numberOfRecords><sru:records>" +:+ records +:+
  "</sru:records></sru:searchRetrieveResponse>".

Definition doc1 : string := "https://repository.overheid.nl/frbr/stcrt-2024-101.xml".
Definition meta1 : string :=
  "https://repository.overheid.nl/frbr/stcrt-2024-101/metadata.xml".
Definition doc2 : string := "https://repository.overheid.nl/frbr/stcrt-2024-102.xml".

Definition two_records : string :=
  search_response
    (search_record (item "xml" doc1 +:+ item "metadata" meta1) +:+
     search_record (item "xml" doc2)).

(** Two decisions; the metadata document of the first one is cut short. *)
Definition broken_metadata_site : nat -> string -> list (string * string) -> Exchange :=
  site [ (SRU_BASE_URL, answer 200 [] two_records);
         (doc1, answer 200 [] "<besluit>Afsluiting Dorpsstraat</besluit>");
         (meta1, answer 200 []
            "<metadata_gegevens><metadata name='DC.title' content='Afsluiting'>");
         (doc2, answer 200 [] "<besluit>Inrichting schoolzone</besluit>") ].

(** The same two decisions; the metadata document is not found. *)
Definition missing_metadata_site : nat -> string -> list (string * string) -> Exchange :=
  site [ (SRU_BASE_URL, answer 200 [] two_records);
         (doc1, answer 200 [] "<besluit>Afsluiting Dorpsstraat</besluit>");
         (doc2, answer 200 [] "<besluit>Inrichting schoolzone</besluit>") ].

(** The first decision spells a keyword with a character reference, the
    second one has it in plain letters. *)
Definition reference_site : nat -> string -> list (string * string) -> Exchange :=
  site [ (SRU_BASE_URL, answer 200 [] two_records);
         (doc1, answer 200 [] "<besluit>Een laadpa&#97;l aan de Kade</besluit>");
         (doc2, answer 200 [] "<besluit>Een Laadpaal aan de Dijk</besluit>") ].

(** The body of the first decision is not XML. *)
Definition unparsable_site : nat -> string -> list (string * string) -> Exchange :=
  site [ (SRU_BASE_URL, answer 200 [] two_records);
         (doc1, answer 200 [] "Dit document is tijdelijk niet beschikbaar");
         (doc2, answer 200 [] "<besluit>Inrichting schoolzone</besluit>") ].

(** The search records of [two_records], as [get_besluiten_for_date] finds
    them. *)
Definition records_of (body : string) : list Element :=
  from_option (findall_descendants (SRU_NS +:+ "recordData")) []
              (MiniXml.fromstring body).

(** A PDF of a little more than [MIN_PDF_SIZE_BYTES] bytes. *)
Fixpoint padding (n : nat) : string :=
  match n with
  | O => EmptyString
  | S k => String "0" (padding k)
  end.

Definition pdf_bytes : string := "%PDF-1.7 " +:+ padding (N.to_nat 50000).

(** A renderer with one page per PDF, and a classifier that turns every
    image down. *)
Definition render (data : string) : result (list string) := Ok ["page 1"].
Definition encode (page : string) : result string := Ok ("PNG " +:+ page).
Definition never_a_map (img : string) : result bool := Ok false.

(** A metadata document with a title, two area markings, an external
    attachment and an entry without a name. *)
Definition metadata_document : string :=
  "<metadata_gegevens>" +:+
  "<metadata name='DC.title' content='  Afsluiting Hoofdweg '/>" +:+
  "<metadata name='OVERHEIDop.gebiedsmarkering' content='Lijn'>" +:+
  "<metadata name='OVERHEIDop.geometrie' content='POINT(4.88 52.37)'/>" +:+
  "<metadata name='OVERHEIDop.geometrieLabel' content='Hoofdweg'/>" +:+
  "</metadata>" +:+
  "<metadata name='OVERHEIDop.gebiedsmarkering' content='Vlak'>" +:+
  "<metadata name='OVERHEIDop.geometrie' content='POLYGON((4.8 52.3,4.9 52.3,4.9 52.4))'/>" +:+
  "</metadata>" +:+
  "<metadata name='OVERHEIDop.externeBijlage' content='exb-2024-30101'/>" +:+
  "<metadata content='zonder naam'/>" +:+
  "</metadata_gegevens>".

Definition no_element : Element := mkElement EmptyString ∅ None [] None.

(** A decision with two illustrations, and one whose first illustration
    has an empty file name. *)
Definition two_illustrations : string :=
  "<besluit><al>Zie de kaart.</al><illustratie naam='kaart.png'/>" +:+
  "<al>En de foto.</al><illustratie naam='foto.jpg'/></besluit>".

Definition empty_file_name : string :=
  "<besluit><illustratie naam=''/><illustratie naam='kaart.png'/></besluit>".

Definition attachment_metadata : gmap string MetaValue :=
  {[ EXTERNE_BIJLAGE := MStr "exb-2024-30101" ]}.

Definition root_of (body : string) : Element :=
  default no_element (MiniXml.fromstring body).

Definition illustration (body : string) (i : nat) : Element :=
  nth i (findall_descendants "illustratie" (root_of body)) no_element.

Definition metadata_root : Element :=
  default no_element (MiniXml.fromstring metadata_document).

(** The [i]-th child of the metadata document. *)
Definition metadata_entry (i : nat) : Element :=
  nth i (children metadata_root) no_element.

End Examples.

(* ===================================================================== *)
(** * Vocabulary of the statements                                        *)
(* ===================================================================== *)

(** The clock is not behind the time of the last request. *)
Definition wf_world (w : World) : Prop := _last_request_time w <= clock w.

(** A [Retry-After] value the 429 branch gets through: absent or empty, or
    a numeral that [int] reads, of a number of seconds that [time.sleep]
    grants on every platform. *)
Definition retry_after_ok (r : Response) : Prop :=
  match headers_get "Retry-After" (headers r) with
  | Some (String c s) =>
      exists n, PyStr.int (String c s) = Some n /\ 0 <= n /\ n * 1000 <= SLEEP_SAFE
  | _ => True
  end.

(** An exchange that leaves the loop of the fetcher running. *)
Definition retryable (x : Exchange) : Prop :=
  match outcome x with
  | Responded r => status_code r = 429 /\ retry_after_ok r
  | TransportError => True
  end.

(** What one turn of the loop does, by the exchange that answers it. *)
Definition turn_spec (attempt : nat) (w : World) (x : Exchange)
    (res : result (ctl (option Response))) (w' : World) : Prop :=
  match outcome x with
  | Responded r =>
      _last_request_time w' <= clock w' /\
      if status_code r =? 429 then
        _successful_requests w' = 0 /\ _rate_limited w' = true /\
        (retry_after_ok r -> res = Ok Continue)
      else
        res = Ok (Return (Some r)) /\
        if response_ok r then
          if _rate_limited w && (SUCCESSFUL_REQUESTS_TO_RESET <=? _successful_requests w + 1)
          then _successful_requests w' = 0 /\ _rate_limited w' = false
          else _successful_requests w' = _successful_requests w + 1 /\
               _rate_limited w' = _rate_limited w
        else _successful_requests w' = 0 /\ _rate_limited w' = _rate_limited w
  | TransportError =>
      (0 <= elapsed x -> _last_request_time w' <= clock w') /\
      _successful_requests w' = 0 /\ _rate_limited w' = _rate_limited w /\
      res = Ok (if (attempt =? MAX_RETRIES)%nat then Return None else Continue)
  end.

(** No exclusion keyword occurs in the lower-cased content. *)
Definition keyword_free (content : string) : Prop :=
  forall k, In k EXCLUDE_KEYWORDS -> PyStr.contains k (PyStr.lower content) = false.

(** The reading of a metadata document that the parser is measured
    against, in the words of its description. *)

Definition entry_name (m : Element) : option string := attrib m !! "name".
Definition entry_content (m : Element) : option string := attrib m !! "content".

(** An entry that denotes an area marking. *)
Definition is_area_marking (m : Element) : bool :=
  bool_decide (entry_name m = Some GEBIEDSMARKERING).

(** An entry with the name [k]. *)
Definition is_named (k : string) (m : Element) : bool :=
  bool_decide (entry_name m = Some k).

(** A scalar entry for the key [k]: not an area marking, named [k], with a
    name and a content that are present and not empty. *)
Definition is_scalar_for (k : string) (m : Element) : bool :=
  negb (is_area_marking m) && is_named k m
  && PyStr.truthy (entry_name m) && PyStr.truthy (entry_content m).

(** The scalar value of the key [k]: the trimmed content of the last scalar
    entry for it. *)
Definition scalar_value (k : string) (entries : list Element) : option string :=
  (fun m => PyStr.strip (default EmptyString (entry_content m)))
    <$> last (List.filter (is_scalar_for k) entries).

(** The content of the last nested entry of [m] named [k]. *)
Definition nested_content (k : string) (m : Element) : option (option string) :=
  entry_content <$> last (List.filter (is_named k) (findall_children "metadata" m)).

(** [g] is the area marking of the entry [m]. *)
Definition area_marking_of (m : Element) (g : gmap string (option string)) : Prop :=
  g !! "type" = Some (entry_content m) /\
  g !! "geometrie" = nested_content "OVERHEIDop.geometrie" m /\
  g !! "label" = nested_content "OVERHEIDop.geometrieLabel" m /\
  forall k, k <> "type" -> k <> "geometrie" -> k <> "label" -> g !! k = None.

(** The address of an external PDF attachment, as both
    [get_pdf_attachment_image_urls] and [download_en_convert_pdf_bijlage]
    build it. *)
Definition pdf_url (exb_code : string) : string :=
  REPOSITORY_BASE_URL +:+ "/externebijlagen/" +:+ exb_code +:+ "/1/bijlage/" +:+
  exb_code +:+ ".pdf".

(** The address of an embedded illustration. *)
Definition embedded_url (naam : string) : string := ZOEK_BASE_URL +:+ "/" +:+ naam.

(** What one turn of the loop does to the registers, in any world: either
    the wait before the request fails and nothing has changed, or one
    request is issued and the registers follow the exchange. *)
Definition turn_regs (attempt : nat) (w : World) (x : Exchange)
    (res : result (ctl (option Response))) (w' : World) : Prop :=
  ((exists e, res = Raise e) /\
   requests_made w' = requests_made w /\
   _rate_limited w' = _rate_limited w /\
   _successful_requests w' = _successful_requests w) \/
  (requests_made w' = S (requests_made w) /\
   match outcome x with
   | Responded r =>
       if status_code r =? 429 then
         _rate_limited w' = true /\ _successful_requests w' = 0 /\
         (res = Ok Continue \/ exists e, res = Raise e)
       else
         res = Ok (Return (Some r)) /\
         if response_ok r then
           if _rate_limited w && (SUCCESSFUL_REQUESTS_TO_RESET <=? _successful_requests w + 1)
           then _successful_requests w' = 0 /\ _rate_limited w' = false
           else _successful_requests w' = _successful_requests w + 1 /\
                _rate_limited w' = _rate_limited w
         else _successful_requests w' = 0 /\ _rate_limited w' = _rate_limited w
   | TransportError =>
       _successful_requests w' = 0 /\ _rate_limited w' = _rate_limited w /\
       res = Ok (if (attempt =? MAX_RETRIES)%nat then Return None else Continue)
   end).

(** The counter of successes is not negative and, while the process is
    throttled, below the threshold that lifts the throttle. *)
Definition counter_inv (w : World) : Prop :=
  0 <= _successful_requests w /\
  (_rate_limited w = true -> _successful_requests w < SUCCESSFUL_REQUESTS_TO_RESET).

(** The file names of a list of illustration elements: the values of
    [naam] that are present and not empty, in order. *)
Definition file_names (illustrations : list Element) : list string :=
  List.flat_map (fun ill => yield_text (attrib ill !! "naam")) illustrations.

(** The items of a search record that carry the given manifestation. *)
Definition has_manifestation (key : string) (item : Element) : bool :=
  bool_decide (attrib item !! "manifestation" = Some key).

(** The URL a search record gives for a manifestation: the text of the last
    item that carries it. *)
Definition url_of_record (key : string) (record : Element) : option string :=
  match last (List.filter (has_manifestation key)
                (findall_descendants (GZD_NS +:+ "itemUrl") record)) with
  | Some item => text item
  | None => None
  end.

(** A download that [download_en_convert_pdf_bijlage] goes on to render: a
    response with status 200 and more than [MIN_PDF_SIZE_BYTES] bytes. *)
Definition usable_pdf (fetched : result (option Response)) : bool :=
  match fetched with
  | Ok (Some resp) =>
      response_ok resp && (status_code resp =? 200)
      && (MIN_PDF_SIZE_BYTES <? Z.of_nat (String.length (content resp)))
  | _ => false
  end.

(** The file that holds the first page of the attachment of a decision, and
    the address under which it is served. *)
Definition bijlage_path (besluit_id : string) : string :=
  AFBEELDINGEN_DIR +:+ "/" +:+ besluit_id +:+ "_page_1_bijlage.png".
Definition bijlage_url (besluit_id : string) : string :=
  "/" +:+ ("afbeeldingen/" +:+ besluit_id +:+ "_page_1_bijlage.png").

(** A character that is not the one a pattern asks for. *)
Ltac other_char a H :=
  destruct a as [[] [] [] [] [] [] [] []]; try reflexivity; exfalso; apply H; reflexivity.

(** What the route may do to a decision: the id, the text and the metadata
    stay; the images stay, or are all dropped, or the first one is replaced
    by the address of the image of the decision. *)
Definition image_update (old new : DocumentRecord) : Prop :=
  doc_id new = doc_id old /\ doc_text new = doc_text old /\
  doc_metadata new = doc_metadata old /\
  (doc_images new = doc_images old \/
   doc_images new = [] \/
   exists first others,
     doc_images old = first :: others /\
     doc_images new = bijlage_url (doc_id old) :: others).

Ltac unfold_m :=
  unfold on_request_exception, on_429, on_ok, wait_before, requests_get,
    time_sleep, time_time, get_rate_limited, get_last_request_time,
    get_successful_requests, set_rate_limited, set_last_request_time,
    set_successful_requests, try_except, bind, ret, raise, lift in *.

(* ===================================================================== *)
(** * Facts about the fetcher *)
(* ===================================================================== *)

Section FetcherFacts.

Variable network : nat -> string -> list (string * string) -> Exchange.

Lemma backoff_bounds (attempt : nat) :
  (attempt <= MAX_RETRIES)%nat ->
  0 <= REQUEST_DELAY * RETRY_DELAY_MULTIPLIER ^ (Z.of_nat attempt - 1) <= 8000.
Proof.
  unfold MAX_RETRIES. intros H.
  destruct attempt as [|[|[|[|n]]]]; vm_compute; try (split; discriminate); lia.
Qed.

(** The wait never fails and touches only the clock and the trace. *)
Lemma wait_before_ok (attempt : nat) (w : World) :
  (attempt <= MAX_RETRIES)%nat -> wf_world w ->
  exists w1,
    wait_before attempt w = (Ok tt, w1) /\
    _rate_limited w1 = _rate_limited w /\
    _last_request_time w1 = _last_request_time w /\
    _successful_requests w1 = _successful_requests w /\
    requests_made w1 = requests_made w /\
    files w1 = files w /\ dirs w1 = dirs w /\
    clock w <= clock w1.
Proof.
  intros Ha Hwf. unfold wf_world in Hwf.
  pose proof (backoff_bounds attempt Ha) as Hb.
  unfold wait_before.
  destruct (0 <? attempt)%nat eqn:Hpos.
  - unfold time_sleep, SLEEP_MAX.
    set (d := REQUEST_DELAY * RETRY_DELAY_MULTIPLIER ^ (Z.of_nat attempt - 1)) in *.
    destruct (9223372036000 <? Z.abs d) eqn:E1; [apply Z.ltb_lt in E1; lia|].
    destruct (d <? 0) eqn:E2; [apply Z.ltb_lt in E2; lia|].
    destruct (Z.max SLEEP_SAFE (sleep_limit w) <? d) eqn:E3;
      [apply Z.ltb_lt in E3; unfold SLEEP_SAFE in E3; lia|].
    eexists; split; [reflexivity|]. simpl. repeat split; first [reflexivity | lia].
  - unfold_m. simpl.
    destruct (_rate_limited w && (attempt =? 0)%nat) eqn:E0.
    + destruct (clock w - _last_request_time w <? REQUEST_DELAY) eqn:E1.
      * apply Z.ltb_lt in E1. unfold REQUEST_DELAY, SLEEP_MAX in *.
        set (d := 2000 - (clock w - _last_request_time w)) in *.
        destruct (9223372036000 <? Z.abs d) eqn:E2; [apply Z.ltb_lt in E2; lia|].
        destruct (d <? 0) eqn:E3; [apply Z.ltb_lt in E3; lia|].
        destruct (Z.max SLEEP_SAFE (sleep_limit w) <? d) eqn:E4;
          [apply Z.ltb_lt in E4; unfold SLEEP_SAFE in E4; lia|].
        eexists; split; [reflexivity|]. simpl. repeat split; first [reflexivity | lia].
      * eexists; split; [reflexivity|]. repeat split; first [reflexivity | lia].
    + eexists; split; [reflexivity|]. repeat split; first [reflexivity | lia].
Qed.

(** Without any assumption: the wait leaves every register alone. *)
Lemma wait_before_regs (attempt : nat) (w : World) :
  let w1 := (wait_before attempt w).2 in
  _rate_limited w1 = _rate_limited w /\
  _successful_requests w1 = _successful_requests w /\
  requests_made w1 = requests_made w /\
  files w1 = files w /\ dirs w1 = dirs w.
Proof.
  unfold wait_before.
  destruct (0 <? attempt)%nat.
  - unfold time_sleep.
    repeat match goal with |- context [if ?b then _ else _] => destruct b end;
      simpl; repeat split; reflexivity.
  - unfold_m. simpl.
    repeat match goal with |- context [if ?b then _ else _] => destruct b end;
      simpl; repeat split; reflexivity.
Qed.

Lemma attempt_body_spec (url : string) (params : list (string * string))
    (attempt : nat) (w : World) :
  (attempt <= MAX_RETRIES)%nat -> wf_world w ->
  exists res w',
    attempt_body network url params attempt w = (res, w') /\
    requests_made w' = S (requests_made w) /\
    files w' = files w /\ dirs w' = dirs w /\
    turn_spec attempt w (network (requests_made w) url params) res w'.
Proof.
  intros Ha Hwf.
  destruct (wait_before_ok attempt w Ha Hwf)
    as (w1 & Hw & Hrl & Hlast & Hsucc & Hreq & Hfiles & Hdirs & Hclock).
  unfold attempt_body, try_except, bind at 1. rewrite Hw.
  unfold turn_spec, bind at 1, requests_get. rewrite Hreq.
  unfold wf_world in Hwf.
  destruct (outcome (network (requests_made w) url params)) as [r|] eqn:Hout.
  - unfold_m. simpl.
    destruct (status_code r =? 429) eqn:H429.
    + simpl. rewrite Hrl.
      unfold retry_after_ok.
      destruct (headers_get "Retry-After" (headers r)) as [[|c s]|] eqn:Hh; simpl.
      * destruct (_rate_limited w); simpl; do 2 eexists;
          (split; [reflexivity|]); simpl; repeat split; auto; lia.
      * destruct (PyStr.int (String c s)) as [n|] eqn:Hint.
        -- destruct (_rate_limited w); simpl; unfold SLEEP_MAX;
             repeat match goal with |- context [if ?b then _ else _] => destruct b eqn:? end;
             do 2 eexists; (split; [reflexivity|]); simpl; repeat split; auto; try lia;
             intros (n' & Hn' & Hpos & Hmax); inversion Hn'; subst n';
             unfold SLEEP_MAX, SLEEP_SAFE in *; lia.
        -- destruct (_rate_limited w); simpl; do 2 eexists;
             (split; [reflexivity|]); simpl; repeat split; auto; try lia;
             intros (n' & Hn' & _); discriminate.
      * destruct (_rate_limited w); simpl; do 2 eexists;
          (split; [reflexivity|]); simpl; repeat split; auto; lia.
    + destruct (response_ok r) eqn:Hok; simpl.
      * rewrite Hrl, Hsucc.
        destruct (_rate_limited w && (SUCCESSFUL_REQUESTS_TO_RESET <=? _successful_requests w + 1));
          simpl; do 2 eexists; (split; [reflexivity|]); simpl; repeat split; auto; lia.
      * do 2 eexists; (split; [reflexivity|]); simpl; repeat split; auto; lia.
  - unfold_m. simpl.
    destruct (attempt =? MAX_RETRIES)%nat; do 2 eexists;
      (split; [reflexivity|]); simpl; repeat split; auto; lia.
Qed.

(** Whatever the world and the turn number, a turn issues at most one
    request and writes no file. *)
Lemma attempt_body_le (url : string) (params : list (string * string))
    (attempt : nat) (w : World) res w' :
  attempt_body network url params attempt w = (res, w') ->
  (requests_made w' <= S (requests_made w))%nat /\
  files w' = files w /\ dirs w' = dirs w.
Proof.
  pose proof (wait_before_regs attempt w) as (_ & _ & Hreq & Hfiles & Hdirs).
  unfold attempt_body, try_except, bind at 1.
  destruct (wait_before attempt w) as [[[]|e] w1]; simpl in Hreq, Hfiles, Hdirs.
  - unfold bind at 1, requests_get.
    destruct (outcome (network (requests_made w1) url params)) as [r|].
    + unfold_m. simpl.
      repeat match goal with
             | |- context [if ?b then _ else _] => destruct b
             | |- context [match ?o with Some _ => _ | None => _ end] => destruct o
             end; simpl; intros [= <- <-]; simpl;
        rewrite ?Hreq, ?Hfiles, ?Hdirs; repeat split; auto.
    + unfold_m. simpl.
      destruct (attempt =? MAX_RETRIES)%nat; simpl; intros [= <- <-]; simpl;
        rewrite ?Hreq, ?Hfiles, ?Hdirs; repeat split; auto.
  - destruct e; unfold_m; simpl;
      repeat match goal with |- context [if ?b then _ else _] => destruct b end;
      simpl; intros [= <- <-]; simpl;
      rewrite ?Hreq, ?Hfiles, ?Hdirs; repeat split; auto.
Qed.

Lemma attempts_loop_le (url : string) (params : list (string * string))
    (attempts : list nat) (w : World) res w' :
  attempts_loop network url params attempts w = (res, w') ->
  (requests_made w' <= requests_made w + length attempts)%nat /\
  files w' = files w /\ dirs w' = dirs w.
Proof.
  revert w. induction attempts as [|a rest IH]; intros w; simpl.
  - intros [= <- <-]. repeat split; auto. lia.
  - unfold bind.
    destruct (attempt_body network url params a w) as [[[|r]|e] w1] eqn:Hbody;
      apply attempt_body_le in Hbody as (Hreq & Hfiles & Hdirs).
    + intros Hloop. apply IH in Hloop as (Hreq' & Hfiles' & Hdirs').
      repeat split; [lia | congruence | congruence].
    + intros [= <- <-]. repeat split; auto. lia.
    + intros [= <- <-]. repeat split; auto. lia.
Qed.

(** A call to the fetcher writes no file, whatever it meets. *)
Lemma make_rate_limited_request_files (url : string)
    (params : list (string * string)) (w : World) res w' :
  make_rate_limited_request network url params w = (res, w') ->
  files w' = files w /\ dirs w' = dirs w.
Proof.
  unfold make_rate_limited_request. intros H.
  apply attempts_loop_le in H as (_ & H1 & H2). split; assumption.
Qed.

(** A turn answered by a status other than 429 ends the call at once,
    with that response. *)
Lemma attempts_loop_response (url : string) (params : list (string * string))
    (attempt : nat) (rest : list nat) (w : World) (r : Response) :
  (attempt <= MAX_RETRIES)%nat -> wf_world w ->
  outcome (network (requests_made w) url params) = Responded r ->
  status_code r <> 429 ->
  exists w',
    attempts_loop network url params (attempt :: rest) w = (Ok (Some r), w') /\
    requests_made w' = S (requests_made w) /\
    wf_world w'.
Proof.
  intros Ha Hwf Hout H429.
  destruct (attempt_body_spec url params attempt w Ha Hwf)
    as (res & w' & Hbody & Hreq & _ & _ & Hspec).
  unfold turn_spec in Hspec. rewrite Hout in Hspec.
  apply Z.eqb_neq in H429. rewrite H429 in Hspec.
  destruct Hspec as (Hwf' & -> & _).
  exists w'. simpl. unfold bind. rewrite Hbody. auto.
Qed.

Lemma make_rate_limited_request_response (url : string)
    (params : list (string * string)) (w : World) (r : Response) :
  wf_world w ->
  outcome (network (requests_made w) url params) = Responded r ->
  status_code r <> 429 ->
  exists w',
    make_rate_limited_request network url params w = (Ok (Some r), w') /\
    requests_made w' = S (requests_made w) /\
    wf_world w'.
Proof.
  intros Hwf Hout H429. unfold make_rate_limited_request.
  apply (attempts_loop_response url params 0 (seq 1 MAX_RETRIES) w r); auto.
  unfold MAX_RETRIES. lia.
Qed.

(** When every exchange is a 429 or a transport failure, the turns left
    are all used and the call ends without a response. *)
Lemma attempts_loop_exhausted (url : string) (params : list (string * string))
    (n k : nat) (w : World) :
  (forall i, retryable (network i url params)) ->
  (forall i, 0 <= elapsed (network i url params)) ->
  (k + n = S MAX_RETRIES)%nat -> wf_world w ->
  exists w',
    attempts_loop network url params (seq k n) w = (Ok None, w') /\
    requests_made w' = (requests_made w + n)%nat.
Proof.
  intros Hretry Hel. revert k w.
  induction n as [|n IH]; intros k w Hk Hwf; simpl.
  - eexists; split; [reflexivity|]. lia.
  - assert (Ha : (k <= MAX_RETRIES)%nat) by lia.
    destruct (attempt_body_spec url params k w Ha Hwf)
      as (res & w1 & Hbody & Hreq & _ & _ & Hspec).
    unfold turn_spec in Hspec.
    specialize (Hretry (requests_made w)). specialize (Hel (requests_made w)).
    unfold retryable in Hretry.
    unfold bind. rewrite Hbody.
    destruct (outcome (network (requests_made w) url params)) as [r|].
    + destruct Hretry as (H429 & Hra).
      apply Z.eqb_eq in H429. rewrite H429 in Hspec.
      destruct Hspec as (Hwf1 & _ & _ & Hres). rewrite (Hres Hra).
      destruct (IH (S k) w1) as (w' & Hloop & Hreq'); [lia | exact Hwf1 |].
      exists w'. split; [exact Hloop | lia].
    + destruct Hspec as (Hwf1 & _ & _ & ->).
      destruct (k =? MAX_RETRIES)%nat eqn:Hlast.
      * apply Nat.eqb_eq in Hlast. assert (n = 0%nat) by lia. subst n.
        exists w1. split; [reflexivity | lia].
      * destruct (IH (S k) w1) as (w' & Hloop & Hreq'); [lia | exact (Hwf1 Hel) |].
        exists w'. split; [exact Hloop | lia].
Qed.

(** Where the guarantee of the fetcher does hold: as long as every 429
    carries a [Retry-After] that is absent, empty or a sleepable number of
    seconds, a call returns, with a response or with [None]. *)
Lemma attempts_loop_returns (url : string) (params : list (string * string))
    (n k : nat) (w : World) :
  (forall i r, outcome (network i url params) = Responded r ->
               status_code r = 429 -> retry_after_ok r) ->
  (forall i, 0 <= elapsed (network i url params)) ->
  (k + n = S MAX_RETRIES)%nat -> wf_world w ->
  exists res w', attempts_loop network url params (seq k n) w = (Ok res, w').
Proof.
  intros Hheader Hel. revert k w.
  induction n as [|n IH]; intros k w Hk Hwf; simpl.
  - do 2 eexists. reflexivity.
  - assert (Ha : (k <= MAX_RETRIES)%nat) by lia.
    destruct (attempt_body_spec url params k w Ha Hwf)
      as (res & w1 & Hbody & Hreq & _ & _ & Hspec).
    unfold turn_spec in Hspec.
    specialize (Hheader (requests_made w)). specialize (Hel (requests_made w)).
    unfold bind. rewrite Hbody.
    destruct (outcome (network (requests_made w) url params)) as [r|].
    + destruct Hspec as (Hwf1 & Hspec).
      destruct (status_code r =? 429) eqn:H429.
      * apply Z.eqb_eq in H429.
        destruct Hspec as (_ & _ & Hres). rewrite (Hres (Hheader r eq_refl H429)).
        apply (IH (S k) w1); [lia | exact Hwf1].
      * destruct Hspec as (-> & _). do 2 eexists. reflexivity.
    + destruct Hspec as (Hwf1 & _ & _ & ->).
      destruct (k =? MAX_RETRIES)%nat.
      * do 2 eexists. reflexivity.
      * apply (IH (S k) w1); [lia | exact (Hwf1 Hel)].
Qed.

End FetcherFacts.

Section FetcherOrigin.

Variable network : nat -> string -> list (string * string) -> Exchange.

(** A response handed back by a turn was served by the network. *)
Lemma attempt_body_origin (url : string) (params : list (string * string))
    (attempt : nat) (w : World) (r : Response) (w' : World) :
  attempt_body network url params attempt w = (Ok (Return (Some r)), w') ->
  exists n, outcome (network n url params) = Responded r.
Proof.
  unfold attempt_body, try_except, bind at 1.
  destruct (wait_before attempt w) as [[[]|e] w1].
  - unfold bind at 1, requests_get.
    destruct (outcome (network (requests_made w1) url params)) as [r0|] eqn:Hout.
    + unfold_m. simpl.
      repeat match goal with
             | |- context [if ?b then _ else _] => destruct b
             | |- context [match ?o with Some _ => _ | None => _ end] => destruct o
             end; simpl; intros [= <- <-] || intros [=]; eauto.
    + unfold_m. simpl.
      destruct (attempt =? MAX_RETRIES)%nat; simpl; intros [=].
  - destruct e; unfold_m; simpl;
      repeat match goal with |- context [if ?b then _ else _] => destruct b end;
      simpl; intros [=].
Qed.

Lemma make_rate_limited_request_origin (url : string)
    (params : list (string * string)) (w : World) (r : Response) (w' : World) :
  make_rate_limited_request network url params w = (Ok (Some r), w') ->
  exists n, outcome (network n url params) = Responded r.
Proof.
  unfold make_rate_limited_request.
  generalize (seq 0 (MAX_RETRIES + 1)). intros attempts. revert w.
  induction attempts as [|a rest IH]; intros w; simpl.
  - intros [=].
  - unfold bind.
    destruct (attempt_body network url params a w) as [[[|[r0|]]|e] w1] eqn:Hbody.
    + apply IH.
    + intros [= <- <-]. eapply attempt_body_origin; eauto.
    + intros [=].
    + intros [=].
Qed.

End FetcherOrigin.

(* ===================================================================== *)
(** * Facts about the metadata parser *)
(* ===================================================================== *)

Section MetadataFacts.

Lemma filter_snoc {A} (p : A -> bool) (l : list A) (x : A) :
  List.filter p (l ++ [x]) = List.filter p l ++ (if p x then [x] else []).
Proof. rewrite List.filter_app. reflexivity. Qed.

Lemma last_filter_snoc {A} (p : A -> bool) (l : list A) (x : A) :
  last (List.filter p (l ++ [x])) =
  if p x then Some x else last (List.filter p l).
Proof.
  rewrite filter_snoc. destruct (p x).
  - apply last_snoc.
  - rewrite app_nil_r. reflexivity.
Qed.

(** The inner loop, key by key. *)
Lemma gebied_fold (subs : list Element) (g : gmap string (option string)) :
  let g' := fold_left gebied_step subs g in
  g' !! "geometrie" =
    match last (List.filter (is_named "OVERHEIDop.geometrie") subs) with
    | Some s => Some (entry_content s)
    | None => g !! "geometrie"
    end /\
  g' !! "label" =
    match last (List.filter (is_named "OVERHEIDop.geometrieLabel") subs) with
    | Some s => Some (entry_content s)
    | None => g !! "label"
    end /\
  forall k, k <> "geometrie" -> k <> "label" -> g' !! k = g !! k.
Proof.
  induction subs as [|sub subs IH] using rev_ind; simpl.
  - auto.
  - rewrite fold_left_app. simpl.
    rewrite !last_filter_snoc.
    destruct IH as (IHg & IHl & IHo).
    unfold gebied_step at 1 3 5, is_named, entry_name.
    destruct (decide (attrib sub !! "name" = Some "OVERHEIDop.geometrie")) as [Hg|Hg].
    + rewrite (bool_decide_eq_true_2 _ Hg).
      assert (Hl : attrib sub !! "name" <> Some "OVERHEIDop.geometrieLabel")
        by (rewrite Hg; discriminate).
      rewrite (bool_decide_eq_false_2 _ Hl).
      repeat split.
      * apply lookup_insert_eq.
      * rewrite lookup_insert_ne by discriminate. exact IHl.
      * intros k Hk1 Hk2. rewrite lookup_insert_ne by congruence. auto.
    + rewrite (bool_decide_eq_false_2 _ Hg).
      destruct (decide (attrib sub !! "name" = Some "OVERHEIDop.geometrieLabel")) as [Hl|Hl].
      * rewrite (bool_decide_eq_true_2 _ Hl).
        repeat split.
        -- rewrite lookup_insert_ne by discriminate. exact IHg.
        -- apply lookup_insert_eq.
        -- intros k Hk1 Hk2. rewrite lookup_insert_ne by congruence. auto.
      * rewrite (bool_decide_eq_false_2 _ Hl). auto.
Qed.

Lemma gebied_of_spec (m : Element) : area_marking_of m (gebied_of m).
Proof.
  unfold area_marking_of, gebied_of, nested_content.
  destruct (gebied_fold (findall_children "metadata" m)
              {["type" := attrib m !! "content"]}) as (Hg & Hl & Ho).
  repeat split.
  - rewrite Ho by discriminate. apply lookup_singleton_eq.
  - rewrite Hg.
    destruct (last (List.filter (is_named "OVERHEIDop.geometrie") _)); [reflexivity|].
    apply lookup_singleton_ne. discriminate.
  - rewrite Hl.
    destruct (last (List.filter (is_named "OVERHEIDop.geometrieLabel") _)); [reflexivity|].
    apply lookup_singleton_ne. discriminate.
  - intros k H1 H2 H3. rewrite Ho by assumption.
    apply lookup_singleton_ne. congruence.
Qed.

(** The outer loop: the list of area markings grows in source order, and
    each key holds what its last scalar entry says. *)
Lemma metadata_fold (entries : list Element) (md : gmap string MetaValue)
    (gm : list (gmap string (option string))) :
  let acc := fold_left metadata_step entries (md, gm) in
  acc.2 = gm ++ map gebied_of (List.filter is_area_marking entries) /\
  forall k,
    acc.1 !! k =
      match scalar_value k entries with
      | Some v => Some (MStr v)
      | None => md !! k
      end.
Proof.
  induction entries as [|m entries IH] using rev_ind; simpl.
  - split; [rewrite app_nil_r; reflexivity | reflexivity].
  - rewrite fold_left_app. simpl.
    destruct IH as (IHgm & IHmd).
    set (acc := fold_left metadata_step entries (md, gm)) in *.
    unfold scalar_value in *.
    rewrite filter_snoc, map_app, app_assoc, <- IHgm.
    unfold metadata_step at 1 2, is_area_marking, entry_name.
    destruct (decide (attrib m !! "name" = Some GEBIEDSMARKERING)) as [Ha|Ha].
    + rewrite (bool_decide_eq_true_2 _ Ha). simpl. split; [reflexivity|].
      intros k. rewrite last_filter_snoc.
      unfold is_scalar_for at 1, is_area_marking, entry_name.
      rewrite (bool_decide_eq_true_2 _ Ha). simpl. apply IHmd.
    + rewrite (bool_decide_eq_false_2 _ Ha). simpl.
      destruct (PyStr.truthy (attrib m !! "name") && PyStr.truthy (attrib m !! "content"))
        eqn:Htruthy.
      * simpl. split; [rewrite app_nil_r; reflexivity|].
        apply andb_true_iff in Htruthy as (Hn & Hc).
        destruct (attrib m !! "name") as [name|] eqn:Hname; [|discriminate].
        intros k. rewrite last_filter_snoc.
        unfold is_scalar_for at 1, is_area_marking, is_named, entry_name, entry_content.
        rewrite Hname, (bool_decide_eq_false_2 _ Ha), Hn, Hc. simpl.
        destruct (decide (name = k)) as [->|Hk].
        -- rewrite bool_decide_eq_true_2 by reflexivity. simpl.
           apply lookup_insert_eq.
        -- rewrite bool_decide_eq_false_2 by congruence. simpl.
           rewrite lookup_insert_ne by assumption. apply IHmd.
      * simpl. split; [rewrite app_nil_r; reflexivity|].
        intros k. rewrite last_filter_snoc.
        unfold is_scalar_for at 1, entry_name, entry_content.
        replace (negb (is_area_marking m) && is_named k m
                 && PyStr.truthy (attrib m !! "name")
                 && PyStr.truthy (attrib m !! "content")) with false.
        -- apply IHmd.
        -- rewrite <- andb_assoc, Htruthy, andb_false_r. reflexivity.
Qed.

Lemma scalar_value_reserved (entries : list Element) :
  scalar_value GEBIEDSMARKERING entries = None.
Proof.
  unfold scalar_value.
  replace (List.filter (is_scalar_for GEBIEDSMARKERING) entries) with (@nil Element);
    [reflexivity|].
  induction entries as [|m entries IH]; simpl; [reflexivity|].
  unfold is_scalar_for at 1, is_area_marking, is_named.
  destruct (bool_decide (entry_name m = Some GEBIEDSMARKERING)); simpl; exact IH.
Qed.

(** The dictionary that [parse_metadata_block] returns, key by key. *)
Lemma parse_metadata_block_lookup (meta_root : Element) :
  let entries := findall_children "metadata" meta_root in
  let md := parse_metadata_block meta_root in
  md !! GEBIEDSMARKERING =
    match List.filter is_area_marking entries with
    | [] => None
    | areas => Some (MAreas (map gebied_of areas))
    end /\
  forall k, k <> GEBIEDSMARKERING -> md !! k = MStr <$> scalar_value k entries.
Proof.
  intros entries md. subst md. unfold parse_metadata_block. fold entries.
  destruct (metadata_fold entries ∅ []) as (Hgm & Hmd).
  simpl in Hgm. rewrite Hgm.
  destruct (List.filter is_area_marking entries) as [|a areas]; simpl.
  - split.
    + rewrite Hmd, scalar_value_reserved. apply lookup_empty.
    + intros k _. rewrite Hmd. destruct (scalar_value k entries); [reflexivity|].
      apply lookup_empty.
  - split.
    + apply lookup_insert_eq.
    + intros k Hk. rewrite lookup_insert_ne by congruence.
      rewrite Hmd. destruct (scalar_value k entries); [reflexivity|].
      apply lookup_empty.
Qed.

End MetadataFacts.

(* ===================================================================== *)
(** * Facts about the pipeline *)
(* ===================================================================== *)

Lemma keyword_free_existsb (content : string) :
  keyword_free content <->
  existsb (fun k => PyStr.contains k (PyStr.lower content)) EXCLUDE_KEYWORDS = false.
Proof.
  unfold keyword_free. split.
  - intros H. destruct (existsb _ _) eqn:E; [|reflexivity].
    apply existsb_exists in E as (k & Hin & Hk). rewrite (H k Hin) in Hk. discriminate.
  - intros E k Hin. destruct (PyStr.contains k (PyStr.lower content)) eqn:Hk; [|reflexivity].
    assert (existsb (fun k => PyStr.contains k (PyStr.lower content)) EXCLUDE_KEYWORDS = true)
      by (apply existsb_exists; eauto).
    congruence.
Qed.

Section PipelineFacts.

Variable network : nat -> string -> list (string * string) -> Exchange.
Variable fromstring : string -> option Element.
Variable decode : string -> string.

(** A failed metadata fetch leaves the record with an empty dictionary. *)
Lemma fetch_metadata_failed (metadata_url : string) (w : World)
    (meta_resp : option Response) (w1 : World) :
  PyStr.truthy (Some metadata_url) = true ->
  make_rate_limited_request network metadata_url [] w = (Ok meta_resp, w1) ->
  response_truthy meta_resp = false ->
  fetch_metadata network fromstring (Some metadata_url) w = (Ok ∅, w1).
Proof.
  intros Hurl Hreq Hfalsy. unfold fetch_metadata. rewrite Hurl.
  unfold bind. simpl. rewrite Hreq, Hfalsy. reflexivity.
Qed.

#[local] Opaque EXCLUDE_KEYWORDS.

(** What stands behind a record that a turn of the record loop yields. *)
Lemma record_body_some (record : Element) (w : World) (d : DocumentRecord) (w' : World) :
  record_body network fromstring decode record w = (Ok (Some d), w') ->
  exists content_url resp w1,
    item_urls_get (item_urls_of record) "xml" = Some content_url /\
    make_rate_limited_request network content_url [] w = (Ok (Some resp), w1) /\
    response_ok resp = true /\
    keyword_free (decode (content resp)) /\
    fetch_metadata network fromstring
      (item_urls_get (item_urls_of record) "metadata") w1 = (Ok (doc_metadata d), w') /\
    locate fromstring (doc_metadata d) (decode (content resp)) = Ok (doc_images d) /\
    doc_text d = extract_plain_text_from_xml fromstring (decode (content resp)) /\
    doc_id d = PyStr.remove ".xml" (PyStr.last_segment "/" content_url).
Proof.
  unfold record_body.
  destruct (item_urls_get (item_urls_of record) "xml") as [[|c s]|]; simpl;
    try (intros [=]; fail).
  unfold bind at 1.
  destruct (make_rate_limited_request network (String c s) [] w) as [[[resp|]|e] w1]
    eqn:Hreq; simpl; try (intros [=]; fail).
  destruct (response_ok resp) eqn:Hok; simpl; try (intros [=]; fail).
  destruct (existsb (fun k => PyStr.contains k (PyStr.lower (decode (content resp))))
              EXCLUDE_KEYWORDS) eqn:Hkw; try (unfold ret; intros [=]; fail).
  unfold bind at 1.
  destruct (fetch_metadata network fromstring _ w1) as [[md|e] w2] eqn:Hmeta;
    try (intros [=]; fail).
  unfold bind, lift.
  destruct (locate fromstring md (decode (content resp))) as [imgs|e] eqn:Hloc;
    try (intros [=]; fail).
  unfold ret. intros [= <- <-]. simpl.
  exists (String c s), resp, w1.
  repeat split; auto. apply keyword_free_existsb. exact Hkw.
Qed.

#[local] Transparent EXCLUDE_KEYWORDS.

(** The record loop keeps what it has gathered and adds what the turns
    yield. *)
Lemma records_loop_prefix (records : list Element) (acc : list DocumentRecord)
    (w : World) (recs : list DocumentRecord) (w' : World) :
  records_loop network fromstring decode records acc w = (Ok recs, w') ->
  exists more, recs = acc ++ more.
Proof.
  revert acc w. induction records as [|record rest IH]; intros acc w; simpl.
  - intros [= <- <-]. exists []. rewrite app_nil_r. reflexivity.
  - unfold bind.
    destruct (record_body network fromstring decode record w) as [[r|e] w1];
      [|intros [=]].
    intros H. apply IH in H as (more & ->).
    rewrite <- app_assoc. eauto.
Qed.

Lemma records_loop_In (records : list Element) (acc : list DocumentRecord)
    (w : World) (recs : list DocumentRecord) (w' : World) (d : DocumentRecord) :
  records_loop network fromstring decode records acc w = (Ok recs, w') ->
  In d recs ->
  In d acc \/
  exists record w0 w1,
    In record records /\
    record_body network fromstring decode record w0 = (Ok (Some d), w1).
Proof.
  revert acc w. induction records as [|record rest IH]; intros acc w; simpl.
  - intros [= <- <-]. auto.
  - unfold bind.
    destruct (record_body network fromstring decode record w) as [[r|e] w1] eqn:Hbody;
      [|intros [=]].
    intros H Hin. destruct (IH _ _ H Hin) as [Hacc|(record' & w0 & w2 & Hrec & Hb)].
    + apply in_app_or in Hacc as [Hacc|Hnew]; [auto|].
      destruct r as [d'|]; simpl in Hnew; [|contradiction].
      destruct Hnew as [->|[]]. right. exists record, w, w1. auto.
    + right. exists record', w0, w2. auto.
Qed.

End PipelineFacts.

Lemma re_search_exb_nonempty (s code : string) :
  re_search_exb s = Some code -> exists c r, s = String c r.
Proof.
  destruct s as [|c r]; [discriminate | eauto].
Qed.

Section LocateFacts.

Variable fromstring : string -> option Element.

(** [locate] fails only on an attachment entry that is a list. *)
Lemma locate_total (metadata : gmap string MetaValue) (content : string) :
  (forall areas, metadata !! EXTERNE_BIJLAGE <> Some (MAreas areas)) ->
  exists image_urls, locate fromstring metadata content = Ok image_urls.
Proof.
  intros Hscalar. unfold locate.
  destruct (metadata !! EXTERNE_BIJLAGE) as [[[|c r]|[|a areas]]|] eqn:Hlookup; eauto.
  - destruct (re_search_exb (String c r)); eauto.
  - exfalso. eapply Hscalar. reflexivity.
Qed.

(** Without a parsable body there is no embedded reference. *)
Lemma locate_unparsable (metadata : gmap string MetaValue) (content : string)
    (image_urls : list string) :
  fromstring content = None ->
  locate fromstring metadata content = Ok image_urls ->
  image_urls = [] \/ exists code, image_urls = [pdf_url code].
Proof.
  intros Hparse. unfold locate, get_embedded_image_urls_from_xml. rewrite Hparse.
  destruct (metadata !! EXTERNE_BIJLAGE) as [[[|c r]|[|a areas]]|];
    try (intros [= <-]; auto; fail); try discriminate.
  destruct (re_search_exb (String c r)) as [code|]; intros [= <-]; [|auto].
  right. exists code. reflexivity.
Qed.

End LocateFacts.

Section MetadataFetchFacts.

Variable network : nat -> string -> list (string * string) -> Exchange.
Variable fromstring : string -> option Element.
Variable decode : string -> string.

(** The attachment entry of fetched metadata is never a list. *)
Lemma fetch_metadata_bijlage (metadata_url : option string) (w : World)
    (md : gmap string MetaValue) (w' : World) (areas : list (gmap string (option string))) :
  fetch_metadata network fromstring metadata_url w = (Ok md, w') ->
  md !! EXTERNE_BIJLAGE <> Some (MAreas areas).
Proof.
  unfold fetch_metadata.
  destruct (PyStr.truthy metadata_url); [|intros [= <- <-]; rewrite lookup_empty; discriminate].
  unfold bind.
  destruct (make_rate_limited_request network _ [] w) as [[meta_resp|e] w1]; [|discriminate].
  destruct (response_truthy meta_resp); [|intros [= <- <-]; rewrite lookup_empty; discriminate].
  destruct (fromstring _) as [meta_root|]; [|discriminate].
  intros [= <- <-].
  destruct (parse_metadata_block_lookup meta_root) as (_ & Hscalar).
  rewrite Hscalar by discriminate.
  destruct (scalar_value _ _); discriminate.
Qed.

End MetadataFetchFacts.

(* ===================================================================== *)
(** * C1: a metadata document that does not parse *)
(* ===================================================================== *)

(** C1, at its failing input.  The search finds two decisions; the content
    of the first is fetched and kept, its metadata document arrives cut
    short.  [ET.fromstring] is called outside any [try]: the [ParseError]
    ends [get_besluiten_for_date] after three requests, the second decision
    is never fetched and nothing is returned for the date. *)
Theorem metadata_parse_error_aborts_run :
  exists w',
    get_besluiten_for_date Examples.broken_metadata_site MiniXml.fromstring
      Examples.ascii_decode "2024-05-01" World0 = (Raise ParseError, w') /\
    requests_made w' = 3%nat.
Proof.
  eexists. split; vm_compute; reflexivity.
Qed.

(** The part of C1 the code does keep: when the metadata document cannot be
    fetched, both decisions are returned, the first with an empty metadata
    dictionary. *)
Example missing_metadata_keeps_record :
  exists d1 d2 w',
    get_besluiten_for_date Examples.missing_metadata_site MiniXml.fromstring
      Examples.ascii_decode "2024-05-01" World0 = (Ok [d1; d2], w') /\
    doc_id d1 = "stcrt-2024-101" /\ doc_metadata d1 = ∅ /\
    doc_id d2 = "stcrt-2024-102".
Proof.
  do 3 eexists. split; [vm_compute; reflexivity|].
  repeat split; vm_compute; reflexivity.
Qed.

(* ===================================================================== *)
(** * C2: the counter of consecutive successes *)
(* ===================================================================== *)

(** C2, as amended.  After a turn of the fetcher's loop answered by a
    response that [requests] reports as ok (any status outside 400..599, so
    every 2xx), [_successful_requests] has grown by exactly one, unless the
    throttled flag was set and the grown counter reaches
    [SUCCESSFUL_REQUESTS_TO_RESET]: then the flag is cleared and the counter
    is back at 0.  After a 429, any other response in 400..599 or a
    transport exception the counter is 0, whatever the flag. *)
Theorem successful_requests_after_turn
    (network : nat -> string -> list (string * string) -> Exchange)
    (url : string) (params : list (string * string)) (attempt : nat)
    (w : World) (res : result (ctl (option Response))) (w' : World) :
  (attempt <= MAX_RETRIES)%nat -> wf_world w ->
  attempt_body network url params attempt w = (res, w') ->
  match outcome (network (requests_made w) url params) with
  | Responded r =>
      if response_ok r then
        if _rate_limited w && (SUCCESSFUL_REQUESTS_TO_RESET <=? _successful_requests w + 1)
        then _successful_requests w' = 0 /\ _rate_limited w' = false
        else _successful_requests w' = _successful_requests w + 1
      else _successful_requests w' = 0
  | TransportError => _successful_requests w' = 0
  end.
Proof.
  intros Ha Hwf Hbody.
  destruct (attempt_body_spec network url params attempt w Ha Hwf)
    as (res0 & w0 & Hbody0 & _ & _ & _ & Hspec).
  rewrite Hbody in Hbody0. injection Hbody0 as <- <-.
  unfold turn_spec in Hspec.
  destruct (outcome (network (requests_made w) url params)) as [r|].
  - destruct Hspec as (_ & Hspec).
    destruct (status_code r =? 429) eqn:H429.
    + apply Z.eqb_eq in H429. unfold response_ok. rewrite H429. simpl. tauto.
    + destruct Hspec as (_ & Hspec).
      destruct (response_ok r); [|tauto].
      destruct (_rate_limited w && (SUCCESSFUL_REQUESTS_TO_RESET <=? _successful_requests w + 1));
        tauto.
  - tauto.
Qed.

Lemma successful_requests_after_turn_witness :
  _successful_requests
    (attempt_body Examples.throttled_once Examples.url [] 0
       (Examples.after_calls Examples.throttled_once 1 World0)).2 = 2.
Proof.
  pose proof (successful_requests_after_turn Examples.throttled_once Examples.url [] 0
                (Examples.after_calls Examples.throttled_once 1 World0) _ _
                ltac:(unfold MAX_RETRIES; lia)
                ltac:(vm_compute; discriminate)
                (surjective_pairing _)) as H.
  vm_compute in H |- *. exact H.
Defined.

(** C2 as stated fails: the process is throttled by a 429 and has counted
    four successes since; the next request is answered 200 and the counter
    drops to 0 instead of reaching 5. *)
Lemma successful_requests_reset_counterexample :
  let w4 := Examples.after_calls Examples.throttled_once 4 World0 in
  _rate_limited w4 = true /\ _successful_requests w4 = 4 /\
  exists r w5,
    make_rate_limited_request Examples.throttled_once Examples.url [] w4 = (Ok (Some r), w5) /\
    status_code r = 200 /\
    requests_made w5 = S (requests_made w4) /\
    _successful_requests w5 = 0 /\
    _successful_requests w5 <> _successful_requests w4 + 1.
Proof.
  cbv zeta. split; [vm_compute; reflexivity|]. split; [vm_compute; reflexivity|].
  eexists. eexists. split; [vm_compute; reflexivity|].
  repeat split; vm_compute; congruence.
Qed.

(* ===================================================================== *)
(** * C3: exceptions leaving the fetcher *)
(* ===================================================================== *)

(** C3, at its failing input.  The server answers 429 with [Retry-After]
    set to an HTTP date: [int] refuses the value and the [ValueError]
    leaves [make_rate_limited_request], after a single request. *)
Theorem fetcher_raises_on_retry_after_date :
  exists w',
    make_rate_limited_request Examples.retry_at_date Examples.url [] World0
      = (Raise ValueError, w') /\
    requests_made w' = 1%nat.
Proof.
  eexists. split; vm_compute; reflexivity.
Qed.

(* ===================================================================== *)
(** * C4: exclusion keywords *)
(* ===================================================================== *)

(** C4, as amended.  Every record that [get_besluiten_for_date] returns was
    built from a content served by the network that, decoded and
    lower-cased, contains none of the exclusion keywords, and its text is
    the text extracted from that content; a record whose decoded content
    contains a keyword, in any letter case, is dropped right after the
    content fetch. *)
Theorem returned_records_have_keyword_free_content
    (network : nat -> string -> list (string * string) -> Exchange)
    (fromstring : string -> option Element) (decode : string -> string) :
  (forall date_str w recs w' d,
      get_besluiten_for_date network fromstring decode date_str w = (Ok recs, w') ->
      In d recs ->
      exists n content_url r,
        outcome (network n content_url []) = Responded r /\
        keyword_free (decode (content r)) /\
        doc_text d = extract_plain_text_from_xml fromstring (decode (content r))) /\
  (forall record w content_url resp w1 k,
      item_urls_get (item_urls_of record) "xml" = Some content_url ->
      PyStr.truthy (Some content_url) = true ->
      make_rate_limited_request network content_url [] w = (Ok (Some resp), w1) ->
      response_ok resp = true ->
      In k EXCLUDE_KEYWORDS ->
      PyStr.contains k (PyStr.lower (decode (content resp))) = true ->
      record_body network fromstring decode record w = (Ok None, w1)).
Proof.
  split.
  - intros date_str w recs w' d Hrun Hin.
    unfold get_besluiten_for_date in Hrun. unfold bind at 1 in Hrun. simpl in Hrun.
    unfold bind at 1 in Hrun.
    destruct (make_rate_limited_request network SRU_BASE_URL (sru_params date_str) _)
      as [[response|e] w1]; [|discriminate].
    destruct (response_truthy response); simpl in Hrun;
      [|injection Hrun as <- <-; contradiction].
    destruct (fromstring _) as [root|];
      [|injection Hrun as <- <-; contradiction].
    destruct (records_loop_In network fromstring decode _ _ _ _ _ d Hrun Hin)
      as [[]|(record & w0 & w2 & _ & Hbody)].
    apply record_body_some in Hbody
      as (content_url & resp & w3 & _ & Hreq & _ & Hfree & _ & _ & Htext & _).
    apply make_rate_limited_request_origin in Hreq as (n & Hn).
    exists n, content_url, resp. auto.
  - intros record w content_url resp w1 k Hurl Htruthy Hreq Hok Hk Hcontains.
    unfold record_body. rewrite Hurl, Htruthy. cbn [negb from_option id].
    unfold bind at 1. rewrite Hreq. cbn [response_truthy negb from_option].
    rewrite Hok. cbn [negb].
    assert (Hex : existsb (fun k => PyStr.contains k (PyStr.lower (decode (content resp))))
                    EXCLUDE_KEYWORDS = true)
      by (apply existsb_exists; eauto).
    rewrite Hex. reflexivity.
Qed.

Lemma returned_records_have_keyword_free_content_witness :
  (exists n content_url r,
      outcome (Examples.reference_site n content_url []) = Responded r /\
      keyword_free (Examples.ascii_decode (content r)) /\
      "Een laadpaal aan de Kade"
        = extract_plain_text_from_xml MiniXml.fromstring (Examples.ascii_decode (content r))) /\
  record_body Examples.reference_site MiniXml.fromstring Examples.ascii_decode
    (nth 1 (Examples.records_of Examples.two_records) Examples.no_element) World0
  = (Ok None,
     (make_rate_limited_request Examples.reference_site Examples.doc2 [] World0).2).
Proof.
  destruct (returned_records_have_keyword_free_content Examples.reference_site
              MiniXml.fromstring Examples.ascii_decode) as (Hkept & Hdropped).
  split.
  - apply (Hkept "2024-05-01" World0
             [mkDocumentRecord "stcrt-2024-101" "Een laadpaal aan de Kade" ∅ []]
             (get_besluiten_for_date Examples.reference_site MiniXml.fromstring
                Examples.ascii_decode "2024-05-01" World0).2
             (mkDocumentRecord "stcrt-2024-101" "Een laadpaal aan de Kade" ∅ [])).
    + vm_compute. reflexivity.
    + left. reflexivity.
  - apply (Hdropped _ World0 Examples.doc2
             (mkResponse 200 [] "<besluit>Een Laadpaal aan de Dijk</besluit>") _ "laadpaal").
    + vm_compute. reflexivity.
    + reflexivity.
    + vm_compute. reflexivity.
    + reflexivity.
    + right. left. reflexivity.
    + vm_compute. reflexivity.
Defined.

(** C4 as stated fails: the content spells the keyword with a character
    reference, so the lower-cased content does not contain it and the record
    is kept; the extracted text does contain it. *)
Lemma returned_text_keyword_counterexample :
  exists d w',
    get_besluiten_for_date Examples.reference_site MiniXml.fromstring
      Examples.ascii_decode "2024-05-01" World0 = (Ok [d], w') /\
    doc_text d = "Een laadpaal aan de Kade" /\
    In "laadpaal" EXCLUDE_KEYWORDS /\
    PyStr.contains "laadpaal" (PyStr.lower (doc_text d)) = true.
Proof.
  do 2 eexists. split; [vm_compute; reflexivity|].
  split; [reflexivity|]. split; [right; left; reflexivity | vm_compute; reflexivity].
Qed.

(* ===================================================================== *)
(** * C5: records with an unparsable body *)
(* ===================================================================== *)

(** C5, as amended.  A record whose content was fetched, holds no exclusion
    keyword and cannot be parsed as XML is still assembled and returned:
    its id and metadata are those of any other record, its text is empty
    and its images hold no embedded reference, only the address of the PDF
    attachment when the metadata names one. *)
Theorem unparsable_content_yields_record
    (network : nat -> string -> list (string * string) -> Exchange)
    (fromstring : string -> option Element) (decode : string -> string)
    (record : Element) (rest : list Element) (acc : list DocumentRecord)
    (w : World) (content_url : string) (resp : Response) (w1 : World)
    (md : gmap string MetaValue) (w2 : World) :
  item_urls_get (item_urls_of record) "xml" = Some content_url ->
  PyStr.truthy (Some content_url) = true ->
  make_rate_limited_request network content_url [] w = (Ok (Some resp), w1) ->
  response_ok resp = true ->
  keyword_free (decode (content resp)) ->
  fromstring (decode (content resp)) = None ->
  fetch_metadata network fromstring
    (item_urls_get (item_urls_of record) "metadata") w1 = (Ok md, w2) ->
  exists d,
    record_body network fromstring decode record w = (Ok (Some d), w2) /\
    doc_id d = PyStr.remove ".xml" (PyStr.last_segment "/" content_url) /\
    doc_text d = EmptyString /\
    doc_metadata d = md /\
    (doc_images d = [] \/ exists code, doc_images d = [pdf_url code]) /\
    forall recs w3,
      records_loop network fromstring decode (record :: rest) acc w = (Ok recs, w3) ->
      In d recs.
Proof.
  intros Hurl Htruthy Hreq Hok Hfree Hparse Hmeta.
  destruct (locate_total fromstring md (decode (content resp))) as (image_urls & Hloc).
  { intros areas. eapply fetch_metadata_bijlage. exact Hmeta. }
  assert (Hbody : record_body network fromstring decode record w
                  = (Ok (Some (mkDocumentRecord
                                 (PyStr.remove ".xml" (PyStr.last_segment "/" content_url))
                                 EmptyString md image_urls)), w2)).
  { unfold record_body. rewrite Hurl, Htruthy. cbn [negb from_option id].
    unfold bind at 1. rewrite Hreq. cbn [response_truthy negb from_option].
    rewrite Hok. cbn [negb].
    apply keyword_free_existsb in Hfree. rewrite Hfree.
    unfold bind at 1. rewrite Hmeta.
    unfold bind, lift. rewrite Hloc.
    unfold extract_plain_text_from_xml. rewrite Hparse. reflexivity. }
  eexists. split; [exact Hbody|]. simpl.
  repeat split.
  - eapply locate_unparsable; eauto.
  - intros recs w3 Hloop. simpl in Hloop. unfold bind in Hloop.
    rewrite Hbody in Hloop. simpl in Hloop.
    apply records_loop_prefix in Hloop as (more & ->).
    apply in_or_app. left. apply in_or_app. right. left. reflexivity.
Qed.

Lemma unparsable_content_yields_record_witness :
  exists d,
    record_body Examples.unparsable_site MiniXml.fromstring Examples.ascii_decode
      (nth 0 (Examples.records_of Examples.two_records) Examples.no_element)
      World0
      = (Ok (Some d),
         (record_body Examples.unparsable_site MiniXml.fromstring Examples.ascii_decode
            (nth 0 (Examples.records_of Examples.two_records) Examples.no_element)
            World0).2) /\
    doc_id d = "stcrt-2024-101" /\ doc_text d = EmptyString /\ doc_images d = [].
Proof.
  destruct (unparsable_content_yields_record
              Examples.unparsable_site MiniXml.fromstring Examples.ascii_decode
              (nth 0 (Examples.records_of Examples.two_records) Examples.no_element)
              [] [] World0 Examples.doc1
              (mkResponse 200 [] "Dit document is tijdelijk niet beschikbaar")
              (make_rate_limited_request Examples.unparsable_site Examples.doc1 [] World0).2
              ∅
              (record_body Examples.unparsable_site MiniXml.fromstring Examples.ascii_decode
                 (nth 0 (Examples.records_of Examples.two_records) Examples.no_element)
                 World0).2)
    as (d & Hbody & Hid & Htext & Hmd & Himages & _).
  - vm_compute. reflexivity.
  - reflexivity.
  - vm_compute. reflexivity.
  - reflexivity.
  - apply keyword_free_existsb. vm_compute. reflexivity.
  - vm_compute. reflexivity.
  - vm_compute. reflexivity.
  - exists d. split; [exact Hbody|]. split; [rewrite Hid; vm_compute; reflexivity|].
    split; [exact Htext|].
    pose proof (f_equal fst Hbody) as Hd. vm_compute in Hd.
    injection Hd as Hd. rewrite <- Hd. reflexivity.
Defined.

(** C5 as stated fails: the body of the first decision is not XML, and the
    decision is returned all the same, with an empty text. *)
Lemma unparsable_content_counterexample :
  MiniXml.fromstring "Dit document is tijdelijk niet beschikbaar" = None /\
  exists d1 d2 w',
    get_besluiten_for_date Examples.unparsable_site MiniXml.fromstring
      Examples.ascii_decode "2024-05-01" World0 = (Ok [d1; d2], w') /\
    doc_id d1 = "stcrt-2024-101" /\
    doc_text d1 = EmptyString /\
    doc_images d1 = [].
Proof.
  split; [vm_compute; reflexivity|].
  do 3 eexists. split; [vm_compute; reflexivity|].
  repeat split; vm_compute; reflexivity.
Qed.

(* ===================================================================== *)
(** * C6: image references *)
(* ===================================================================== *)

(** C6.  When the metadata holds an external-attachment entry from which a
    code can be extracted, and the body parses to a root with exactly two
    illustration elements below it, each carrying a file name (a value of
    [naam] that is not empty), the image references are exactly three: the
    PDF address first, then the two embedded addresses in document order.
    When the body does not parse, there is no embedded reference and the PDF
    address is still given. *)
Theorem locate_pdf_then_embedded (fromstring : string -> option Element)
    (metadata : gmap string MetaValue) (content v code : string) :
  metadata !! EXTERNE_BIJLAGE = Some (MStr v) ->
  re_search_exb v = Some code ->
  (forall root i1 i2 n1 n2,
      fromstring content = Some root ->
      findall_descendants "illustratie" root = [i1; i2] ->
      attrib i1 !! "naam" = Some n1 -> n1 <> EmptyString ->
      attrib i2 !! "naam" = Some n2 -> n2 <> EmptyString ->
      locate fromstring metadata content
        = Ok [pdf_url code; embedded_url n1; embedded_url n2]) /\
  (fromstring content = None ->
      locate fromstring metadata content = Ok [pdf_url code]).
Proof.
  intros Hmeta Hcode.
  destruct (re_search_exb_nonempty v code Hcode) as (c & r & ->).
  unfold locate. rewrite Hmeta, Hcode.
  unfold get_embedded_image_urls_from_xml. split.
  - intros root i1 i2 n1 n2 Hparse Hills Hn1 Hne1 Hn2 Hne2.
    rewrite Hparse, Hills. simpl. unfold embedded_step.
    rewrite Hn1. destruct n1 as [|c1 r1]; [congruence|]. simpl.
    rewrite Hn2. destruct n2 as [|c2 r2]; [congruence|]. reflexivity.
  - intros Hparse. rewrite Hparse. reflexivity.
Qed.

Lemma locate_pdf_then_embedded_witness :
  locate MiniXml.fromstring Examples.attachment_metadata Examples.two_illustrations
    = Ok [pdf_url "exb-2024-30101"; embedded_url "kaart.png"; embedded_url "foto.jpg"] /\
  locate MiniXml.fromstring Examples.attachment_metadata "<besluit><al>afgebroken"
    = Ok [pdf_url "exb-2024-30101"].
Proof.
  split.
  - destruct (locate_pdf_then_embedded MiniXml.fromstring Examples.attachment_metadata
                Examples.two_illustrations "exb-2024-30101" "exb-2024-30101")
      as (Hthree & _); [reflexivity | reflexivity |].
    apply (Hthree (Examples.root_of Examples.two_illustrations)
                  (Examples.illustration Examples.two_illustrations 0)
                  (Examples.illustration Examples.two_illustrations 1));
      solve [vm_compute; reflexivity | discriminate].
  - destruct (locate_pdf_then_embedded MiniXml.fromstring Examples.attachment_metadata
                "<besluit><al>afgebroken" "exb-2024-30101" "exb-2024-30101")
      as (_ & Hnone); [reflexivity | reflexivity |].
    apply Hnone. vm_compute. reflexivity.
Defined.

(** An illustration whose [naam] is there but empty carries no file name:
    the loop skips it. *)
Example locate_skips_empty_file_name :
  let i1 := Examples.illustration Examples.empty_file_name 0 in
  let i2 := Examples.illustration Examples.empty_file_name 1 in
  MiniXml.fromstring Examples.empty_file_name
    = Some (Examples.root_of Examples.empty_file_name) /\
  findall_descendants "illustratie" (Examples.root_of Examples.empty_file_name) = [i1; i2] /\
  attrib i1 !! "naam" = Some EmptyString /\
  attrib i2 !! "naam" = Some "kaart.png" /\
  Examples.attachment_metadata !! EXTERNE_BIJLAGE = Some (MStr "exb-2024-30101") /\
  re_search_exb "exb-2024-30101" = Some "exb-2024-30101" /\
  locate MiniXml.fromstring Examples.attachment_metadata Examples.empty_file_name
    = Ok [pdf_url "exb-2024-30101"; embedded_url "kaart.png"].
Proof.
  cbv zeta. repeat split; vm_compute; reflexivity.
Qed.

(* ===================================================================== *)
(** * C7: the PDF materializer *)
(* ===================================================================== *)

(** C7.  When the PDF is downloaded and rendered and the classifier turns
    its first page down, [download_en_convert_pdf_bijlage] returns the empty
    string and leaves the files as they were; a second call that downloads
    the same content and meets the same verdict does the same. *)
Theorem negative_verdict_creates_no_file
    (network : nat -> string -> list (string * string) -> Exchange)
    (Page : Type) (convert_from_bytes : string -> result (list Page))
    (page_png : Page -> result string) (should_download_image : string -> result bool)
    (pdf_exb_code besluit_id : string) (w : World)
    (resp1 : Response) (w1 : World) (resp2 : Response) (w2 : World)
    (page : Page) (pages : list Page) (img_bytes : string) :
  make_rate_limited_request network (pdf_url pdf_exb_code) [] w = (Ok (Some resp1), w1) ->
  make_rate_limited_request network (pdf_url pdf_exb_code) [] w1 = (Ok (Some resp2), w2) ->
  content resp2 = content resp1 ->
  convert_from_bytes (content resp1) = Ok (page :: pages) ->
  page_png page = Ok img_bytes ->
  should_download_image img_bytes = Ok false ->
  download_en_convert_pdf_bijlage network Page convert_from_bytes page_png
    should_download_image pdf_exb_code besluit_id w = (Ok EmptyString, w1) /\
  download_en_convert_pdf_bijlage network Page convert_from_bytes page_png
    should_download_image pdf_exb_code besluit_id w1 = (Ok EmptyString, w2) /\
  files w1 = files w /\ files w2 = files w.
Proof.
  intros Hreq1 Hreq2 Hsame Hrender Hpng Hverdict.
  assert (Hcall : forall wa resp wb,
             make_rate_limited_request network (pdf_url pdf_exb_code) [] wa
               = (Ok (Some resp), wb) ->
             content resp = content resp1 ->
             download_en_convert_pdf_bijlage network Page convert_from_bytes page_png
               should_download_image pdf_exb_code besluit_id wa = (Ok EmptyString, wb)).
  { intros wa resp wb Hreq Hcontent.
    unfold download_en_convert_pdf_bijlage. fold (pdf_url pdf_exb_code).
    unfold bind at 1, try_except at 1, bind at 1. rewrite Hreq.
    cbn [from_option response_truthy]. rewrite Hcontent.
    destruct (response_ok resp && (status_code resp =? 200)
              && (MIN_PDF_SIZE_BYTES <? Z.of_nat (String.length (content resp1))));
      [|reflexivity].
    unfold bind at 1, lift at 1. rewrite Hrender.
    unfold first_page, try_except, bind at 1, lift at 1. rewrite Hpng.
    unfold bind at 1, lift at 1. rewrite Hverdict. reflexivity. }
  split; [exact (Hcall w resp1 w1 Hreq1 eq_refl)|].
  split; [exact (Hcall w1 resp2 w2 Hreq2 Hsame)|].
  apply make_rate_limited_request_files in Hreq1 as (Hf1 & _).
  apply make_rate_limited_request_files in Hreq2 as (Hf2 & _).
  split; congruence.
Qed.

Lemma negative_verdict_creates_no_file_witness :
  let net := Examples.always (Examples.answer 200 [] Examples.pdf_bytes) in
  let w1 := (make_rate_limited_request net (pdf_url "exb-2024-30101") [] World0).2 in
  let w2 := (make_rate_limited_request net (pdf_url "exb-2024-30101") [] w1).2 in
  download_en_convert_pdf_bijlage net string Examples.render Examples.encode
    Examples.never_a_map "exb-2024-30101" "stcrt-2024-101" World0 = (Ok EmptyString, w1) /\
  download_en_convert_pdf_bijlage net string Examples.render Examples.encode
    Examples.never_a_map "exb-2024-30101" "stcrt-2024-101" w1 = (Ok EmptyString, w2) /\
  files w1 = files World0 /\ files w2 = files World0.
Proof.
  intros net w1 w2.
  destruct (make_rate_limited_request_response net (pdf_url "exb-2024-30101") [] World0
              (mkResponse 200 [] Examples.pdf_bytes))
    as (w1' & Hreq1 & _ & Hwf1);
    [unfold wf_world; simpl; lia | reflexivity | simpl; lia |].
  destruct (make_rate_limited_request_response net (pdf_url "exb-2024-30101") [] w1'
              (mkResponse 200 [] Examples.pdf_bytes))
    as (w2' & Hreq2 & _ & _);
    [exact Hwf1 | reflexivity | simpl; lia |].
  assert (E1 : w1 = w1') by (subst w1; rewrite Hreq1; reflexivity).
  assert (E2 : w2 = w2') by (subst w2; rewrite E1, Hreq2; reflexivity).
  rewrite E1, E2.
  exact (negative_verdict_creates_no_file net string Examples.render Examples.encode
           Examples.never_a_map "exb-2024-30101" "stcrt-2024-101" World0
           (mkResponse 200 [] Examples.pdf_bytes) w1'
           (mkResponse 200 [] Examples.pdf_bytes) w2'
           "page 1" [] "PNG page 1"
           Hreq1 Hreq2 eq_refl eq_refl eq_refl eq_refl).
Defined.

(* ===================================================================== *)
(** * C8: the retry budget *)
(* ===================================================================== *)

(** C8.  A call to the fetcher issues at most [MAX_RETRIES + 1] requests;
    a turn answered by a failure status other than 429 returns that response
    and issues nothing more; and when the exchanges are transport failures
    and 429 responses that the 429 branch gets through (no [Retry-After], or
    a numeral that [int] reads, of a delay that every timer grants), in any
    mix, they use up one and the same budget: the call ends without a
    response after exactly [MAX_RETRIES + 1] requests. *)
Theorem fetcher_attempt_budget
    (network : nat -> string -> list (string * string) -> Exchange)
    (url : string) (params : list (string * string)) :
  (forall w res w',
      make_rate_limited_request network url params w = (res, w') ->
      (requests_made w' <= requests_made w + (MAX_RETRIES + 1))%nat) /\
  (forall attempt rest w r,
      (attempt <= MAX_RETRIES)%nat -> wf_world w ->
      outcome (network (requests_made w) url params) = Responded r ->
      status_code r <> 429 -> response_ok r = false ->
      exists w',
        attempts_loop network url params (attempt :: rest) w = (Ok (Some r), w') /\
        requests_made w' = S (requests_made w)) /\
  (forall w,
      (forall i, retryable (network i url params)) ->
      (forall i, 0 <= elapsed (network i url params)) ->
      wf_world w ->
      exists w',
        make_rate_limited_request network url params w = (Ok None, w') /\
        requests_made w' = (requests_made w + (MAX_RETRIES + 1))%nat).
Proof.
  split; [|split].
  - intros w res w' H. unfold make_rate_limited_request in H.
    apply attempts_loop_le in H as (H & _ & _).
    rewrite length_seq in H. exact H.
  - intros attempt rest w r Ha Hwf Hout H429 Hok.
    destruct (attempts_loop_response network url params attempt rest w r Ha Hwf Hout H429)
      as (w' & Hloop & Hreq & _).
    exists w'. split; assumption.
  - intros w Hretry Hel Hwf. unfold make_rate_limited_request.
    apply attempts_loop_exhausted; auto.
Qed.

Lemma fetcher_attempt_budget_witness :
  (exists w',
      make_rate_limited_request (Examples.always (Examples.answer 503 [] EmptyString))
        Examples.url [] World0
        = (Ok (Some (mkResponse 503 [] EmptyString)), w') /\
      requests_made w' = 1%nat) /\
  (exists w',
      make_rate_limited_request Examples.flaky Examples.url [] World0 = (Ok None, w') /\
      requests_made w' = 4%nat).
Proof.
  split.
  - destruct (fetcher_attempt_budget (Examples.always (Examples.answer 503 [] EmptyString))
                Examples.url []) as (_ & Hfail & _).
    apply (Hfail 0%nat [1; 2; 3]%nat World0 (mkResponse 503 [] EmptyString)).
    + unfold MAX_RETRIES; lia.
    + vm_compute; discriminate.
    + reflexivity.
    + simpl; lia.
    + reflexivity.
  - destruct (fetcher_attempt_budget Examples.flaky Examples.url []) as (_ & _ & Hall).
    apply (Hall World0).
    + intros i. unfold retryable, Examples.flaky.
      destruct (Nat.even i); simpl; [|exact I].
      split; [reflexivity|]. unfold retry_after_ok; simpl.
      exists 1. vm_compute. repeat split; congruence.
    + intros i. unfold Examples.flaky.
      destruct (Nat.even i); simpl; lia.
    + vm_compute; discriminate.
Defined.

(* ===================================================================== *)
(** * C9: area markings *)
(* ===================================================================== *)

(** C9.  For a metadata document with two area-marking entries,
    [parse_metadata_block] returns a dictionary whose reserved key holds
    exactly two area markings, in the order of the entries; each has its
    type from the content of its entry, and its geometry and label from the
    nested entries with the reserved sub-names.  Every other key holds the
    trimmed content of its scalar entry (the last one when the name is
    repeated), and entries whose name or content is missing or empty leave
    no trace. *)
Theorem parse_metadata_block_two_area_markings (meta_root e1 e2 : Element) :
  List.filter is_area_marking (findall_children "metadata" meta_root) = [e1; e2] ->
  let md := parse_metadata_block meta_root in
  (exists g1 g2,
      md !! GEBIEDSMARKERING = Some (MAreas [g1; g2]) /\
      area_marking_of e1 g1 /\ area_marking_of e2 g2) /\
  (forall k, k <> GEBIEDSMARKERING ->
      md !! k = MStr <$> scalar_value k (findall_children "metadata" meta_root)).
Proof.
  intros Hareas md.
  destruct (parse_metadata_block_lookup meta_root) as (Hres & Hscalar).
  rewrite Hareas in Hres. simpl in Hres.
  split; [|exact Hscalar].
  exists (gebied_of e1), (gebied_of e2).
  split; [exact Hres|]. split; apply gebied_of_spec.
Qed.

Lemma parse_metadata_block_two_area_markings_witness :
  let md := parse_metadata_block Examples.metadata_root in
  (exists g1 g2,
      md !! GEBIEDSMARKERING = Some (MAreas [g1; g2]) /\
      area_marking_of (Examples.metadata_entry 1) g1 /\
      area_marking_of (Examples.metadata_entry 2) g2) /\
  (forall k, k <> GEBIEDSMARKERING ->
      md !! k = MStr <$> scalar_value k (findall_children "metadata" Examples.metadata_root)).
Proof.
  apply (parse_metadata_block_two_area_markings Examples.metadata_root
           (Examples.metadata_entry 1) (Examples.metadata_entry 2)).
  vm_compute. reflexivity.
Defined.

(** The example document, read out: the two markings in source order, the
    trimmed title, and no entry for the content without a name. *)
Example parse_metadata_block_example :
  parse_metadata_block Examples.metadata_root
  = <[ GEBIEDSMARKERING :=
         MAreas [ <[ "label" := Some "Hoofdweg" ]>
                    (<[ "geometrie" := Some "POINT(4.88 52.37)" ]>
                       {[ "type" := Some "Lijn" ]});
                  <[ "geometrie" := Some "POLYGON((4.8 52.3,4.9 52.3,4.9 52.4))" ]>
                    {[ "type" := Some "Vlak" ]} ] ]>
      (<[ EXTERNE_BIJLAGE := MStr "exb-2024-30101" ]>
         {[ "DC.title" := MStr "Afsluiting Hoofdweg" ]}).
Proof.
  vm_compute. reflexivity.
Qed.

(* ===================================================================== *)
(** * C10: date validation *)
(* ===================================================================== *)

(** C10, as amended.  The date is checked by the route
    [get_besluiten_by_date], not by [get_besluiten_for_date]: for a string
    that does not have the shape of a date, or names no calendar day, the
    route answers with a validation error (422 from the path constraint, 400
    from [strptime]) and leaves the world as it was, so that no request is
    issued and nothing is retried. *)
Theorem invalid_date_rejected_by_route
    (network : nat -> string -> list (string * string) -> Exchange)
    (fromstring : string -> option Element) (decode : string -> string)
    (Page : Type) (convert_from_bytes : string -> result (list Page))
    (page_png : Page -> result string) (should_download_image : string -> result bool)
    (date_str : string) (w : World) :
  Route.valid_date date_str = false ->
  exists reply,
    Route.get_besluiten_by_date network fromstring decode Page convert_from_bytes
      page_png should_download_image date_str w = (Ok reply, w) /\
    (reply = Route.RequestValidationError \/ reply = Route.HTTPException 400).
Proof.
  unfold Route.valid_date, Route.get_besluiten_by_date. intros Hinvalid.
  destruct (Route.path_pattern date_str); simpl in *.
  - destruct (Route.strptime date_str) as [date|].
    + rewrite bool_decide_eq_true_2 in Hinvalid by eauto. discriminate.
    + eexists. split; [reflexivity|]. auto.
  - eexists. split; [reflexivity|]. auto.
Qed.

Lemma invalid_date_rejected_by_route_witness :
  Route.get_besluiten_by_date Examples.missing_metadata_site MiniXml.fromstring
    Examples.ascii_decode string Examples.render Examples.encode Examples.never_a_map
    "2024-02-30" World0 = (Ok (Route.HTTPException 400), World0) /\
  Route.get_besluiten_by_date Examples.missing_metadata_site MiniXml.fromstring
    Examples.ascii_decode string Examples.render Examples.encode Examples.never_a_map
    "morgen" World0 = (Ok Route.RequestValidationError, World0).
Proof.
  split.
  - destruct (invalid_date_rejected_by_route Examples.missing_metadata_site
                MiniXml.fromstring Examples.ascii_decode string Examples.render
                Examples.encode Examples.never_a_map "2024-02-30" World0)
      as (reply & Hrun & _); [vm_compute; reflexivity|].
    rewrite Hrun. vm_compute in Hrun. injection Hrun as <-. reflexivity.
  - destruct (invalid_date_rejected_by_route Examples.missing_metadata_site
                MiniXml.fromstring Examples.ascii_decode string Examples.render
                Examples.encode Examples.never_a_map "morgen" World0)
      as (reply & Hrun & _); [vm_compute; reflexivity|].
    rewrite Hrun. vm_compute in Hrun. injection Hrun as <-. reflexivity.
Defined.

(** C10 as stated fails: handed a string that is no date,
    [get_besluiten_for_date] raises nothing; it puts the string into the
    query, issues the search request and goes on to fetch the records. *)
Lemma orchestrator_accepts_any_string_counterexample :
  Route.valid_date "morgen" = false /\
  exists d1 d2 w',
    get_besluiten_for_date Examples.missing_metadata_site MiniXml.fromstring
      Examples.ascii_decode "morgen" World0 = (Ok [d1; d2], w') /\
    head (trace w') = Some (EvGet SRU_BASE_URL (sru_params "morgen")) /\
    requests_made w' = 4%nat.
Proof.
  split; [vm_compute; reflexivity|].
  do 3 eexists. split; [vm_compute; reflexivity|].
  split; vm_compute; reflexivity.
Qed.

(* ===================================================================== *)
(** * Further properties of the fetcher *)
(* ===================================================================== *)

Section FetcherTurns.

Variable network : nat -> string -> list (string * string) -> Exchange.

Lemma wait_before_exn (attempt : nat) (w : World) (e : exn) (w1 : World) :
  wait_before attempt w = (Raise e, w1) -> e <> RequestException.
Proof.
  unfold wait_before.
  destruct (0 <? attempt)%nat.
  - unfold time_sleep.
    repeat match goal with |- context [if ?b then _ else _] => destruct b end;
      intros [= <- <-]; discriminate.
  - unfold_m. simpl.
    repeat match goal with |- context [if ?b then _ else _] => destruct b end;
      intros [= <- <-] || intros [=]; discriminate.
Qed.

Lemma attempt_body_regs (url : string) (params : list (string * string))
    (attempt : nat) (w : World) res w' :
  attempt_body network url params attempt w = (res, w') ->
  turn_regs attempt w (network (requests_made w) url params) res w'.
Proof.
  pose proof (wait_before_regs attempt w) as (Hrl & Hsucc & Hreq & _ & _).
  unfold attempt_body, try_except, bind at 1.
  destruct (wait_before attempt w) as [[[]|e] w1] eqn:Hwait; simpl in Hrl, Hsucc, Hreq.
  - unfold bind at 1, requests_get. rewrite Hreq.
    intros Hbody. right.
    destruct (outcome (network (requests_made w) url params)) as [r|].
    + unfold_m. simpl in Hbody.
      destruct (status_code r =? 429) eqn:H429.
      * rewrite Hrl in Hbody.
        destruct (_rate_limited w); simpl in Hbody;
          destruct (PyStr.truthy (headers_get "Retry-After" (headers r)));
          try destruct (PyStr.int _);
          simpl in Hbody;
          repeat match type of Hbody with
                 | context [if ?b then _ else _] => destruct b; simpl in Hbody
                 end;
          injection Hbody as <- <-; simpl; eauto 8.
      * destruct (response_ok r); simpl in Hbody.
        -- rewrite Hrl, Hsucc in Hbody.
           destruct (_rate_limited w && (SUCCESSFUL_REQUESTS_TO_RESET <=? _successful_requests w + 1));
             simpl in Hbody; injection Hbody as <- <-; simpl; rewrite ?Hrl; auto.
        -- injection Hbody as <- <-; simpl; rewrite ?Hrl; auto.
    + unfold_m. simpl in Hbody.
      destruct (attempt =? MAX_RETRIES)%nat; injection Hbody as <- <-; simpl; auto.
  - intros Hbody. left. apply wait_before_exn in Hwait.
    destruct e; try congruence; injection Hbody as <- <-; eauto 6.
Qed.

(** The number of requests never goes down. *)
Lemma attempts_loop_ge (url : string) (params : list (string * string))
    (attempts : list nat) (w : World) res w' :
  attempts_loop network url params attempts w = (res, w') ->
  (requests_made w <= requests_made w')%nat.
Proof.
  revert w. induction attempts as [|a rest IH]; intros w; simpl.
  - intros [= <- <-]. lia.
  - unfold bind.
    destruct (attempt_body network url params a w) as [[[|r]|e] w1] eqn:Hbody;
      apply attempt_body_regs in Hbody as [(_ & Hreq & _)|(Hreq & _)].
    all: try (intros Hloop; apply IH in Hloop; lia).
    all: intros [= <- <-]; lia.
Qed.

Lemma attempts_loop_served (url : string) (params : list (string * string))
    (attempts : list nat) (w : World) (r : Response) (w' : World) :
  attempts_loop network url params attempts w = (Ok (Some r), w') ->
  status_code r <> 429 /\
  (requests_made w < requests_made w')%nat /\
  outcome (network (Nat.pred (requests_made w')) url params) = Responded r.
Proof.
  revert w. induction attempts as [|a rest IH]; intros w; simpl.
  - intros [=].
  - unfold bind.
    destruct (attempt_body network url params a w) as [[[|o]|e] w1] eqn:Hbody;
      apply attempt_body_regs in Hbody.
    + intros Hloop. apply IH in Hloop as (H429 & Hlt & Hout).
      split; [exact H429|]. split; [|exact Hout].
      destruct Hbody as [(_ & Hreq & _)|(Hreq & _)]; lia.
    + intros [= -> <-].
      destruct Hbody as [((e & [=]) & _)|(Hreq & Hcase)].
      destruct (outcome (network (requests_made w) url params)) as [r0|] eqn:Hout.
      * destruct (status_code r0 =? 429) eqn:H429.
        -- destruct Hcase as (_ & _ & [[=]|(e & [=])]).
        -- destruct Hcase as ([= <-] & _).
           apply Z.eqb_neq in H429. rewrite Hreq. simpl.
           repeat split; auto; lia.
      * destruct Hcase as (_ & _ & Hres).
        destruct (a =? MAX_RETRIES)%nat; discriminate.
    + intros [=].
Qed.

Lemma attempts_loop_counter (url : string) (params : list (string * string))
    (attempts : list nat) (w : World) res w' :
  attempts_loop network url params attempts w = (res, w') ->
  counter_inv w -> counter_inv w'.
Proof.
  revert w. induction attempts as [|a rest IH]; intros w; simpl.
  - intros [= <- <-]. auto.
  - unfold bind. intros Hloop Hinv.
    assert (Hturn : forall c w1,
               attempt_body network url params a w = (c, w1) -> counter_inv w1).
    { intros c w1 Hbody. apply attempt_body_regs in Hbody.
      unfold counter_inv, turn_regs in *. destruct Hinv as (Hpos & Hlim).
      unfold SUCCESSFUL_REQUESTS_TO_RESET in *.
      destruct Hbody as [(_ & _ & Hrl & Hsucc)|(_ & Hcase)].
      - rewrite Hrl, Hsucc. auto.
      - destruct (outcome (network (requests_made w) url params)) as [r|].
        + destruct (status_code r =? 429).
          * destruct Hcase as (_ & -> & _). split; [lia | intros _; lia].
          * destruct Hcase as (_ & Hcase).
            destruct (response_ok r).
            -- destruct (_rate_limited w) eqn:Hw; simpl in Hcase.
               ++ destruct (5 <=? _successful_requests w + 1) eqn:Hreach.
                  ** destruct Hcase as (-> & ->). split; [lia | discriminate].
                  ** destruct Hcase as (-> & ->). apply Z.leb_gt in Hreach.
                     split; [lia | intros _; lia].
               ++ destruct Hcase as (-> & ->). split; [lia | discriminate].
            -- destruct Hcase as (-> & ->). split; [lia | intros _; lia].
        + destruct Hcase as (-> & -> & _). split; [lia | intros _; lia]. }
    destruct (attempt_body network url params a w) as [[[|o]|e] w1] eqn:Hbody.
    + eapply IH; eauto.
    + injection Hloop as <- <-. eauto.
    + injection Hloop as <- <-. eauto.
Qed.

Lemma attempts_loop_unthrottled (url : string) (params : list (string * string))
    (attempts : list nat) (w : World) res w' :
  attempts_loop network url params attempts w = (res, w') ->
  _rate_limited w = true -> _rate_limited w' = false ->
  exists r, res = Ok (Some r) /\ response_ok r = true /\ _successful_requests w' = 0.
Proof.
  revert w. induction attempts as [|a rest IH]; intros w; simpl.
  - intros [= <- <-]. congruence.
  - unfold bind. intros Hloop Hon Hoff.
    destruct (attempt_body network url params a w) as [c w1] eqn:Hbody.
    apply attempt_body_regs in Hbody.
    destruct Hbody as [((e & ->) & _ & Hrl & _)|(_ & Hcase)].
    + injection Hloop as <- <-. congruence.
    + destruct (outcome (network (requests_made w) url params)) as [r|].
      * destruct (status_code r =? 429).
        -- destruct Hcase as (Hrl & _ & [->|(e & ->)]).
           ++ eapply IH; eauto.
           ++ injection Hloop as <- <-. congruence.
        -- destruct Hcase as (-> & Hcase). injection Hloop as <- <-.
           rewrite Hon in Hcase. simpl in Hcase.
           destruct (response_ok r) eqn:Hok.
           ++ destruct (SUCCESSFUL_REQUESTS_TO_RESET <=? _successful_requests w + 1).
              ** destruct Hcase as (Hs & _). eauto.
              ** destruct Hcase as (_ & Hrl). congruence.
           ++ destruct Hcase as (_ & Hrl). congruence.
      * destruct Hcase as (_ & Hrl & ->).
        destruct (a =? MAX_RETRIES)%nat.
        -- injection Hloop as <- <-. congruence.
        -- eapply IH; eauto; congruence.
Qed.

Lemma attempts_loop_throttled (url : string) (params : list (string * string))
    (attempts : list nat) (w : World) res w' :
  attempts_loop network url params attempts w = (res, w') ->
  _rate_limited w = false -> _rate_limited w' = true ->
  exists n r,
    (requests_made w <= n < requests_made w')%nat /\
    outcome (network n url params) = Responded r /\ status_code r = 429.
Proof.
  revert w. induction attempts as [|a rest IH]; intros w; simpl.
  - intros [= <- <-]. congruence.
  - unfold bind. intros Hloop Hoff Hon.
    destruct (attempt_body network url params a w) as [c w1] eqn:Hbody.
    apply attempt_body_regs in Hbody.
    destruct Hbody as [((e & ->) & _ & Hrl & _)|(Hreq & Hcase)].
    + injection Hloop as <- <-. congruence.
    + destruct (outcome (network (requests_made w) url params)) as [r|] eqn:Hout.
      * destruct (status_code r =? 429) eqn:H429.
        -- apply Z.eqb_eq in H429.
           exists (requests_made w), r. split; [|auto].
           destruct Hcase as (_ & _ & [->|(e & ->)]).
           ++ apply attempts_loop_ge in Hloop. lia.
           ++ injection Hloop as <- <-. lia.
        -- destruct Hcase as (-> & Hcase). injection Hloop as <- <-.
           rewrite Hoff in Hcase. simpl in Hcase.
           destruct (response_ok r); destruct Hcase as (_ & Hrl); congruence.
      * destruct Hcase as (_ & Hrl & ->).
        assert (Hoff1 : _rate_limited w1 = false) by congruence.
        destruct (a =? MAX_RETRIES)%nat.
        -- injection Hloop as <- <-. congruence.
        -- destruct (IH _ Hloop Hoff1 Hon) as (n & r & Hn & Hr).
           exists n, r. split; [lia | exact Hr].
Qed.

(** An exchange that is served, within the budget, after [j] retryable
    ones is what the call returns. *)
Lemma attempts_loop_recovers (url : string) (params : list (string * string))
    (n k j : nat) (w : World) (r : Response) :
  (forall i, 0 <= elapsed (network i url params)) ->
  (k + n = S MAX_RETRIES)%nat -> (j < n)%nat -> wf_world w ->
  (forall i, (i < j)%nat -> retryable (network (requests_made w + i)%nat url params)) ->
  outcome (network (requests_made w + j)%nat url params) = Responded r ->
  status_code r <> 429 ->
  exists w',
    attempts_loop network url params (seq k n) w = (Ok (Some r), w') /\
    requests_made w' = (requests_made w + j + 1)%nat.
Proof.
  intros Hel. revert k j w.
  induction n as [|n IH]; intros k j w Hk Hj Hwf Hretry Hout H429; [lia|].
  assert (Ha : (k <= MAX_RETRIES)%nat) by lia.
  destruct j as [|j].
  - rewrite Nat.add_0_r in Hout.
    destruct (attempts_loop_response network url params k (seq (S k) n) w r Ha Hwf Hout H429)
      as (w' & Hloop & Hreq & _).
    exists w'. split; [exact Hloop | lia].
  - simpl.
    destruct (attempt_body_spec network url params k w Ha Hwf)
      as (res & w1 & Hbody & Hreq & _ & _ & Hspec).
    unfold turn_spec in Hspec.
    pose proof (Hretry 0%nat ltac:(lia)) as Hfirst.
    rewrite Nat.add_0_r in Hfirst. unfold retryable in Hfirst.
    specialize (Hel (requests_made w)).
    unfold bind. rewrite Hbody.
    assert (Hstep : wf_world w1 ->
               exists w', attempts_loop network url params (seq (S k) n) w1 = (Ok (Some r), w') /\
                          requests_made w' = (requests_made w + S j + 1)%nat).
    { intros Hwf1.
      assert (Hretry1 : forall i, (i < j)%nat ->
                 retryable (network (requests_made w1 + i) url params)).
      { intros i Hi. rewrite Hreq.
        replace (S (requests_made w) + i)%nat with (requests_made w + S i)%nat by lia.
        apply Hretry. lia. }
      assert (Hout1 : outcome (network (requests_made w1 + j) url params) = Responded r).
      { rewrite Hreq.
        replace (S (requests_made w) + j)%nat with (requests_made w + S j)%nat by lia.
        exact Hout. }
      destruct (IH (S k) j w1 ltac:(lia) ltac:(lia) Hwf1 Hretry1 Hout1 H429)
        as (w' & Hloop & Hr).
      exists w'. split; [exact Hloop | lia]. }
    destruct (outcome (network (requests_made w) url params)) as [r0|].
    + destruct Hfirst as (Hs & Hra). apply Z.eqb_eq in Hs. rewrite Hs in Hspec.
      destruct Hspec as (Hwf1 & _ & _ & Hres). rewrite (Hres Hra). auto.
    + destruct Hspec as (Hwf1 & _ & _ & ->).
      assert (Hne : (k =? MAX_RETRIES)%nat = false) by (apply Nat.eqb_neq; lia).
      rewrite Hne. exact (Hstep (Hwf1 Hel)).
Qed.

End FetcherTurns.

Section FetcherTraces.

Variable network : nat -> string -> list (string * string) -> Exchange.

(** A first attempt that is not throttled, and fails in transport. *)
Lemma first_attempt_transport_error (url : string) (params : list (string * string))
    (w : World) :
  _rate_limited w = false ->
  outcome (network (requests_made w) url params) = TransportError ->
  exists w',
    attempt_body network url params 0 w = (Ok Continue, w') /\
    trace w' = trace w ++ [EvGet url params] /\
    requests_made w' = S (requests_made w) /\
    _rate_limited w' = false /\ _successful_requests w' = 0.
Proof.
  intros Hoff Hout.
  unfold attempt_body, try_except, bind at 1, wait_before. simpl.
  unfold bind at 1, get_rate_limited. rewrite Hoff. simpl.
  unfold ret at 1, bind at 1, requests_get. rewrite Hout.
  unfold_m. simpl. eexists. split; [reflexivity|]. simpl. auto.
Qed.

(** A retry that fails in transport: the backoff, then the request. *)
Lemma retry_transport_error (url : string) (params : list (string * string))
    (attempt : nat) (w : World) :
  (1 <= attempt <= MAX_RETRIES)%nat ->
  outcome (network (requests_made w) url params) = TransportError ->
  exists w',
    attempt_body network url params attempt w
      = (Ok (if (attempt =? MAX_RETRIES)%nat then Return None else Continue), w') /\
    trace w' = trace w ++ [EvSleep (REQUEST_DELAY * RETRY_DELAY_MULTIPLIER ^ (Z.of_nat attempt - 1));
                           EvGet url params] /\
    requests_made w' = S (requests_made w) /\
    _rate_limited w' = _rate_limited w /\ _successful_requests w' = 0.
Proof.
  intros Ha Hout.
  pose proof (backoff_bounds attempt ltac:(lia)) as Hb.
  unfold attempt_body, try_except, bind at 1, wait_before.
  destruct (0 <? attempt)%nat eqn:Hpos; [|apply Nat.ltb_ge in Hpos; lia].
  unfold time_sleep, SLEEP_MAX.
  set (d := REQUEST_DELAY * RETRY_DELAY_MULTIPLIER ^ (Z.of_nat attempt - 1)) in *.
  destruct (9223372036000 <? Z.abs d) eqn:E1; [apply Z.ltb_lt in E1; lia|].
  destruct (d <? 0) eqn:E2; [apply Z.ltb_lt in E2; lia|].
  destruct (Z.max SLEEP_SAFE (sleep_limit w) <? d) eqn:E3;
    [apply Z.ltb_lt in E3; unfold SLEEP_SAFE in E3; lia|].
  unfold bind at 1, requests_get. simpl. rewrite Hout.
  unfold_m. simpl.
  destruct (attempt =? MAX_RETRIES)%nat;
    (eexists; split; [reflexivity|]; simpl; rewrite <- app_assoc; auto).
Qed.

End FetcherTraces.

(** X1.  A response that [make_rate_limited_request] returns was served by
    the network, for that URL and those parameters, as the answer to the
    last request of the call; and it is never a 429: such a response is
    always retried or given up. *)
Theorem fetcher_returns_served_response
    (network : nat -> string -> list (string * string) -> Exchange)
    (url : string) (params : list (string * string))
    (w : World) (r : Response) (w' : World) :
  make_rate_limited_request network url params w = (Ok (Some r), w') ->
  status_code r <> 429 /\
  (requests_made w < requests_made w')%nat /\
  outcome (network (Nat.pred (requests_made w')) url params) = Responded r.
Proof.
  unfold make_rate_limited_request. apply attempts_loop_served.
Qed.

Lemma fetcher_returns_served_response_witness :
  outcome (Examples.throttled_once 1 Examples.url []) = Responded (mkResponse 200 [] "ok").
Proof.
  destruct (fetcher_returns_served_response Examples.throttled_once Examples.url []
              World0 (mkResponse 200 [] "ok")
              (make_rate_limited_request Examples.throttled_once Examples.url [] World0).2
              ltac:(vm_compute; reflexivity)) as (_ & _ & Hout).
  exact Hout.
Defined.

(** X2.  Every call keeps the counter of successes in range: it is never
    negative and, while the process is throttled, it stays below
    [SUCCESSFUL_REQUESTS_TO_RESET]; this holds however the call ends. *)
Theorem fetcher_keeps_counter_in_range
    (network : nat -> string -> list (string * string) -> Exchange)
    (url : string) (params : list (string * string))
    (w : World) (res : result (option Response)) (w' : World) :
  make_rate_limited_request network url params w = (res, w') ->
  counter_inv w -> counter_inv w'.
Proof.
  unfold make_rate_limited_request. apply attempts_loop_counter.
Qed.

Lemma fetcher_keeps_counter_in_range_witness :
  counter_inv
    (make_rate_limited_request Examples.throttled_once Examples.url []
       (Examples.after_calls Examples.throttled_once 3 World0)).2.
Proof.
  apply (fetcher_keeps_counter_in_range Examples.throttled_once Examples.url []
           (Examples.after_calls Examples.throttled_once 3 World0)
           (make_rate_limited_request Examples.throttled_once Examples.url []
              (Examples.after_calls Examples.throttled_once 3 World0)).1
           (make_rate_limited_request Examples.throttled_once Examples.url []
              (Examples.after_calls Examples.throttled_once 3 World0)).2
           (surjective_pairing _)).
  unfold counter_inv. split; [vm_compute; discriminate|].
  intros _. vm_compute. reflexivity.
Defined.

(** X3.  The throttle is lifted only by success: a call that starts
    throttled and ends unthrottled returned a response that is ok, and
    leaves the counter at 0. *)
Theorem throttle_lifted_only_by_success
    (network : nat -> string -> list (string * string) -> Exchange)
    (url : string) (params : list (string * string))
    (w : World) (res : result (option Response)) (w' : World) :
  make_rate_limited_request network url params w = (res, w') ->
  _rate_limited w = true -> _rate_limited w' = false ->
  exists r, res = Ok (Some r) /\ response_ok r = true /\ _successful_requests w' = 0.
Proof.
  unfold make_rate_limited_request. apply attempts_loop_unthrottled.
Qed.

Lemma throttle_lifted_only_by_success_witness :
  exists r,
    (make_rate_limited_request Examples.throttled_once Examples.url []
       (Examples.after_calls Examples.throttled_once 4 World0)).1 = Ok (Some r) /\
    response_ok r = true.
Proof.
  destruct (throttle_lifted_only_by_success Examples.throttled_once Examples.url []
              (Examples.after_calls Examples.throttled_once 4 World0) _ _
              (surjective_pairing _)
              ltac:(vm_compute; reflexivity) ltac:(vm_compute; reflexivity))
    as (r & Hres & Hok & _).
  exists r. split; assumption.
Defined.

(** X4.  The throttle is set only by a 429: a call that starts unthrottled
    and ends throttled was answered 429 on one of its requests. *)
Theorem throttle_set_only_by_429
    (network : nat -> string -> list (string * string) -> Exchange)
    (url : string) (params : list (string * string))
    (w : World) (res : result (option Response)) (w' : World) :
  make_rate_limited_request network url params w = (res, w') ->
  _rate_limited w = false -> _rate_limited w' = true ->
  exists n r,
    (requests_made w <= n < requests_made w')%nat /\
    outcome (network n url params) = Responded r /\ status_code r = 429.
Proof.
  unfold make_rate_limited_request. apply attempts_loop_throttled.
Qed.

Lemma throttle_set_only_by_429_witness :
  exists n r,
    (n < 2)%nat /\
    outcome (Examples.throttled_once n Examples.url []) = Responded r /\
    status_code r = 429.
Proof.
  destruct (throttle_set_only_by_429 Examples.throttled_once Examples.url []
              World0 _ _ (surjective_pairing _)
              ltac:(reflexivity) ltac:(vm_compute; reflexivity))
    as (n & r & Hn & Hout & Hstatus).
  exists n, r. split; [|auto].
  vm_compute in Hn. lia.
Defined.

(** X5.  As long as every 429 carries a [Retry-After] that is absent, empty
    or a numeral that [int] reads, of a number of seconds that every timer
    grants to [time.sleep], a call to the fetcher raises nothing: it returns
    a response or [None]. *)
Theorem fetcher_returns_with_numeric_retry_after
    (network : nat -> string -> list (string * string) -> Exchange)
    (url : string) (params : list (string * string)) (w : World) :
  (forall i r, outcome (network i url params) = Responded r ->
               status_code r = 429 -> retry_after_ok r) ->
  (forall i, 0 <= elapsed (network i url params)) ->
  wf_world w ->
  exists res w', make_rate_limited_request network url params w = (Ok res, w').
Proof.
  intros Hheader Hel Hwf. unfold make_rate_limited_request.
  apply attempts_loop_returns; auto.
Qed.

Lemma fetcher_returns_with_numeric_retry_after_witness :
  exists res w',
    make_rate_limited_request Examples.flaky Examples.url [] World0 = (Ok res, w').
Proof.
  apply (fetcher_returns_with_numeric_retry_after Examples.flaky Examples.url [] World0).
  - intros i r. unfold Examples.flaky.
    destruct (Nat.even i); simpl; [|discriminate].
    intros [= <-] _. unfold retry_after_ok. simpl.
    exists 1. vm_compute. repeat split; congruence.
  - intros i. unfold Examples.flaky. destruct (Nat.even i); simpl; lia.
  - vm_compute. discriminate.
Defined.

(** X6.  Retrying works within the budget: when the first [j] exchanges of
    a call are transport failures or 429 responses that the 429 branch gets
    through (see [retry_after_ok]), and the next one, with
    [j] at most [MAX_RETRIES], is a response with another status, the call
    returns that response after exactly [j + 1] requests. *)
Theorem fetcher_recovers_within_budget
    (network : nat -> string -> list (string * string) -> Exchange)
    (url : string) (params : list (string * string))
    (j : nat) (w : World) (r : Response) :
  (forall i, 0 <= elapsed (network i url params)) ->
  (j <= MAX_RETRIES)%nat -> wf_world w ->
  (forall i, (i < j)%nat -> retryable (network (requests_made w + i)%nat url params)) ->
  outcome (network (requests_made w + j)%nat url params) = Responded r ->
  status_code r <> 429 ->
  exists w',
    make_rate_limited_request network url params w = (Ok (Some r), w') /\
    requests_made w' = (requests_made w + j + 1)%nat.
Proof.
  intros Hel Hj Hwf Hretry Hout H429. unfold make_rate_limited_request.
  apply attempts_loop_recovers; auto; lia.
Qed.

Lemma fetcher_recovers_within_budget_witness :
  exists w',
    make_rate_limited_request Examples.throttled_once Examples.url [] World0
      = (Ok (Some (mkResponse 200 [] "ok")), w') /\
    requests_made w' = 2%nat.
Proof.
  apply (fetcher_recovers_within_budget Examples.throttled_once Examples.url []
           1 World0 (mkResponse 200 [] "ok")).
  - intros i. unfold Examples.throttled_once. destruct i; simpl; lia.
  - unfold MAX_RETRIES. lia.
  - vm_compute. discriminate.
  - intros i Hi. assert (i = 0%nat) as -> by lia.
    split; [reflexivity | exact I].
  - reflexivity.
  - simpl. lia.
Defined.

(** X7.  A 429 whose [Retry-After] is a numeral that [int] reads, of [n]
    seconds that every timer grants, marks the process as throttled, resets
    the counter and sleeps [n] seconds after the response before the turn
    ends; the loop then goes on to the next attempt. *)
Theorem retry_after_is_slept
    (network : nat -> string -> list (string * string) -> Exchange)
    (url : string) (params : list (string * string)) (attempt : nat)
    (w : World) (r : Response) (c : ascii) (s : string) (n : Z) :
  (attempt <= MAX_RETRIES)%nat -> wf_world w ->
  outcome (network (requests_made w) url params) = Responded r ->
  status_code r = 429 ->
  headers_get "Retry-After" (headers r) = Some (String c s) ->
  PyStr.int (String c s) = Some n ->
  0 <= n -> n * 1000 <= SLEEP_SAFE ->
  exists w',
    attempt_body network url params attempt w = (Ok Continue, w') /\
    _rate_limited w' = true /\ _successful_requests w' = 0 /\
    last (trace w') = Some (EvSleep (n * 1000)) /\
    clock w' = _last_request_time w' + n * 1000.
Proof.
  intros Ha Hwf Hout H429 Hheader Hint Hpos Hmax.
  destruct (wait_before_ok attempt w Ha Hwf)
    as (w1 & Hw & Hrl & _ & _ & Hreq & _).
  unfold attempt_body, try_except, bind at 1. rewrite Hw.
  unfold bind at 1, requests_get. rewrite Hreq, Hout.
  apply Z.eqb_eq in H429.
  unfold_m. simpl. rewrite H429. simpl. rewrite Hheader. simpl. rewrite Hint.
  unfold SLEEP_MAX, SLEEP_SAFE in *.
  destruct (_rate_limited w1); simpl;
    (destruct (9223372036000 <? Z.abs (n * 1000)) eqn:E1; [apply Z.ltb_lt in E1; lia|]);
    (destruct (n * 1000 <? 0) eqn:E2; [apply Z.ltb_lt in E2; lia|]);
    (destruct (Z.max 4294967295 (sleep_limit w1) <? n * 1000) eqn:E3;
       [apply Z.ltb_lt in E3; lia|]);
    (eexists; split; [reflexivity|]; simpl; repeat split; auto using last_snoc).
Qed.

Lemma retry_after_is_slept_witness :
  exists w',
    attempt_body Examples.flaky Examples.url [] 0 World0 = (Ok Continue, w') /\
    _rate_limited w' = true /\ _successful_requests w' = 0 /\
    last (trace w') = Some (EvSleep 1000) /\
    clock w' = _last_request_time w' + 1000.
Proof.
  apply (retry_after_is_slept Examples.flaky Examples.url [] 0 World0
           (mkResponse 429 [("retry-after", "1")] EmptyString) "1" EmptyString 1).
  - unfold MAX_RETRIES. lia.
  - vm_compute. discriminate.
  - reflexivity.
  - reflexivity.
  - reflexivity.
  - reflexivity.
  - lia.
  - vm_compute. discriminate.
Defined.

(** X8.  The backoff schedule: a call that starts unthrottled and meets only
    transport failures issues [MAX_RETRIES + 1] requests, waits 2, 4 and 8
    seconds between them, and returns [None] with the counter at 0. *)
Theorem transport_failures_follow_backoff
    (network : nat -> string -> list (string * string) -> Exchange)
    (url : string) (params : list (string * string)) (w : World) :
  _rate_limited w = false ->
  (forall i, outcome (network i url params) = TransportError) ->
  exists w',
    make_rate_limited_request network url params w = (Ok None, w') /\
    trace w' = trace w ++ [ EvGet url params; EvSleep 2000;
                            EvGet url params; EvSleep 4000;
                            EvGet url params; EvSleep 8000;
                            EvGet url params ] /\
    _successful_requests w' = 0.
Proof.
  intros Hoff Hfail.
  destruct (first_attempt_transport_error network url params w Hoff (Hfail _))
    as (w1 & Hb1 & Ht1 & _ & Hoff1 & _).
  destruct (retry_transport_error network url params 1 w1
              ltac:(unfold MAX_RETRIES; lia) (Hfail _))
    as (w2 & Hb2 & Ht2 & _).
  destruct (retry_transport_error network url params 2 w2
              ltac:(unfold MAX_RETRIES; lia) (Hfail _))
    as (w3 & Hb3 & Ht3 & _).
  destruct (retry_transport_error network url params 3 w3
              ltac:(unfold MAX_RETRIES; lia) (Hfail _))
    as (w4 & Hb4 & Ht4 & _ & _ & Hs4).
  exists w4.
  unfold make_rate_limited_request. simpl.
  unfold bind. rewrite Hb1. rewrite Hb2. simpl. rewrite Hb3. simpl. rewrite Hb4. simpl.
  split; [reflexivity|]. split; [|exact Hs4].
  rewrite Ht4, Ht3, Ht2, Ht1. rewrite <- !app_assoc. reflexivity.
Qed.

Lemma transport_failures_follow_backoff_witness :
  exists w',
    make_rate_limited_request (Examples.always Examples.unreachable) Examples.url [] World0
      = (Ok None, w') /\
    trace w' = [ EvGet Examples.url []; EvSleep 2000;
                 EvGet Examples.url []; EvSleep 4000;
                 EvGet Examples.url []; EvSleep 8000;
                 EvGet Examples.url [] ] /\
    _successful_requests w' = 0.
Proof.
  apply (transport_failures_follow_backoff (Examples.always Examples.unreachable)
           Examples.url [] World0).
  - reflexivity.
  - intros i. reflexivity.
Defined.

(* ===================================================================== *)
(** * Further properties of the string helpers *)
(* ===================================================================== *)

Section StringFacts.

Lemma lstrip_head (s : string) :
  PyStr.lstrip s = EmptyString \/
  exists c r, PyStr.lstrip s = String c r /\ PyStr.isspace c = false.
Proof.
  induction s as [|c r IH]; simpl; [auto|].
  destruct (PyStr.isspace c) eqn:Hc; [exact IH|]. right. eauto.
Qed.

Lemma rstrip_head (c : ascii) (r : string) :
  PyStr.isspace c = false -> exists r', PyStr.rstrip (String c r) = String c r'.
Proof.
  intros Hc. simpl. destruct (PyStr.rstrip r); [rewrite Hc|]; eauto.
Qed.

Lemma rstrip_idempotent (s : string) : PyStr.rstrip (PyStr.rstrip s) = PyStr.rstrip s.
Proof.
  induction s as [|c r IH]; simpl; [reflexivity|].
  destruct (PyStr.rstrip r) as [|c' r'] eqn:Hr.
  - destruct (PyStr.isspace c) eqn:Hc; simpl; [reflexivity|]. rewrite Hc. reflexivity.
  - simpl in IH |- *. destruct (PyStr.rstrip r') as [|c'' r''] eqn:Hr'.
    + destruct (PyStr.isspace c'); [discriminate|]. injection IH as <-. reflexivity.
    + injection IH as <-. reflexivity.
Qed.

Lemma strip_idempotent (s : string) : PyStr.strip (PyStr.strip s) = PyStr.strip s.
Proof.
  unfold PyStr.strip.
  destruct (lstrip_head s) as [->|(c & r & -> & Hc)]; [reflexivity|].
  destruct (rstrip_head c r Hc) as (r' & Hr).
  assert (Hl : PyStr.lstrip (PyStr.rstrip (String c r)) = PyStr.rstrip (String c r)).
  { rewrite Hr. simpl. rewrite Hc. reflexivity. }
  rewrite Hl. apply rstrip_idempotent.
Qed.

Lemma prefix_slash (c : ascii) (r : string) :
  String.prefix "/" (String c r) = Ascii.eqb c "/".
Proof.
  change (String.prefix "/" (String c r))
    with (if ascii_dec "/" c then String.prefix EmptyString r else false).
  destruct (ascii_dec "/" c) as [Heq|Hne].
  - replace (String.prefix EmptyString r) with true by (destruct r; reflexivity).
    symmetry. apply Ascii.eqb_eq. congruence.
  - symmetry. apply Ascii.eqb_neq. congruence.
Qed.

Lemma contains_slash_cons (c : ascii) (r : string) :
  PyStr.contains "/" (String c r) = Ascii.eqb c "/" || PyStr.contains "/" r.
Proof.
  change (PyStr.contains "/" (String c r))
    with (String.prefix "/" (String c r) || PyStr.contains "/" r).
  rewrite prefix_slash. reflexivity.
Qed.

Lemma last_segment_no_slash (s : string) :
  PyStr.contains "/" (PyStr.last_segment "/" s) = false.
Proof.
  induction s as [|c r IH]; simpl; [reflexivity|].
  destruct (Ascii.eqb c "/") eqn:Hc; [exact IH|].
  destruct (PyStr.contains "/" r) eqn:Hr; [exact IH|].
  rewrite contains_slash_cons, Hc, Hr. reflexivity.
Qed.

Lemma remove_from_no_slash (sub : string) (s : string) (skip : nat) :
  PyStr.contains "/" s = false ->
  PyStr.contains "/" (PyStr.remove_from sub skip s) = false.
Proof.
  revert skip. induction s as [|c r IH]; intros skip; [reflexivity|].
  rewrite contains_slash_cons. intros H.
  apply orb_false_iff in H as (Hc & Hr).
  cbn [PyStr.remove_from]. destruct skip as [|k]; [|auto].
  destruct (String.prefix sub (String c r)); [auto|].
  rewrite contains_slash_cons, Hc. cbn [orb]. auto.
Qed.

Lemma until_slash_no_slash (s : string) :
  PyStr.contains "/" (until_slash s) = false.
Proof.
  induction s as [|c r IH]; [reflexivity|].
  cbn [until_slash].
  destruct (Ascii.eqb c "/") eqn:Hc; [reflexivity|].
  rewrite contains_slash_cons, Hc. exact IH.
Qed.

Lemma until_slash_prefix (s : string) : String.prefix (until_slash s) s = true.
Proof.
  induction s as [|c r IH]; [reflexivity|].
  cbn [until_slash].
  destruct (Ascii.eqb c "/"); [reflexivity|].
  cbn [String.prefix].
  destruct (ascii_dec c c); [exact IH | congruence].
Qed.

Lemma until_slash_app (t rest : string) :
  PyStr.contains "/" t = false ->
  until_slash (t +:+ String "/" rest) = t.
Proof.
  induction t as [|c r IH]; [reflexivity|].
  rewrite contains_slash_cons. intros H.
  apply orb_false_iff in H as (Hc & Hr).
  change (until_slash (String c (r +:+ String "/" rest)) = String c r).
  cbn [until_slash]. rewrite Hc, (IH Hr). reflexivity.
Qed.

End StringFacts.

(* ===================================================================== *)
(** * Further properties of the attachment code *)
(* ===================================================================== *)


Lemma re_search_exb_step (a : ascii) (r code : string) :
  re_search_exb (String a r) = Some code ->
  (exists c r', String a r = "exb-" +:+ String c r' /\ Ascii.eqb c "/" = false /\
                code = "exb-" +:+ until_slash (String c r')) \/
  re_search_exb r = Some code.
Proof.
  destruct (ascii_dec a "e") as [->|Ha];
    [|intros H; right; rewrite <- H; symmetry; other_char a Ha].
  destruct r as [|b r]; [intros H; right; exact H|].
  destruct (ascii_dec b "x") as [->|Hb];
    [|intros H; right; rewrite <- H; symmetry; other_char b Hb].
  destruct r as [|d r]; [intros H; right; exact H|].
  destruct (ascii_dec d "b") as [->|Hd];
    [|intros H; right; rewrite <- H; symmetry; other_char d Hd].
  destruct r as [|f r]; [intros H; right; exact H|].
  destruct (ascii_dec f "-") as [->|Hf];
    [|intros H; right; rewrite <- H; symmetry; other_char f Hf].
  destruct r as [|c r]; [intros H; right; exact H|].
  change (re_search_exb (String "e" (String "x" (String "b" (String "-" (String c r))))))
    with (if Ascii.eqb c "/" then re_search_exb (String "x" (String "b" (String "-" (String c r))))
          else Some ("exb-" +:+ until_slash (String c r))).
  destruct (Ascii.eqb c "/") eqn:Hc.
  - intros H. right. exact H.
  - intros [= <-]. left. exists c, r. auto.
Qed.

Lemma contains_cons (sub : string) (a : ascii) (r : string) :
  PyStr.contains sub (String a r) = String.prefix sub (String a r) || PyStr.contains sub r.
Proof.
  reflexivity.
Qed.

Lemma re_search_exb_code (s code : string) :
  re_search_exb s = Some code ->
  exists c t,
    code = "exb-" +:+ String c t /\
    Ascii.eqb c "/" = false /\ PyStr.contains "/" t = false /\
    PyStr.contains code s = true.
Proof.
  induction s as [|a r IH]; [discriminate|].
  intros H. apply re_search_exb_step in H as [(c & r' & Hs & Hc & ->)|H].
  - exists c, (until_slash r'). rewrite Hs.
    assert (Hu : until_slash (String c r') = String c (until_slash r'))
      by (simpl; rewrite Hc; reflexivity).
    rewrite Hu. repeat split; auto using until_slash_no_slash.
    change (PyStr.contains ("exb-" +:+ String c (until_slash r')) ("exb-" +:+ String c r'))
      with (String.prefix (String c (until_slash r')) (String c r')
            || PyStr.contains ("exb-" +:+ String c (until_slash r')) ("xb-" +:+ String c r')).
    rewrite <- Hu, until_slash_prefix. reflexivity.
  - destruct (IH H) as (c & t & Hcode & Hc & Ht & Hin).
    exists c, t. repeat split; auto.
    rewrite contains_cons, Hin. apply orb_true_r.
Qed.

Lemma pdf_url_search (c : ascii) (t : string) :
  Ascii.eqb c "/" = false -> PyStr.contains "/" t = false ->
  re_search_exb (pdf_url ("exb-" +:+ String c t)) = Some ("exb-" +:+ String c t) /\
  PyStr.contains "externebijlagen" (pdf_url ("exb-" +:+ String c t)) = true.
Proof.
  intros Hc Ht. unfold pdf_url.
  set (rest := "1/bijlage/" +:+ ("exb-" +:+ String c t) +:+ ".pdf").
  assert (Happ : (REPOSITORY_BASE_URL +:+ "/externebijlagen/" +:+ ("exb-" +:+ String c t)
                  +:+ "/1/bijlage/" +:+ ("exb-" +:+ String c t) +:+ ".pdf")
                 = (REPOSITORY_BASE_URL +:+ "/externebijlagen/" +:+ "exb-")
                   +:+ String c (t +:+ String "/" rest)).
  { reflexivity. }
  rewrite Happ. generalize (until_slash_app t rest Ht).
  generalize (t +:+ String "/" rest). intros z Hz.
  split.
  - lazy -[until_slash Ascii.eqb]. rewrite Hc.
    cbn [until_slash]. rewrite Hc, Hz. reflexivity.
  - lazy -[until_slash Ascii.eqb]. reflexivity.
Qed.

(** X9.  A code that [re.search] extracts starts with [exb-], goes on with
    at least one more character, holds no slash, and occurs in the string it
    was extracted from. *)
Theorem extracted_code_shape (s code : string) :
  re_search_exb s = Some code ->
  (exists c t, code = "exb-" +:+ String c t) /\
  PyStr.contains "/" code = false /\
  PyStr.contains code s = true.
Proof.
  intros H. destruct (re_search_exb_code s code H) as (c & t & -> & Hc & Ht & Hin).
  split; [eauto|]. split; [|exact Hin].
  change ("exb-" +:+ String c t)
    with (String "e" (String "x" (String "b" (String "-" (String c t))))).
  rewrite !contains_slash_cons, Hc, Ht. reflexivity.
Qed.

Lemma extracted_code_shape_witness :
  PyStr.contains "/" "exb-2024-30101" = false /\
  PyStr.contains "exb-2024-30101" "zie /bijlagen/exb-2024-30101/kaart" = true.
Proof.
  destruct (extracted_code_shape "zie /bijlagen/exb-2024-30101/kaart" "exb-2024-30101"
              ltac:(reflexivity)) as (_ & Hslash & Hin).
  split; assumption.
Defined.

(** X10.  The address that the orchestrator builds from an extracted code
    gives the code back: the route, which searches the address with the same
    pattern, finds that very code, and recognises the address by the word
    [externebijlagen]. *)
Theorem pdf_url_gives_back_code (v code : string) :
  re_search_exb v = Some code ->
  re_search_exb (pdf_url code) = Some code /\
  PyStr.contains "externebijlagen" (pdf_url code) = true.
Proof.
  intros H. destruct (re_search_exb_code v code H) as (c & t & -> & Hc & Ht & _).
  apply pdf_url_search; assumption.
Qed.

Lemma pdf_url_gives_back_code_witness :
  re_search_exb (pdf_url "exb-2024-30101") = Some "exb-2024-30101" /\
  PyStr.contains "externebijlagen" (pdf_url "exb-2024-30101") = true.
Proof.
  apply (pdf_url_gives_back_code "bijlage exb-2024-30101/1" "exb-2024-30101").
  reflexivity.
Defined.

(* ===================================================================== *)
(** * Further properties of the metadata parser and the image locator *)
(* ===================================================================== *)

Lemma gebied_of_all (areas : list Element) :
  Forall2 area_marking_of areas (map gebied_of areas).
Proof.
  induction areas as [|a areas IH]; simpl; constructor; auto using gebied_of_spec.
Qed.

Lemma last_In {A} (l : list A) (x : A) : last l = Some x -> In x l.
Proof.
  intros H. apply last_Some in H as (l' & ->).
  apply in_or_app. right. left. reflexivity.
Qed.

(** X11.  Whatever their number, the area markings of a metadata document
    are all kept, in source order, under the reserved key, each with its
    type, geometry and label; without any area marking the reserved key is
    absent. *)
Theorem parse_metadata_block_area_markings (meta_root : Element) :
  match List.filter is_area_marking (findall_children "metadata" meta_root) with
  | [] => parse_metadata_block meta_root !! GEBIEDSMARKERING = None
  | areas =>
      exists gs,
        parse_metadata_block meta_root !! GEBIEDSMARKERING = Some (MAreas gs) /\
        Forall2 area_marking_of areas gs
  end.
Proof.
  destruct (parse_metadata_block_lookup meta_root) as (Hres & _).
  destruct (List.filter is_area_marking (findall_children "metadata" meta_root))
    as [|a areas]; [exact Hres|].
  eexists. split; [exact Hres|]. apply gebied_of_all.
Qed.

(** X12.  The dictionary of [parse_metadata_block] is well typed: a string
    value sits under a key other than the reserved one, is the trimmed
    content of an entry of that name, and is itself free of surrounding
    white space; a list value sits under the reserved key only and is never
    empty. *)
Theorem parse_metadata_block_values (meta_root : Element) (k : string) :
  match parse_metadata_block meta_root !! k with
  | Some (MStr v) =>
      k <> GEBIEDSMARKERING /\ PyStr.strip v = v /\
      exists m c,
        In m (findall_children "metadata" meta_root) /\
        entry_name m = Some k /\ entry_content m = Some c /\ v = PyStr.strip c
  | Some (MAreas gs) => k = GEBIEDSMARKERING /\ gs <> []
  | None => True
  end.
Proof.
  destruct (parse_metadata_block_lookup meta_root) as (Hres & Hscalar).
  destruct (decide (k = GEBIEDSMARKERING)) as [->|Hk].
  - rewrite Hres.
    destruct (List.filter is_area_marking (findall_children "metadata" meta_root));
      [exact I|]. split; [reflexivity | discriminate].
  - rewrite (Hscalar k Hk). unfold scalar_value.
    destruct (last (List.filter (is_scalar_for k) (findall_children "metadata" meta_root)))
      as [m|] eqn:Hlast; simpl; [|exact I].
    apply last_In in Hlast. apply List.filter_In in Hlast as (Hin & Hm).
    unfold is_scalar_for in Hm.
    apply andb_true_iff in Hm as (Hm & Hcontent).
    apply andb_true_iff in Hm as (Hm & _).
    apply andb_true_iff in Hm as (_ & Hname).
    apply bool_decide_eq_true_1 in Hname.
    destruct (entry_content m) as [c|] eqn:Hc; [|discriminate].
    split; [exact Hk|]. split; [apply strip_idempotent|].
    exists m, c. auto.
Qed.

Lemma embedded_fold (illustrations : list Element) (image_urls : list string) :
  fold_left embedded_step illustrations image_urls
  = image_urls ++ map embedded_url (file_names illustrations).
Proof.
  revert image_urls. induction illustrations as [|ill rest IH]; intros image_urls; simpl.
  - rewrite app_nil_r. reflexivity.
  - rewrite IH. unfold embedded_step, file_names. simpl.
    destruct (attrib ill !! "naam") as [[|c r]|]; simpl; try reflexivity.
    rewrite <- app_assoc. reflexivity.
Qed.

(** X13.  [get_embedded_image_urls_from_xml] gives one address per
    illustration element below the root whose [naam] is present and not
    empty, in document order, each made of the base address, a slash and
    the file name; a body that does not parse gives none. *)
Theorem embedded_image_urls_by_file_name
    (fromstring : string -> option Element) (xml_string : string) :
  get_embedded_image_urls_from_xml fromstring xml_string
  = match fromstring xml_string with
    | Some root =>
        map embedded_url (file_names (findall_descendants "illustratie" root))
    | None => []
    end.
Proof.
  unfold get_embedded_image_urls_from_xml.
  destruct (fromstring xml_string); [|reflexivity].
  apply embedded_fold.
Qed.

(** X14.  The text that [extract_plain_text_from_xml] returns never begins
    or ends with white space: trimming it again changes nothing.  This holds
    for the empty text of an unparsable body as well. *)
Theorem extracted_text_is_trimmed
    (fromstring : string -> option Element) (xml_string : string) :
  PyStr.strip (extract_plain_text_from_xml fromstring xml_string)
  = extract_plain_text_from_xml fromstring xml_string.
Proof.
  unfold extract_plain_text_from_xml.
  destruct (fromstring xml_string); [apply strip_idempotent | reflexivity].
Qed.

(* ===================================================================== *)
(** * Further properties of the orchestrator *)
(* ===================================================================== *)

Section OrchestratorFacts.

Variable network : nat -> string -> list (string * string) -> Exchange.
Variable fromstring : string -> option Element.
Variable decode : string -> string.

(** The dictionary [item_urls]: a key holds the text of the last item that
    carries it. *)
Lemma item_urls_fold (key : string) (items : list Element)
    (d : gmap (option string) (option string)) :
  fold_left (fun d item => <[attrib item !! "manifestation" := text item]> d) items d
    !! Some key
  = match last (List.filter (has_manifestation key) items) with
    | Some item => Some (text item)
    | None => d !! Some key
    end.
Proof.
  induction items as [|item items IH] using rev_ind; simpl; [reflexivity|].
  rewrite fold_left_app. simpl. rewrite last_filter_snoc.
  unfold has_manifestation at 1.
  destruct (decide (attrib item !! "manifestation" = Some key)) as [Hk|Hk].
  - rewrite (bool_decide_eq_true_2 _ Hk), Hk. apply lookup_insert_eq.
  - rewrite (bool_decide_eq_false_2 _ Hk).
    rewrite lookup_insert_ne by exact Hk. exact IH.
Qed.

Lemma item_urls_get_url (key : string) (record : Element) :
  item_urls_get (item_urls_of record) key = url_of_record key record.
Proof.
  unfold item_urls_get, item_urls_of, url_of_record.
  rewrite item_urls_fold.
  destruct (last _); [reflexivity|]. rewrite lookup_empty. reflexivity.
Qed.

Lemma fetch_metadata_le (metadata_url : option string) (w : World) res w' :
  fetch_metadata network fromstring metadata_url w = (res, w') ->
  (requests_made w' <= requests_made w + (MAX_RETRIES + 1))%nat /\
  files w' = files w /\ dirs w' = dirs w.
Proof.
  unfold fetch_metadata.
  destruct (PyStr.truthy metadata_url); [|intros [= <- <-]; repeat split; auto; lia].
  unfold bind, make_rate_limited_request.
  destruct (attempts_loop network _ [] _ w) as [[meta_resp|e] w1] eqn:Hreq;
    apply attempts_loop_le in Hreq as (Hle & Hf & Hd); rewrite length_seq in Hle.
  - destruct (response_truthy meta_resp); [destruct (fromstring _)|];
      intros [= <- <-]; auto.
  - intros [= <- <-]; auto.
Qed.

Lemma record_body_le (record : Element) (w : World) res w' :
  record_body network fromstring decode record w = (res, w') ->
  (requests_made w' <= requests_made w + 2 * (MAX_RETRIES + 1))%nat /\
  files w' = files w /\ dirs w' = dirs w.
Proof.
  unfold record_body.
  destruct (negb (PyStr.truthy (item_urls_get (item_urls_of record) "xml")));
    [intros [= <- <-]; repeat split; auto; lia|].
  unfold bind at 1, make_rate_limited_request.
  destruct (attempts_loop network _ [] _ w) as [[xml_resp|e] w1] eqn:Hreq;
    apply attempts_loop_le in Hreq as (Hle & Hf & Hd); rewrite length_seq in Hle;
    [|intros [= <- <-]; repeat split; auto; lia].
  destruct (negb (response_truthy xml_resp));
    [intros [= <- <-]; repeat split; auto; lia|].
  destruct (existsb _ EXCLUDE_KEYWORDS);
    [intros [= <- <-]; repeat split; auto; lia|].
  unfold bind at 1.
  destruct (fetch_metadata network fromstring _ w1) as [[md|e] w2] eqn:Hmeta;
    apply fetch_metadata_le in Hmeta as (Hle2 & Hf2 & Hd2);
    [|intros [= <- <-]; repeat split; try congruence; lia].
  unfold bind, lift.
  destruct (locate fromstring md _);
    intros [= <- <-]; repeat split; try congruence; lia.
Qed.

Lemma records_loop_le (records : list Element) (acc : list DocumentRecord)
    (w : World) res w' :
  records_loop network fromstring decode records acc w = (res, w') ->
  (requests_made w' <= requests_made w + 2 * (MAX_RETRIES + 1) * length records)%nat /\
  files w' = files w /\ dirs w' = dirs w /\
  forall recs, res = Ok recs -> (length recs <= length acc + length records)%nat.
Proof.
  revert acc w. induction records as [|record rest IH]; intros acc w; simpl.
  - intros [= <- <-]. repeat split; auto; try lia.
    intros recs [= <-]. lia.
  - unfold bind.
    destruct (record_body network fromstring decode record w) as [[r|e] w1] eqn:Hbody;
      apply record_body_le in Hbody as (Hle & Hf & Hd).
    + intros Hloop. apply IH in Hloop as (Hle' & Hf' & Hd' & Hlen).
      unfold MAX_RETRIES in *.
      repeat split; try congruence; [lia|].
      intros recs Hres. specialize (Hlen recs Hres).
      rewrite length_app in Hlen.
      destruct r; simpl in Hlen; lia.
    + intros [= <- <-]. unfold MAX_RETRIES in *.
      repeat split; auto; [lia | discriminate].
Qed.

End OrchestratorFacts.

(** X15.  The work of [get_besluiten_for_date] is bounded by the search
    answer: with [n] the number of records of the parsed answer (none when
    the search fails or does not parse), the run issues at most
    [(MAX_RETRIES + 1) * (1 + 2 * n)] requests and returns at most [n]
    decisions. *)
Theorem orchestrator_output_bounded
    (network : nat -> string -> list (string * string) -> Exchange)
    (fromstring : string -> option Element) (decode : string -> string)
    (date_str : string) (w : World)
    (res : result (list DocumentRecord)) (w' : World) :
  get_besluiten_for_date network fromstring decode date_str w = (res, w') ->
  exists records,
    (records = [] \/
     exists n resp root,
       outcome (network n SRU_BASE_URL (sru_params date_str)) = Responded resp /\
       fromstring (content resp) = Some root /\
       records = findall_descendants (SRU_NS +:+ "recordData") root) /\
    (requests_made w' <= requests_made w + (MAX_RETRIES + 1) * (1 + 2 * length records))%nat /\
    forall recs, res = Ok recs -> (length recs <= length records)%nat.
Proof.
  unfold get_besluiten_for_date. unfold bind at 1, mkdir.
  set (w0 := mkWorld _ _ _ _ _ _ _ _ _ _).
  assert (Hw0 : requests_made w0 = requests_made w) by reflexivity.
  unfold bind.
  destruct (make_rate_limited_request network SRU_BASE_URL (sru_params date_str) w0)
    as [[response|e] w1] eqn:Hreq.
  - pose proof Hreq as Hle. unfold make_rate_limited_request in Hle.
    apply attempts_loop_le in Hle as (Hle & _ & _). rewrite length_seq in Hle.
    unfold MAX_RETRIES in *.
    destruct response as [resp|]; simpl.
    + destruct (response_ok resp); simpl.
      * destruct (fromstring (content resp)) as [root|] eqn:Hparse.
        -- intros Hloop. apply records_loop_le in Hloop as (Hle' & _ & _ & Hlen).
           unfold MAX_RETRIES in *.
           exists (findall_descendants (SRU_NS +:+ "recordData") root).
           split; [|split; [lia | exact Hlen]].
           right. apply make_rate_limited_request_origin in Hreq as (n & Hn).
           exists n, resp, root. auto.
        -- intros [= <- <-]. exists []. simpl.
           split; [auto|]. split; [lia|]. intros recs [= <-]. simpl. lia.
      * intros [= <- <-]. exists []. simpl.
        split; [auto|]. split; [lia|]. intros recs [= <-]. simpl. lia.
    + intros [= <- <-]. exists []. simpl.
      split; [auto|]. split; [lia|]. intros recs [= <-]. simpl. lia.
  - pose proof Hreq as Hle. unfold make_rate_limited_request in Hle.
    apply attempts_loop_le in Hle as (Hle & _ & _). rewrite length_seq in Hle.
    unfold MAX_RETRIES in *.
    intros [= <- <-]. exists []. simpl.
    split; [auto|]. split; [lia | discriminate].
Qed.

Lemma orchestrator_output_bounded_witness :
  exists records,
    (records = [] \/
     exists n resp root,
       outcome (Examples.missing_metadata_site n SRU_BASE_URL (sru_params "2024-05-01"))
         = Responded resp /\
       MiniXml.fromstring (content resp) = Some root /\
       records = findall_descendants (SRU_NS +:+ "recordData") root) /\
    (requests_made
       (get_besluiten_for_date Examples.missing_metadata_site MiniXml.fromstring
          Examples.ascii_decode "2024-05-01" World0).2
     <= requests_made World0 + (MAX_RETRIES + 1) * (1 + 2 * length records))%nat /\
    forall recs,
      (get_besluiten_for_date Examples.missing_metadata_site MiniXml.fromstring
         Examples.ascii_decode "2024-05-01" World0).1 = Ok recs ->
      (length recs <= length records)%nat.
Proof.
  exact (orchestrator_output_bounded Examples.missing_metadata_site MiniXml.fromstring
           Examples.ascii_decode "2024-05-01" World0 _ _ (surjective_pairing _)).
Defined.



(** X17.  The id of a returned decision holds no slash, whatever the content
    URL looked like: it is cut from what follows the last slash of the URL. *)
Theorem record_ids_hold_no_slash
    (network : nat -> string -> list (string * string) -> Exchange)
    (fromstring : string -> option Element) (decode : string -> string)
    (date_str : string) (w : World) (recs : list DocumentRecord) (w' : World)
    (d : DocumentRecord) :
  get_besluiten_for_date network fromstring decode date_str w = (Ok recs, w') ->
  In d recs ->
  PyStr.contains "/" (doc_id d) = false.
Proof.
  intros Hrun Hin.
  unfold get_besluiten_for_date in Hrun. unfold bind at 1 in Hrun. simpl in Hrun.
  unfold bind at 1 in Hrun.
  destruct (make_rate_limited_request network SRU_BASE_URL (sru_params date_str) _)
    as [[response|e] w1]; [|discriminate].
  destruct (response_truthy response); simpl in Hrun;
    [|injection Hrun as <- <-; contradiction].
  destruct (fromstring _) as [root|];
    [|injection Hrun as <- <-; contradiction].
  destruct (records_loop_In network fromstring decode _ _ _ _ _ d Hrun Hin)
    as [[]|(record & w0 & w2 & _ & Hbody)].
  apply record_body_some in Hbody
    as (content_url & resp & w3 & _ & _ & _ & _ & _ & _ & _ & Hid).
  rewrite Hid. unfold PyStr.remove.
  apply remove_from_no_slash, last_segment_no_slash.
Qed.

Lemma record_ids_hold_no_slash_witness :
  PyStr.contains "/" "stcrt-2024-101" = false.
Proof.
  apply (record_ids_hold_no_slash Examples.missing_metadata_site MiniXml.fromstring
           Examples.ascii_decode "2024-05-01" World0
           [mkDocumentRecord "stcrt-2024-101" "Afsluiting Dorpsstraat" ∅ [];
            mkDocumentRecord "stcrt-2024-102" "Inrichting schoolzone" ∅ []]
           (get_besluiten_for_date Examples.missing_metadata_site MiniXml.fromstring
              Examples.ascii_decode "2024-05-01" World0).2
           (mkDocumentRecord "stcrt-2024-101" "Afsluiting Dorpsstraat" ∅ [])).
  - vm_compute. reflexivity.
  - left. reflexivity.
Defined.



(** X19.  A search record that gives no content URL (no item with the
    manifestation [xml], or one whose text is missing or empty; of several
    such items the last one counts) is skipped, and costs no request. *)
Theorem record_without_content_url_is_skipped
    (network : nat -> string -> list (string * string) -> Exchange)
    (fromstring : string -> option Element) (decode : string -> string)
    (record : Element) (w : World) :
  PyStr.truthy (url_of_record "xml" record) = false ->
  record_body network fromstring decode record w = (Ok None, w).
Proof.
  intros Hurl. unfold record_body.
  rewrite item_urls_get_url, Hurl. reflexivity.
Qed.

Lemma record_without_content_url_is_skipped_witness :
  record_body Examples.missing_metadata_site MiniXml.fromstring Examples.ascii_decode
    (nth 0 (Examples.records_of
              (Examples.search_response
                 (Examples.search_record (Examples.item "metadata" Examples.meta1))))
       Examples.no_element)
    World0
  = (Ok None, World0).
Proof.
  apply record_without_content_url_is_skipped.
  vm_compute. reflexivity.
Defined.

(** X20.  A metadata document that cannot be fetched costs the decision
    nothing but its metadata: when the metadata request ends without a
    response or with a failure status, the record is assembled with an empty
    metadata dictionary, its text, and its embedded images only. *)
Theorem failed_metadata_fetch_keeps_record
    (network : nat -> string -> list (string * string) -> Exchange)
    (fromstring : string -> option Element) (decode : string -> string)
    (record : Element) (w : World) (content_url : string) (resp : Response)
    (w1 : World) (metadata_url : string) (meta_resp : option Response) (w2 : World) :
  url_of_record "xml" record = Some content_url ->
  PyStr.truthy (Some content_url) = true ->
  make_rate_limited_request network content_url [] w = (Ok (Some resp), w1) ->
  response_ok resp = true ->
  keyword_free (decode (content resp)) ->
  url_of_record "metadata" record = Some metadata_url ->
  PyStr.truthy (Some metadata_url) = true ->
  make_rate_limited_request network metadata_url [] w1 = (Ok meta_resp, w2) ->
  response_truthy meta_resp = false ->
  record_body network fromstring decode record w
  = (Ok (Some (mkDocumentRecord
                 (PyStr.remove ".xml" (PyStr.last_segment "/" content_url))
                 (extract_plain_text_from_xml fromstring (decode (content resp)))
                 ∅
                 (get_embedded_image_urls_from_xml fromstring (decode (content resp))))),
     w2).
Proof.
  intros Hurl Htruthy Hreq Hok Hfree Hmurl Hmtruthy Hmreq Hfalsy.
  unfold record_body. rewrite !item_urls_get_url, Hurl, Hmurl, Htruthy.
  cbn [negb from_option id].
  unfold bind at 1. rewrite Hreq. cbn [response_truthy negb from_option].
  rewrite Hok. cbn [negb].
  apply keyword_free_existsb in Hfree. rewrite Hfree.
  unfold bind at 1.
  rewrite (fetch_metadata_failed network fromstring metadata_url w1 meta_resp w2
             Hmtruthy Hmreq Hfalsy).
  reflexivity.
Qed.

Lemma failed_metadata_fetch_keeps_record_witness :
  record_body Examples.missing_metadata_site MiniXml.fromstring Examples.ascii_decode
    (nth 0 (Examples.records_of Examples.two_records) Examples.no_element) World0
  = (Ok (Some (mkDocumentRecord
                 (PyStr.remove ".xml" (PyStr.last_segment "/" Examples.doc1))
                 (extract_plain_text_from_xml MiniXml.fromstring
                    (Examples.ascii_decode "<besluit>Afsluiting Dorpsstraat</besluit>"))
                 ∅
                 (get_embedded_image_urls_from_xml MiniXml.fromstring
                    (Examples.ascii_decode "<besluit>Afsluiting Dorpsstraat</besluit>")))),
     (make_rate_limited_request Examples.missing_metadata_site Examples.meta1 []
        (make_rate_limited_request Examples.missing_metadata_site Examples.doc1 []
           World0).2).2).
Proof.
  apply (failed_metadata_fetch_keeps_record Examples.missing_metadata_site
           MiniXml.fromstring Examples.ascii_decode _ World0 Examples.doc1
           (mkResponse 200 [] "<besluit>Afsluiting Dorpsstraat</besluit>")
           (make_rate_limited_request Examples.missing_metadata_site Examples.doc1 []
              World0).2
           Examples.meta1 (Some (mkResponse 404 [] EmptyString))).
  - vm_compute. reflexivity.
  - reflexivity.
  - vm_compute. reflexivity.
  - reflexivity.
  - apply keyword_free_existsb. vm_compute. reflexivity.
  - vm_compute. reflexivity.
  - reflexivity.
  - vm_compute. reflexivity.
  - reflexivity.
Defined.

(* ===================================================================== *)
(** * Further properties of the PDF materializer *)
(* ===================================================================== *)

Section MaterializerFacts.

Variable network : nat -> string -> list (string * string) -> Exchange.
Variable Page : Type.
Variable convert_from_bytes : string -> result (list Page).
Variable page_png : Page -> result string.
Variable should_download_image : string -> result bool.

(** The platform does not change under the fetcher: the limit of the timer
    and the refused paths are those of the start. *)
Lemma wait_before_platform (attempt : nat) (w : World) :
  let w1 := (wait_before attempt w).2 in
  refused w1 = refused w /\ sleep_limit w1 = sleep_limit w.
Proof.
  unfold wait_before.
  destruct (0 <? attempt)%nat.
  - unfold time_sleep.
    repeat match goal with |- context [if ?b then _ else _] => destruct b end;
      simpl; split; reflexivity.
  - unfold_m. simpl.
    repeat match goal with |- context [if ?b then _ else _] => destruct b end;
      simpl; split; reflexivity.
Qed.

Lemma attempt_body_platform (url : string) (params : list (string * string))
    (attempt : nat) (w : World) res w' :
  attempt_body network url params attempt w = (res, w') ->
  refused w' = refused w /\ sleep_limit w' = sleep_limit w.
Proof.
  pose proof (wait_before_platform attempt w) as (Hrefused & Hlimit).
  unfold attempt_body, try_except, bind at 1.
  destruct (wait_before attempt w) as [[[]|e] w1]; simpl in Hrefused, Hlimit.
  - unfold bind at 1, requests_get.
    destruct (outcome (network (requests_made w1) url params)) as [r|].
    + unfold_m. simpl.
      repeat match goal with
             | |- context [if ?b then _ else _] => destruct b
             | |- context [match ?o with Some _ => _ | None => _ end] => destruct o
             end; simpl; intros [= <- <-]; simpl;
        rewrite ?Hrefused, ?Hlimit; split; reflexivity.
    + unfold_m. simpl.
      destruct (attempt =? MAX_RETRIES)%nat; simpl; intros [= <- <-]; simpl;
        rewrite ?Hrefused, ?Hlimit; split; reflexivity.
  - destruct e; unfold_m; simpl;
      repeat match goal with |- context [if ?b then _ else _] => destruct b end;
      simpl; intros [= <- <-]; simpl;
      rewrite ?Hrefused, ?Hlimit; split; reflexivity.
Qed.

Lemma attempts_loop_platform (url : string) (params : list (string * string))
    (attempts : list nat) (w : World) res w' :
  attempts_loop network url params attempts w = (res, w') ->
  refused w' = refused w /\ sleep_limit w' = sleep_limit w.
Proof.
  revert w. induction attempts as [|a rest IH]; intros w; simpl.
  - intros [= <- <-]. split; reflexivity.
  - unfold bind.
    destruct (attempt_body network url params a w) as [[[|r]|e] w1] eqn:Hbody;
      apply attempt_body_platform in Hbody as (Hrefused & Hlimit).
    + intros Hloop. apply IH in Hloop as (Hrefused' & Hlimit').
      split; congruence.
    + intros [= <- <-]. split; assumption.
    + intros [= <- <-]. split; assumption.
Qed.

Lemma make_rate_limited_request_platform (url : string)
    (params : list (string * string)) (w : World) res w' :
  make_rate_limited_request network url params w = (res, w') ->
  refused w' = refused w /\ sleep_limit w' = sleep_limit w.
Proof.
  unfold make_rate_limited_request. apply attempts_loop_platform.
Qed.

Lemma contains_slash_app (a b : string) :
  PyStr.contains "/" (a +:+ b) = PyStr.contains "/" a || PyStr.contains "/" b.
Proof.
  induction a as [|c a IH]; [reflexivity|].
  change (String c a +:+ b) with (String c (a +:+ b)).
  rewrite !contains_slash_cons, IH, orb_assoc. reflexivity.
Qed.

(** The directory of a file that is named without a slash. *)
Lemma parent_join (dir name : string) :
  PyStr.contains "/" name = false -> parent (dir +:+ "/" +:+ name) = dir.
Proof.
  intros Hname. induction dir as [|c dir IH].
  - change (parent (String "/" name) = EmptyString).
    cbn [parent]. rewrite Hname. reflexivity.
  - change (String c dir +:+ "/" +:+ name) with (String c (dir +:+ "/" +:+ name)).
    cbn [parent].
    assert (PyStr.contains "/" (dir +:+ "/" +:+ name) = true) as ->.
    { rewrite contains_slash_app.
      change ("/" +:+ name) with (String "/" name).
      rewrite (contains_slash_cons "/" name). apply orb_true_r. }
    rewrite IH. reflexivity.
Qed.

(** The image of a decision whose id holds no slash lies in the image
    directory itself. *)
Lemma parent_bijlage_path (besluit_id : string) :
  PyStr.contains "/" besluit_id = false ->
  parent (bijlage_path besluit_id) = AFBEELDINGEN_DIR.
Proof.
  intros Hid. unfold bijlage_path. apply parent_join.
  rewrite contains_slash_app, Hid. reflexivity.
Qed.

(** The inner [try] on a positive verdict, when the file system takes the
    file. *)
Lemma first_page_saved (page : Page) (besluit_id : string) (w : World)
    (img_bytes : string) :
  page_png page = Ok img_bytes -> should_download_image img_bytes = Ok true ->
  parent (bijlage_path besluit_id) ∈ dirs w ->
  bijlage_path besluit_id ∉ refused w ->
  exists w',
    first_page Page page_png should_download_image page besluit_id w
      = (Ok (Return (bijlage_url besluit_id)), w') /\
    files w' = <[bijlage_path besluit_id := img_bytes]> (files w) /\
    requests_made w' = requests_made w.
Proof.
  intros Hpng Hverdict Hdir Hfree.
  unfold first_page, try_except, bind at 1, lift at 1. rewrite Hpng.
  unfold bind at 1, lift at 1. rewrite Hverdict.
  unfold page_save, bind, lift, write_file, ret. rewrite Hpng.
  fold (bijlage_path besluit_id).
  rewrite (bool_decide_eq_true_2 _ Hdir), (bool_decide_eq_false_2 _ Hfree).
  eexists. split; [reflexivity|]. split; reflexivity.
Qed.

(** The inner [try]: it raises nothing, and it returns an address only
    after writing the encoded page under the name of the decision. *)
Lemma first_page_cases (page : Page) (besluit_id : string) (w : World) :
  first_page Page page_png should_download_image page besluit_id w = (Ok Continue, w) \/
  first_page Page page_png should_download_image page besluit_id w
    = (Ok (Return EmptyString), w) \/
  exists img_bytes w',
    page_png page = Ok img_bytes /\ should_download_image img_bytes = Ok true /\
    first_page Page page_png should_download_image page besluit_id w
      = (Ok (Return (bijlage_url besluit_id)), w') /\
    files w' = <[bijlage_path besluit_id := img_bytes]> (files w) /\
    requests_made w' = requests_made w.
Proof.
  destruct (page_png page) as [img_bytes|e] eqn:Hpng.
  - destruct (should_download_image img_bytes) as [[|]|e] eqn:Hverdict.
    + destruct (decide (parent (bijlage_path besluit_id) ∈ dirs w)) as [Hdir|Hdir];
        [destruct (decide (bijlage_path besluit_id ∈ refused w)) as [Hfree|Hfree]|].
      * left. unfold first_page, try_except, bind at 1, lift at 1. rewrite Hpng.
        unfold bind at 1, lift at 1. rewrite Hverdict.
        unfold page_save, bind, lift, write_file, ret. rewrite Hpng.
        fold (bijlage_path besluit_id).
        rewrite (bool_decide_eq_true_2 _ Hfree), andb_false_r. reflexivity.
      * right. right. exists img_bytes.
        destruct (first_page_saved page besluit_id w img_bytes Hpng Hverdict Hdir Hfree)
          as (w' & Hrun & Hfiles & Hrm).
        exists w'. rewrite <- Hpng. auto.
      * left. unfold first_page, try_except, bind at 1, lift at 1. rewrite Hpng.
        unfold bind at 1, lift at 1. rewrite Hverdict.
        unfold page_save, bind, lift, write_file, ret. rewrite Hpng.
        fold (bijlage_path besluit_id).
        rewrite (bool_decide_eq_false_2 _ Hdir). reflexivity.
    + right. left. unfold first_page, try_except, bind, lift, ret.
      rewrite Hpng, Hverdict. reflexivity.
    + left. unfold first_page, try_except, bind, lift, ret.
      rewrite Hpng, Hverdict. reflexivity.
  - left. unfold first_page, try_except, bind, lift, ret.
    rewrite Hpng. reflexivity.
Qed.

End MaterializerFacts.

(** X21.  [download_en_convert_pdf_bijlage] raises nothing, whatever the
    network, the renderer, the encoder and the classifier do: it returns the
    empty string, or the address of the image of the decision, and then the
    image file of that decision exists. *)
Theorem materializer_never_raises
    (network : nat -> string -> list (string * string) -> Exchange)
    (Page : Type) (convert_from_bytes : string -> result (list Page))
    (page_png : Page -> result string) (should_download_image : string -> result bool)
    (pdf_exb_code besluit_id : string) (w : World) :
  exists image_url w',
    download_en_convert_pdf_bijlage network Page convert_from_bytes page_png
      should_download_image pdf_exb_code besluit_id w = (Ok image_url, w') /\
    (image_url = EmptyString \/
     (image_url = bijlage_url besluit_id /\
      is_Some (files w' !! bijlage_path besluit_id))).
Proof.
  unfold download_en_convert_pdf_bijlage.
  unfold bind at 1, try_except at 1, bind at 1.
  destruct (make_rate_limited_request network _ [] w) as [[resp|e] w1];
    [|do 2 eexists; split; [reflexivity | auto]].
  destruct (response_truthy resp && _ && _);
    [|do 2 eexists; split; [reflexivity | auto]].
  unfold bind at 1, lift at 1.
  destruct (convert_from_bytes _) as [[|page pages]|e];
    try (do 2 eexists; split; [reflexivity | auto]; fail).
  destruct (first_page_cases Page page_png should_download_image page besluit_id w1)
    as [H|[H|(img & w2 & _ & _ & H & Hfiles & _)]]; rewrite H.
  - do 2 eexists; split; [reflexivity | auto].
  - do 2 eexists; split; [reflexivity | auto].
  - do 2 eexists; split; [reflexivity|]. right. split; [reflexivity|].
    rewrite Hfiles, lookup_insert_eq. eauto.
Qed.

Lemma length_append (a b : string) :
  String.length (a +:+ b) = (String.length a + String.length b)%nat.
Proof.
  induction a as [|c a IH]; [reflexivity|].
  change (S (String.length (a +:+ b)) = S (String.length a + String.length b)).
  rewrite IH. reflexivity.
Qed.

Lemma padding_length (n : nat) : String.length (Examples.padding n) = n.
Proof.
  induction n as [|n IH]; simpl; [reflexivity|]. rewrite IH. reflexivity.
Qed.

(** The example PDF passes the size guard. *)
Lemma pdf_bytes_usable :
  usable_pdf (Ok (Some (mkResponse 200 [] Examples.pdf_bytes))) = true.
Proof.
  unfold usable_pdf, response_ok. cbn [status_code content].
  unfold Examples.pdf_bytes. rewrite length_append, padding_length.
  rewrite Nat2Z.inj_add, N_nat_Z. reflexivity.
Qed.

(** X22.  A download that cannot be a PDF is not rendered: when the fetch
    raises, gives no response, a status other than 200 or at most
    [MIN_PDF_SIZE_BYTES] bytes, the result is the empty string, whatever the
    renderer and the classifier would do, and no file is written. *)
Theorem unusable_download_gives_empty
    (network : nat -> string -> list (string * string) -> Exchange)
    (Page : Type) (convert_from_bytes : string -> result (list Page))
    (page_png : Page -> result string) (should_download_image : string -> result bool)
    (pdf_exb_code besluit_id : string) (w : World)
    (fetched : result (option Response)) (w1 : World) :
  make_rate_limited_request network (pdf_url pdf_exb_code) [] w = (fetched, w1) ->
  usable_pdf fetched = false ->
  download_en_convert_pdf_bijlage network Page convert_from_bytes page_png
    should_download_image pdf_exb_code besluit_id w = (Ok EmptyString, w1) /\
  files w1 = files w.
Proof.
  intros Hreq Hunusable.
  split; [|apply make_rate_limited_request_files in Hreq as (Hf & _); exact Hf].
  unfold download_en_convert_pdf_bijlage. fold (pdf_url pdf_exb_code).
  unfold bind at 1, try_except at 1, bind at 1. rewrite Hreq.
  destruct fetched as [[resp|]|e]; simpl in *; [rewrite Hunusable| |]; reflexivity.
Qed.

Lemma unusable_download_gives_empty_witness :
  download_en_convert_pdf_bijlage
    (Examples.always (Examples.answer 200 [] "<html>Niet gevonden</html>"))
    string Examples.render Examples.encode (fun _ => Ok true)
    "exb-2024-30101" "stcrt-2024-101" World0
  = (Ok EmptyString,
     (make_rate_limited_request
        (Examples.always (Examples.answer 200 [] "<html>Niet gevonden</html>"))
        (pdf_url "exb-2024-30101") [] World0).2) /\
  files (make_rate_limited_request
           (Examples.always (Examples.answer 200 [] "<html>Niet gevonden</html>"))
           (pdf_url "exb-2024-30101") [] World0).2 = files World0.
Proof.
  apply (unusable_download_gives_empty
           (Examples.always (Examples.answer 200 [] "<html>Niet gevonden</html>"))
           string Examples.render Examples.encode (fun _ => Ok true)
           "exb-2024-30101" "stcrt-2024-101" World0
           (Ok (Some (mkResponse 200 [] "<html>Niet gevonden</html>")))).
  - vm_compute. reflexivity.
  - reflexivity.
Defined.

(** X23.  On a positive verdict the first page, and only the first, is
    saved: when the PDF is usable and renders, the classifier accepts the
    encoded first page, the image directory exists, the id of the decision
    holds no slash and the file system does not refuse the file, that
    encoding is written to the file named after the decision (not after the
    attachment code), and the address of that file is returned. *)
Theorem positive_verdict_saves_first_page
    (network : nat -> string -> list (string * string) -> Exchange)
    (Page : Type) (convert_from_bytes : string -> result (list Page))
    (page_png : Page -> result string) (should_download_image : string -> result bool)
    (pdf_exb_code besluit_id : string) (w : World) (resp : Response) (w1 : World)
    (page : Page) (pages : list Page) (img_bytes : string) :
  make_rate_limited_request network (pdf_url pdf_exb_code) [] w = (Ok (Some resp), w1) ->
  usable_pdf (Ok (Some resp)) = true ->
  convert_from_bytes (content resp) = Ok (page :: pages) ->
  page_png page = Ok img_bytes ->
  should_download_image img_bytes = Ok true ->
  AFBEELDINGEN_DIR ∈ dirs w ->
  PyStr.contains "/" besluit_id = false ->
  bijlage_path besluit_id ∉ refused w ->
  exists w2,
    download_en_convert_pdf_bijlage network Page convert_from_bytes page_png
      should_download_image pdf_exb_code besluit_id w
      = (Ok (bijlage_url besluit_id), w2) /\
    files w2 = <[bijlage_path besluit_id := img_bytes]> (files w) /\
    requests_made w2 = requests_made w1.
Proof.
  intros Hreq Husable Hrender Hpng Hverdict Hdir Hid Hfree.
  unfold download_en_convert_pdf_bijlage. fold (pdf_url pdf_exb_code).
  unfold bind at 1, try_except at 1, bind at 1. rewrite Hreq.
  simpl in Husable. cbn [from_option response_truthy]. rewrite Husable.
  unfold bind at 1, lift at 1. rewrite Hrender.
  pose proof (make_rate_limited_request_files _ _ _ _ _ _ Hreq) as (Hf & Hd).
  pose proof (make_rate_limited_request_platform _ _ _ _ _ _ Hreq) as (Hr & _).
  destruct (first_page_saved Page page_png should_download_image
              page besluit_id w1 img_bytes Hpng Hverdict)
    as (w2 & H & Hfiles & Hrm).
  - rewrite (parent_bijlage_path besluit_id Hid), Hd. exact Hdir.
  - rewrite Hr. exact Hfree.
  - rewrite H. exists w2. split; [reflexivity|].
    split; [congruence | exact Hrm].
Qed.

Lemma positive_verdict_saves_first_page_witness :
  exists w2,
    download_en_convert_pdf_bijlage
      (Examples.always (Examples.answer 200 [] Examples.pdf_bytes))
      string Examples.render Examples.encode (fun _ => Ok true)
      "exb-2024-30101" "stcrt-2024-101" (mkdir AFBEELDINGEN_DIR World0).2
      = (Ok (bijlage_url "stcrt-2024-101"), w2) /\
    files w2 = <[bijlage_path "stcrt-2024-101" := "PNG page 1"]> (files World0).
Proof.
  destruct (make_rate_limited_request_response
              (Examples.always (Examples.answer 200 [] Examples.pdf_bytes))
              (pdf_url "exb-2024-30101") [] (mkdir AFBEELDINGEN_DIR World0).2
              (mkResponse 200 [] Examples.pdf_bytes))
    as (w1 & Hreq & _ & _);
    [unfold wf_world; simpl; lia | reflexivity | simpl; lia |].
  destruct (positive_verdict_saves_first_page
              (Examples.always (Examples.answer 200 [] Examples.pdf_bytes))
              string Examples.render Examples.encode (fun _ => Ok true)
              "exb-2024-30101" "stcrt-2024-101" (mkdir AFBEELDINGEN_DIR World0).2
              (mkResponse 200 [] Examples.pdf_bytes) w1
              "page 1" [] "PNG page 1"
              Hreq pdf_bytes_usable eq_refl eq_refl eq_refl)
    as (w2 & Hrun & Hfiles & _).
  - simpl. apply elem_of_union_l, elem_of_singleton. reflexivity.
  - reflexivity.
  - simpl. apply not_elem_of_empty.
  - exists w2. split; assumption.
Defined.



(** X24.  A collaborator that fails is a page not kept: when the renderer
    raises or finds no page, or the encoder or the classifier raises, the
    exception is swallowed, the result is the empty string and no file is
    written. *)
Theorem collaborator_failure_gives_empty
    (network : nat -> string -> list (string * string) -> Exchange)
    (Page : Type) (convert_from_bytes : string -> result (list Page))
    (page_png : Page -> result string) (should_download_image : string -> result bool)
    (pdf_exb_code besluit_id : string) (w : World) (resp : Response) (w1 : World) :
  make_rate_limited_request network (pdf_url pdf_exb_code) [] w = (Ok (Some resp), w1) ->
  ((exists e, convert_from_bytes (content resp) = Raise e) \/
   convert_from_bytes (content resp) = Ok [] \/
   exists page pages,
     convert_from_bytes (content resp) = Ok (page :: pages) /\
     ((exists e, page_png page = Raise e) \/
      exists img_bytes e,
        page_png page = Ok img_bytes /\ should_download_image img_bytes = Raise e)) ->
  download_en_convert_pdf_bijlage network Page convert_from_bytes page_png
    should_download_image pdf_exb_code besluit_id w = (Ok EmptyString, w1) /\
  files w1 = files w.
Proof.
  intros Hreq Hfail.
  split; [|apply make_rate_limited_request_files in Hreq as (Hf & _); exact Hf].
  unfold download_en_convert_pdf_bijlage. fold (pdf_url pdf_exb_code).
  unfold bind at 1, try_except at 1, bind at 1. rewrite Hreq.
  cbn [from_option response_truthy].
  destruct (response_ok resp && _ && _); [|reflexivity].
  unfold bind at 1, lift at 1.
  destruct Hfail as [(e & ->)|[->|(page & pages & -> & Hpage)]]; try reflexivity.
  unfold first_page, try_except, bind at 1, lift at 1.
  destruct Hpage as [(e & ->)|(img & e & -> & Hverdict)]; [reflexivity|].
  unfold bind at 1, lift at 1. rewrite Hverdict. reflexivity.
Qed.

Lemma collaborator_failure_gives_empty_witness :
  exists w1,
    download_en_convert_pdf_bijlage
      (Examples.always (Examples.answer 200 [] Examples.pdf_bytes))
      string (fun _ => Raise (Exception "PDFSyntaxError")) Examples.encode
      (fun _ => Ok true) "exb-2024-30101" "stcrt-2024-101" World0
      = (Ok EmptyString, w1) /\
    files w1 = files World0.
Proof.
  destruct (make_rate_limited_request_response
              (Examples.always (Examples.answer 200 [] Examples.pdf_bytes))
              (pdf_url "exb-2024-30101") [] World0
              (mkResponse 200 [] Examples.pdf_bytes))
    as (w1 & Hreq & _ & _);
    [unfold wf_world; simpl; lia | reflexivity | simpl; lia |].
  exists w1.
  apply (collaborator_failure_gives_empty
           (Examples.always (Examples.answer 200 [] Examples.pdf_bytes))
           string (fun _ => Raise (Exception "PDFSyntaxError")) Examples.encode
           (fun _ => Ok true) "exb-2024-30101" "stcrt-2024-101" World0
           (mkResponse 200 [] Examples.pdf_bytes) w1 Hreq).
  left. eexists. reflexivity.
Defined.

(* ===================================================================== *)
(** * Further properties of the route *)
(* ===================================================================== *)

Section RouteFacts.

Variable network : nat -> string -> list (string * string) -> Exchange.
Variable fromstring : string -> option Element.
Variable decode : string -> string.
Variable Page : Type.
Variable convert_from_bytes : string -> result (list Page).
Variable page_png : Page -> result string.
Variable should_download_image : string -> result bool.

Lemma download_returns (pdf_exb_code besluit_id : string) (w : World) :
  exists image_url w',
    download_en_convert_pdf_bijlage network Page convert_from_bytes page_png
      should_download_image pdf_exb_code besluit_id w = (Ok image_url, w') /\
    (image_url = EmptyString \/ image_url = bijlage_url besluit_id).
Proof.
  unfold download_en_convert_pdf_bijlage.
  unfold bind at 1, try_except at 1, bind at 1.
  destruct (make_rate_limited_request network _ [] w) as [[resp|e] w1];
    [|do 2 eexists; split; [reflexivity | auto]].
  destruct (response_truthy resp && _ && _);
    [|do 2 eexists; split; [reflexivity | auto]].
  unfold bind at 1, lift at 1.
  destruct (convert_from_bytes _) as [[|page pages]|e];
    try (do 2 eexists; split; [reflexivity | auto]; fail).
  destruct (first_page_cases Page page_png should_download_image page besluit_id w1)
    as [H|[H|(img & w2 & _ & _ & H & _)]]; rewrite H;
    do 2 eexists; split; try reflexivity; auto.
Qed.

Lemma besluit_body_update (besluit : DocumentRecord) (w : World) :
  exists b w',
    Route.besluit_body network Page convert_from_bytes page_png should_download_image
      besluit w = (Ok b, w') /\
    image_update besluit b.
Proof.
  unfold Route.besluit_body, image_update.
  destruct (doc_images besluit) as [|pdf_url others] eqn:Himages;
    [do 2 eexists; split; [reflexivity|]; rewrite Himages; auto 6|].
  destruct (PyStr.contains "externebijlagen" pdf_url);
    [|do 2 eexists; split; [reflexivity|]; rewrite Himages; auto 6].
  destruct (re_search_exb pdf_url) as [code|];
    [|do 2 eexists; split; [reflexivity|]; rewrite Himages; auto 6].
  destruct (download_returns code (doc_id besluit) w) as (image_url & w' & Hrun & Hurl).
  unfold bind. rewrite Hrun.
  destruct Hurl as [->| ->].
  - do 2 eexists. split; [reflexivity|]. simpl. auto 6.
  - do 2 eexists. split; [reflexivity|]. simpl.
    repeat split; auto. right. right. eauto.
Qed.

Lemma besluiten_loop_update (besluiten_data : list DocumentRecord) (w : World) :
  exists updated w',
    Route.besluiten_loop network Page convert_from_bytes page_png should_download_image
      besluiten_data w = (Ok updated, w') /\
    Forall2 image_update besluiten_data updated.
Proof.
  revert w. induction besluiten_data as [|besluit rest IH]; intros w; simpl.
  - do 2 eexists. split; [reflexivity | constructor].
  - destruct (besluit_body_update besluit w) as (b & w1 & Hb & Hupd).
    destruct (IH w1) as (bs & w2 & Hbs & Hall).
    unfold bind. rewrite Hb, Hbs.
    do 2 eexists. split; [reflexivity|]. constructor; assumption.
Qed.

End RouteFacts.

(** X25.  The route turns the outcome of the pipeline into a reply: for a
    date it lets through, an exception raised by [get_besluiten_for_date]
    (the [ParseError] of a metadata document, for one) becomes the reply 500
    for the whole date, and an empty list becomes the reply 404. *)
Theorem route_reports_pipeline_outcome
    (network : nat -> string -> list (string * string) -> Exchange)
    (fromstring : string -> option Element) (decode : string -> string)
    (Page : Type) (convert_from_bytes : string -> result (list Page))
    (page_png : Page -> result string) (should_download_image : string -> result bool)
    (date_str : string) (w : World) (res : result (list DocumentRecord)) (w1 : World) :
  Route.valid_date date_str = true ->
  get_besluiten_for_date network fromstring decode date_str w = (res, w1) ->
  match res with
  | Raise _ =>
      Route.get_besluiten_by_date network fromstring decode Page convert_from_bytes
        page_png should_download_image date_str w = (Ok (Route.HTTPException 500), w1)
  | Ok [] =>
      Route.get_besluiten_by_date network fromstring decode Page convert_from_bytes
        page_png should_download_image date_str w = (Ok Route.Reply404, w1)
  | Ok (_ :: _) => True
  end.
Proof.
  unfold Route.valid_date, Route.get_besluiten_by_date. intros Hvalid Hrun.
  apply andb_true_iff in Hvalid as (Hpattern & Hdate).
  apply bool_decide_eq_true_1 in Hdate as (date & Hdate).
  rewrite Hpattern, Hdate. simpl.
  unfold try_except, bind. rewrite Hrun.
  destruct res as [[|d recs]|e]; auto.
Qed.

Lemma route_reports_pipeline_outcome_witness :
  Route.get_besluiten_by_date Examples.broken_metadata_site MiniXml.fromstring
    Examples.ascii_decode string Examples.render Examples.encode Examples.never_a_map
    "2024-05-01" World0
  = (Ok (Route.HTTPException 500),
     (get_besluiten_for_date Examples.broken_metadata_site MiniXml.fromstring
        Examples.ascii_decode "2024-05-01" World0).2).
Proof.
  apply (route_reports_pipeline_outcome Examples.broken_metadata_site MiniXml.fromstring
           Examples.ascii_decode string Examples.render Examples.encode
           Examples.never_a_map "2024-05-01" World0 (Raise ParseError)).
  - vm_compute. reflexivity.
  - vm_compute. reflexivity.
Defined.

(** X26.  When the pipeline returns decisions, the route answers 200 with
    as many decisions, in the same order, and touches nothing but their
    images: each keeps its id, text and metadata, and its images are kept,
    or dropped altogether, or start with the address of the image made from
    its PDF attachment.  No failure of the materializer can turn the reply
    into an error. *)
Theorem route_keeps_decisions
    (network : nat -> string -> list (string * string) -> Exchange)
    (fromstring : string -> option Element) (decode : string -> string)
    (Page : Type) (convert_from_bytes : string -> result (list Page))
    (page_png : Page -> result string) (should_download_image : string -> result bool)
    (date_str : string) (w : World) (d : DocumentRecord) (recs : list DocumentRecord)
    (w1 : World) :
  Route.valid_date date_str = true ->
  get_besluiten_for_date network fromstring decode date_str w = (Ok (d :: recs), w1) ->
  exists updated w2,
    Route.get_besluiten_by_date network fromstring decode Page convert_from_bytes
      page_png should_download_image date_str w = (Ok (Route.Reply200 updated), w2) /\
    Forall2 image_update (d :: recs) updated.
Proof.
  unfold Route.valid_date, Route.get_besluiten_by_date. intros Hvalid Hrun.
  apply andb_true_iff in Hvalid as (Hpattern & Hdate).
  apply bool_decide_eq_true_1 in Hdate as (date & Hdate).
  rewrite Hpattern, Hdate. simpl.
  destruct (besluiten_loop_update network Page convert_from_bytes page_png
              should_download_image (d :: recs) w1) as (updated & w2 & Hloop & Hall).
  unfold try_except, bind at 1. rewrite Hrun.
  unfold bind. rewrite Hloop.
  exists updated, w2. split; [reflexivity | exact Hall].
Qed.

Lemma route_keeps_decisions_witness :
  exists updated w2,
    Route.get_besluiten_by_date Examples.missing_metadata_site MiniXml.fromstring
      Examples.ascii_decode string Examples.render Examples.encode Examples.never_a_map
      "2024-05-01" World0 = (Ok (Route.Reply200 updated), w2) /\
    Forall2 image_update
      [mkDocumentRecord "stcrt-2024-101" "Afsluiting Dorpsstraat" ∅ [];
       mkDocumentRecord "stcrt-2024-102" "Inrichting schoolzone" ∅ []]
      updated.
Proof.
  apply (route_keeps_decisions Examples.missing_metadata_site MiniXml.fromstring
           Examples.ascii_decode string Examples.render Examples.encode
           Examples.never_a_map "2024-05-01" World0 _ _
           (get_besluiten_for_date Examples.missing_metadata_site MiniXml.fromstring
              Examples.ascii_decode "2024-05-01" World0).2).
  - vm_compute. reflexivity.
  - vm_compute. reflexivity.
Defined.

Section DateFacts.

Lemma in_range_dval (lo hi : N) (c : ascii) :
  PyStr.in_range lo hi c = true ->
  Z.of_N lo - 48 <= Route.dval c <= Z.of_N hi - 48.
Proof.
  unfold PyStr.in_range, Route.dval. intros H.
  apply andb_true_iff in H as (Hlo & Hhi).
  apply N.leb_le in Hlo, Hhi. lia.
Qed.

Lemma read_month_spec (s : string) (m : Z) (rest : string) :
  Route.read_month s = Some (m, rest) ->
  1 <= m <= 12 /\
  (String.length rest < String.length s <= String.length rest + 2)%nat.
Proof.
  unfold Route.read_month.
  destruct s as [|a [|b r]]; [discriminate| |].
  - destruct (PyStr.in_range 49 57 a) eqn:Ha; [|discriminate].
    intros [= <- <-]. apply in_range_dval in Ha. simpl. lia.
  - destruct (Ascii.eqb a "1" && PyStr.in_range 48 50 b) eqn:H1.
    { apply andb_true_iff in H1 as (_ & Hb). apply in_range_dval in Hb.
      intros [= <- <-]. simpl. lia. }
    destruct (Ascii.eqb a "0" && PyStr.in_range 49 57 b) eqn:H2.
    { apply andb_true_iff in H2 as (_ & Hb). apply in_range_dval in Hb.
      intros [= <- <-]. simpl. lia. }
    destruct (PyStr.in_range 49 57 a) eqn:Ha; [|discriminate].
    intros [= <- <-]. apply in_range_dval in Ha. simpl. lia.
Qed.

Lemma read_day_spec (s : string) (d : Z) (rest : string) :
  Route.read_day s = Some (d, rest) ->
  1 <= d <= 31 /\
  (String.length rest < String.length s <= String.length rest + 2)%nat.
Proof.
  unfold Route.read_day, Route.isdigit.
  destruct s as [|a [|b r]]; [discriminate| |].
  - destruct (PyStr.in_range 49 57 a) eqn:Ha; [|discriminate].
    intros [= <- <-]. apply in_range_dval in Ha. simpl. lia.
  - destruct (Ascii.eqb a "3" && PyStr.in_range 48 49 b) eqn:H1.
    { apply andb_true_iff in H1 as (_ & Hb). apply in_range_dval in Hb.
      intros [= <- <-]. simpl. lia. }
    destruct (PyStr.in_range 49 50 a && PyStr.in_range 48 57 b) eqn:H2.
    { apply andb_true_iff in H2 as (Ha & Hb).
      apply in_range_dval in Ha. apply in_range_dval in Hb.
      intros [= <- <-]. simpl. lia. }
    destruct (Ascii.eqb a "0" && PyStr.in_range 49 57 b) eqn:H3.
    { apply andb_true_iff in H3 as (_ & Hb). apply in_range_dval in Hb.
      intros [= <- <-]. simpl. lia. }
    destruct (PyStr.in_range 49 57 a) eqn:Ha.
    { intros [= <- <-]. apply in_range_dval in Ha. simpl. lia. }
    destruct (Ascii.eqb a " " && PyStr.in_range 49 57 b) eqn:H4; [|discriminate].
    apply andb_true_iff in H4 as (_ & Hb). apply in_range_dval in Hb.
    intros [= <- <-]. simpl. lia.
Qed.

Lemma days_in_month_bounds (y m : Z) : 28 <= Route.days_in_month y m <= 31.
Proof.
  unfold Route.days_in_month.
  repeat match goal with |- context [if ?b then _ else _] => destruct b end; lia.
Qed.

Lemma strptime_spec (s : string) (y m d : Z) :
  Route.strptime s = Some (y, m, d) ->
  1 <= y <= 9999 /\ 1 <= m <= 12 /\ 1 <= d <= Route.days_in_month y m /\
  (String.length s <= 10)%nat.
Proof.
  unfold Route.strptime, Route.isdigit.
  destruct s as [|y1 [|y2 [|y3 [|y4 [|h1 r1]]]]]; try discriminate.
  destruct (PyStr.in_range 48 57 y1 && PyStr.in_range 48 57 y2 && PyStr.in_range 48 57 y3
            && PyStr.in_range 48 57 y4 && Ascii.eqb h1 "-") eqn:Hy; [|discriminate].
  apply andb_true_iff in Hy as (Hy & _).
  apply andb_true_iff in Hy as (Hy & Hy4).
  apply andb_true_iff in Hy as (Hy & Hy3).
  apply andb_true_iff in Hy as (Hy & Hy2).
  repeat match goal with
         | H : PyStr.in_range _ _ _ = true |- _ => apply in_range_dval in H
         end.
  destruct (Route.read_month r1) as [[m0 [|h2 r2]]|] eqn:Hm; try discriminate.
  destruct (Ascii.eqb h2 "-"); [|discriminate].
  destruct (Route.read_day r2) as [[d0 [|? ?]]|] eqn:Hd; try discriminate.
  apply read_month_spec in Hm as (Hm & Hlm).
  apply read_day_spec in Hd as (Hd & Hld).
  destruct ((1 <=? _) && (d0 <=? Route.days_in_month _ m0)) eqn:Hvalid; [|discriminate].
  apply andb_true_iff in Hvalid as (Hy1 & Hdm).
  apply Z.leb_le in Hy1, Hdm.
  intros [= <- <- <-]. cbn [String.length] in *. repeat split; lia.
Qed.

Lemma path_pattern_length (s : string) :
  Route.path_pattern s = true -> (10 <= String.length s)%nat.
Proof.
  unfold Route.path_pattern.
  destruct s as [|y1 [|y2 [|y3 [|y4 [|h1 [|m1 [|m2 [|h2 [|d1 [|d2 r]]]]]]]]]];
    try discriminate.
  intros _. simpl. lia.
Qed.

End DateFacts.

(** X27.  A string that the route lets through to the pipeline has exactly
    ten characters and names a real calendar day: a year from 1 to 9999, a
    month from 1 to 12 and a day that the month has in that year.  A final
    newline, which the path pattern alone would admit, is refused. *)
Theorem accepted_date_is_calendar_date (date_str : string) :
  Route.valid_date date_str = true ->
  String.length date_str = 10%nat /\
  exists y m d,
    Route.strptime date_str = Some (y, m, d) /\
    1 <= y <= 9999 /\ 1 <= m <= 12 /\ 1 <= d <= Route.days_in_month y m /\
    Route.days_in_month y m <= 31.
Proof.
  unfold Route.valid_date. intros Hvalid.
  apply andb_true_iff in Hvalid as (Hpattern & Hdate).
  apply bool_decide_eq_true_1 in Hdate as ([[y m] d] & Hdate).
  apply path_pattern_length in Hpattern.
  destruct (strptime_spec date_str y m d Hdate) as (Hy & Hm & Hd & Hlen).
  split; [lia|]. exists y, m, d.
  pose proof (days_in_month_bounds y m). repeat split; auto; lia.
Qed.

Lemma accepted_date_is_calendar_date_witness :
  String.length "2024-02-29" = 10%nat /\
  exists y m d,
    Route.strptime "2024-02-29" = Some (y, m, d) /\
    1 <= y <= 9999 /\ 1 <= m <= 12 /\ 1 <= d <= Route.days_in_month y m /\
    Route.days_in_month y m <= 31.
Proof.
  apply accepted_date_is_calendar_date. vm_compute. reflexivity.
Defined.
